(** * The rewards ledger of the vault server, embedded in Rocq

    The program is one JavaScript module of asynchronous helpers over a
    Firestore database ([db.collection(...)...]).  The embedding follows it
    function by function:

    - a JavaScript number is an IEEE 754 binary64 value, Rocq's primitive
      [float]; the other scalars a document holds are [null], booleans and
      strings, and [undefined] is the absence of a value ([None]);
    - a document is a finite map from field names to values, a collection a
      finite map from document ids to documents, the database a finite map
      from collection names to collections;
    - an [async] function is a state-and-exception computation over the
      database: every [await] is a sequential step;
    - the clock, the random numbers and the ids Firestore generates are
      inputs of the operation that consumes them: [generateId] is a function
      of the time and of the digits [Math.random] gives, and a helper that
      calls it takes the id it draws.

    Outside the embedding: fields holding arrays, maps or Firestore
    timestamps; calls that overlap in time; failures of the store itself. *)

From Stdlib Require Import ZArith Floats Ascii String Lia.
From stdpp Require Import base option list gmap strings.

Local Open Scope Z_scope.

(** ** JavaScript numbers *)

Module Num.

(** The double nearest to an integer (ties to even). *)
Definition of_Z (z : Z) : float :=
  SF2Prim (binary_normalize prec emax z 0 false).

(** The double nearest to [(-1)^neg * n * 10^k], for [n >= 0]. *)
Definition of_decimal (neg : bool) (n k : Z) : float :=
  match n with
  | Zpos p =>
      if 0 <=? k then SF2Prim (binary_round prec emax neg (Z.to_pos (Zpos p * 10 ^ k)) 0)
      else
        let '(mz, ez, lz) := SFdiv_core_binary prec emax (Zpos p) 0 (10 ^ (- k)) 0 in
        SF2Prim (binary_round_aux prec emax neg mz ez lz)
  | _ => if neg then PrimFloat.neg_zero else PrimFloat.zero
  end.

(** [Math.max] of two numbers: NaN if either is NaN, and +0 above -0. *)
Definition max (x y : float) : float :=
  if (is_nan x || is_nan y)%bool then nan
  else if (x <? y)%float then y
  else if (y <? x)%float then x
  else if get_sign x then y else x.

(** [Math.ceil]. *)
Definition ceil (x : float) : float :=
  match Prim2SF x with
  | S754_finite s m e =>
      if 0 <=? e then x
      else
        let q := Z.shiftr (Zpos m) (- e) in
        if Z.shiftl q (- e) =? Zpos m then x
        else if s then (if q =? 0 then PrimFloat.neg_zero else (- of_Z q)%float)
        else of_Z (q + 1)
  | _ => x
  end.

(** A finite number as an exact fraction [(sign, numerator, denominator)]. *)
Definition exact (x : float) : option (bool * Z * Z) :=
  match Prim2SF x with
  | S754_zero s => Some (s, 0, 1)
  | S754_finite s m e =>
      if 0 <=? e then Some (s, Z.shiftl (Zpos m) e, 1)
      else Some (s, Zpos m, Z.shiftl 1 (- e))
  | _ => None
  end.

(** The integer part of a finite number (truncation towards zero). *)
Definition trunc (x : float) : option Z :=
  match exact x with
  | Some (s, n, d) => Some (if s then - (n / d) else n / d)
  | None => None
  end.

End Num.

(** ** Strings of digits *)

Module Lit.

Local Open Scope string_scope.
Local Open Scope Z_scope.

Definition code (c : ascii) : Z := Z.of_N (N_of_ascii c).

Definition digit (c : ascii) : option Z :=
  let n := code c in
  if (48 <=? n) && (n <=? 57) then Some (n - 48) else None.

(** The digit of [c] in radix [r <= 16]. *)
Definition digit_in (r : Z) (c : ascii) : option Z :=
  let n := code c in
  let d := if (48 <=? n) && (n <=? 57) then n - 48
           else if (97 <=? n) && (n <=? 102) then n - 87
           else if (65 <=? n) && (n <=? 70) then n - 55
           else r in
  if d <? r then Some d else None.

(** The longest run of decimal digits at the head of [s], accumulated onto
    [acc]; [cnt] counts them. *)
Fixpoint digits (s : string) (acc cnt : Z) : Z * Z * string :=
  match s with
  | String c r =>
      match digit c with
      | Some d => digits r (10 * acc + d) (cnt + 1)
      | None => (acc, cnt, s)
      end
  | EmptyString => (acc, cnt, s)
  end.

(** An [ExponentPart], read only when it is well formed. *)
Definition exponent (s : string) : Z * string :=
  match s with
  | String c r =>
      if (code c =? 101) || (code c =? 69) then
        let '(neg, r1) :=
          match r with
          | String "+" r' => (false, r')
          | String "-" r' => (true, r')
          | _ => (false, r)
          end in
        let '(v, n, r2) := digits r1 0 0 in
        if n =? 0 then (0, s) else (if neg then - v else v, r2)
      else (0, s)
  | EmptyString => (0, s)
  end.

(** The longest [StrUnsignedDecimalLiteral] (other than [Infinity]) at the
    head of [s], as mantissa and decimal exponent, with the rest of [s]. *)
Definition unsigned (s : string) : option (Z * Z * string) :=
  let '(i, ni, r) := digits s 0 0 in
  match r with
  | String "." r1 =>
      let '(m, nf, r2) := digits r1 i 0 in
      if (ni =? 0) && (nf =? 0) then None
      else let '(e, r3) := exponent r2 in Some (m, e - nf, r3)
  | _ =>
      if ni =? 0 then None
      else let '(e, r3) := exponent r in Some (i, e, r3)
  end.

(** The longest [StrDecimalLiteral] at the head of [s] and the rest. *)
Definition decimal (s : string) : option (float * string) :=
  let '(neg, r) :=
    match s with
    | String "+" r' => (false, r')
    | String "-" r' => (true, r')
    | _ => (false, s)
    end in
  if String.prefix "Infinity" r
  then Some (if neg then neg_infinity else infinity, String.substring 8 (String.length r - 8) r)
  else
    match unsigned r with
    | Some (m, e, r') => Some (Num.of_decimal neg m e, r')
    | None => None
    end.

(** All of [s] as digits in radix [r], if it is non-empty and nothing else. *)
Fixpoint radix_digits (r : Z) (s : string) (acc : Z) : option Z :=
  match s with
  | String c EmptyString => option_map (fun d => r * acc + d) (digit_in r c)
  | String c s' =>
      match digit_in r c with
      | Some d => radix_digits r s' (r * acc + d)
      | None => None
      end
  | EmptyString => None
  end.

(** A [NonDecimalIntegerLiteral] ([0x..], [0o..], [0b..]). *)
Definition non_decimal (s : string) : option float :=
  match s with
  | String "0" (String c r) =>
      let n := code c in
      let radix := if (n =? 120) || (n =? 88) then 16
                   else if (n =? 111) || (n =? 79) then 8
                   else if (n =? 98) || (n =? 66) then 2 else 0 in
      if radix =? 0 then None else option_map Num.of_Z (radix_digits radix r 0)
  | _ => None
  end.

(** The byte length of a [WhiteSpace] or [LineTerminator] character at the
    head of [s] (strings are UTF-8); 0 when there is none. *)
Definition ws_length (s : string) : nat :=
  match s with
  | String a r =>
      let a := code a in
      if ((9 <=? a) && (a <=? 13)) || (a =? 32) then 1%nat
      else
        match r with
        | String b r' =>
            let b := code b in
            if (a =? 194) && (b =? 160) then 2%nat
            else
              match r' with
              | String c _ =>
                  let c := code c in
                  if (a =? 225) && (b =? 154) && (c =? 128) then 3%nat
                  else if (a =? 226) && (b =? 128) &&
                          (((128 <=? c) && (c <=? 138)) || (c =? 168) || (c =? 169) || (c =? 175))
                  then 3%nat
                  else if (a =? 226) && (b =? 129) && (c =? 159) then 3%nat
                  else if (a =? 227) && (b =? 128) && (c =? 128) then 3%nat
                  else if (a =? 239) && (b =? 187) && (c =? 191) then 3%nat
                  else 0%nat
              | EmptyString => 0%nat
              end
        | EmptyString => 0%nat
        end
  | EmptyString => 0%nat
  end.

Fixpoint trim_start_fuel (n : nat) (s : string) : string :=
  match n with
  | O => s
  | S n' =>
      match ws_length s with
      | O => s
      | k => trim_start_fuel n' (String.substring k (String.length s - k) s)
      end
  end.

Definition trim_start (s : string) : string := trim_start_fuel (String.length s) s.

Fixpoint trim_end (s : string) : string :=
  match s with
  | String c r => if String.eqb (trim_start s) "" then "" else String c (trim_end r)
  | EmptyString => ""
  end.

Definition trim (s : string) : string := trim_end (trim_start s).

(** The decimal digits of [z >= 0], most significant first. *)
Fixpoint of_Z_fuel (n : nat) (z : Z) (acc : string) : string :=
  match n with
  | O => acc
  | S n' =>
      let acc' := String (ascii_of_N (Z.to_N (48 + z mod 10))) acc in
      if z <? 10 then acc' else of_Z_fuel n' (z / 10) acc'
  end.

Definition of_Z (z : Z) : string := of_Z_fuel (S (Z.to_nat (Z.log2 z))) z "".

Fixpoint zeros (n : nat) : string :=
  match n with
  | O => ""
  | S n' => String "0" (zeros n')
  end.

End Lit.

(** ** JavaScript values and coercions *)

(** The values a document field holds.  [undefined] is no value: an
    expression that may be undefined has type [option value]. *)
Inductive value : Type :=
  | VNull
  | VBool (b : bool)
  | VNum (x : float)
  | VStr (s : string).

(** A time value: milliseconds since the epoch, or NaN for an invalid date. *)
Inductive timeval : Type :=
  | Invalid
  | Ms (t : Z).

(** What the program takes from the JavaScript host and does not fix itself:
    [Date.parse] (whose reading of strings outside the ISO format is the
    implementation's) and the printing of numbers, [Number::toString]. *)
Class Host : Type := {
  Date_parse : string -> timeval;
  Number_toString : float -> string
}.

Module JS.

(** [ToBoolean]. *)
Definition truthy (v : option value) : bool :=
  match v with
  | None | Some VNull => false
  | Some (VBool b) => b
  | Some (VNum x) => negb (is_nan x || is_zero x)
  | Some (VStr s) => negb (String.eqb s "")
  end.

(** [v === s] for a string literal [s]. *)
Definition is_string (s : string) (v : option value) : bool :=
  match v with
  | Some (VStr t) => String.eqb t s
  | _ => false
  end.

(** [a || b]. *)
Definition or (a b : option value) : option value :=
  if truthy a then a else b.

(** [StringToNumber]. *)
Definition String_toNumber (s : string) : float :=
  let t := Lit.trim s in
  if String.eqb t "" then PrimFloat.zero
  else
    match Lit.decimal t with
    | Some (x, EmptyString) => x
    | _ => default nan (Lit.non_decimal t)
    end.

(** [parseFloat] of a string: the longest decimal literal after leading
    white space, NaN when there is none. *)
Definition parseFloat_string (s : string) : float :=
  match Lit.decimal (Lit.trim_start s) with
  | Some (x, _) => x
  | None => nan
  end.

(** [ToNumber]. *)
Definition ToNumber (v : option value) : float :=
  match v with
  | None => nan
  | Some VNull => PrimFloat.zero
  | Some (VBool b) => if b then PrimFloat.one else PrimFloat.zero
  | Some (VNum x) => x
  | Some (VStr s) => String_toNumber s
  end.

(** [TimeClip (ToNumber x)], the time value of [new Date(x)] for a number. *)
Definition TimeClip (x : float) : timeval :=
  match Num.trunc x with
  | Some t => if Z.abs t <=? 8640000000000000 then Ms t else Invalid
  | None => Invalid
  end.

Section WithHost.
Context `{Host}.

(** [ToString]. *)
Definition ToString (v : option value) : string :=
  match v with
  | None => "undefined"
  | Some VNull => "null"
  | Some (VBool b) => if b then "true" else "false"
  | Some (VNum x) => Number_toString x
  | Some (VStr s) => s
  end.

(** [a + b]: concatenation as soon as one operand is a string. *)
Definition add (a b : option value) : value :=
  match a, b with
  | Some (VStr s), _ => VStr (s +:+ ToString b)
  | _, Some (VStr t) => VStr (ToString a +:+ t)
  | _, _ => VNum (ToNumber a + ToNumber b)
  end.

(** [parseFloat(v)]. *)
Definition parseFloat (v : option value) : float :=
  parseFloat_string (ToString v).

(** [x.toFixed(f)] for a number [x]. *)
Definition toFixed (x : float) (f : nat) : string :=
  if is_nan x then "NaN"
  else if (1e21 <=? abs x)%float then Number_toString x
  else
    match Num.exact x with
    | Some (s, n, d) =>
        let p := 10 ^ Z.of_nat f in
        let m := Lit.of_Z ((2 * n * p + d) / (2 * d)) in
        let m := Lit.zeros (S f - String.length m) +:+ m in
        let k := (String.length m - f)%nat in
        (if (x <? 0)%float then "-" else "") +:+ String.substring 0 k m +:+
        (if f is O then "" else "." +:+ String.substring k f m)
    | None => Number_toString x
    end.

(** [new Date(v).getTime()]. *)
Definition Date_getTime (v : option value) : timeval :=
  match v with
  | Some (VStr s) => Date_parse s
  | _ => TimeClip (ToNumber v)
  end.

End WithHost.

End JS.

(** ** A reference host

    An executable host, used for the closed examples: its [Date.parse] reads
    the format [toISOString] writes, [YYYY-MM-DDTHH:mm:ss.sssZ] (the format
    of every timestamp the program itself writes), and no other; it prints a
    number with the fewest digits that read back as the same double. *)

Module Ecma.

Local Open Scope string_scope.
Local Open Scope Z_scope.

(** Days from 1970-01-01 to the given day of the proleptic Gregorian
    calendar. *)
Definition days_from_civil (y m d : Z) : Z :=
  let y' := if m <=? 2 then y - 1 else y in
  let era := y' / 400 in
  let yoe := y' - era * 400 in
  let mp := (m + 9) mod 12 in
  let doy := (153 * mp + 2) / 5 + d - 1 in
  let doe := yoe * 365 + yoe / 4 - yoe / 100 + doy in
  era * 146097 + doe - 719468.

Definition days_in_month (y m : Z) : Z :=
  if m =? 2 then
    (if ((y mod 4 =? 0) && negb (y mod 100 =? 0)) || (y mod 400 =? 0) then 29 else 28)
  else if (m =? 4) || (m =? 6) || (m =? 9) || (m =? 11) then 30 else 31.

(** The [n] characters of [s] from position [i], read as a number when they
    are all digits. *)
Definition field (s : string) (i n : nat) : option Z :=
  match Lit.digits (String.substring i n s) 0 0 with
  | (v, cnt, EmptyString) => if cnt =? Z.of_nat n then Some v else None
  | _ => None
  end.

Definition iso_parse (s : string) : timeval :=
  match field s 0 4, field s 5 2, field s 8 2, field s 11 2, field s 14 2,
        field s 17 2, field s 20 3 with
  | Some y, Some mo, Some d, Some h, Some mi, Some sec, Some ms =>
      if (String.length s =? 24)%nat
         && String.eqb (String.substring 4 1 s) "-"
         && String.eqb (String.substring 7 1 s) "-"
         && String.eqb (String.substring 10 1 s) "T"
         && String.eqb (String.substring 13 1 s) ":"
         && String.eqb (String.substring 16 1 s) ":"
         && String.eqb (String.substring 19 1 s) "."
         && String.eqb (String.substring 23 1 s) "Z"
         && (1 <=? mo) && (mo <=? 12) && (1 <=? d) && (d <=? days_in_month y mo)
         && ((h <=? 23) || ((h =? 24) && (mi =? 0) && (sec =? 0) && (ms =? 0)))
         && (mi <=? 59) && (sec <=? 59)
      then Ms ((((days_from_civil y mo d * 24 + h) * 60 + mi) * 60 + sec) * 1000 + ms)
      else Invalid
  | _, _, _, _, _, _, _ => Invalid
  end.

(** [x * 10^k] for a fraction [n / d], as a fraction. *)
Definition scale (n d k : Z) : Z * Z :=
  if 0 <=? k then (n * 10 ^ k, d) else (n, d * 10 ^ (- k)).

(** The decimal exponent [e] with [10^(e-1) <= n/d < 10^e], searched
    downwards from [e0] (which is above it). *)
Fixpoint magnitude (fuel : nat) (n d e0 : Z) : Z :=
  match fuel with
  | O => e0
  | S fuel' =>
      let '(a, b) := scale n d (1 - e0) in
      if b <=? a then e0 else magnitude fuel' n d (e0 - 1)
  end.

(** The shortest digit string [(s, e)], at most [fuel] digits tried from
    [k], with [s * 10^(e - length s)] reading back as [x = n/d]. *)
Fixpoint shortest (fuel : nat) (x : float) (n d e k : Z) : Z * Z :=
  let '(a, b) := scale n d (k - e) in
  let lo := a / b in
  let hi := lo + 1 in
  let ok z := PrimFloat.Leibniz.eqb (Num.of_decimal false z (e - k)) x in
  let pick z := if z =? 10 ^ k then (z / 10, e + 1) else (z, e) in
  let c := Z.compare (2 * (a - lo * b)) b in
  let first := match c with Lt => lo | Gt => hi | Eq => if Z.even lo then lo else hi end in
  let second := if first =? lo then hi else lo in
  match fuel with
  | O => pick first
  | S fuel' =>
      if ok first && (10 ^ (k - 1) <=? first) then pick first
      else if ok second && (10 ^ (k - 1) <=? second) then pick second
      else shortest fuel' x n d e (k + 1)
  end.

Definition format (ds : string) (e : Z) : string :=
  let k := Z.of_nat (String.length ds) in
  if (k <=? e) && (e <=? 21) then ds +:+ Lit.zeros (Z.to_nat (e - k))
  else if (0 <? e) && (e <=? 21)
  then String.substring 0 (Z.to_nat e) ds +:+ "." +:+
       String.substring (Z.to_nat e) (Z.to_nat (k - e)) ds
  else if (-6 <? e) && (e <=? 0) then "0." +:+ Lit.zeros (Z.to_nat (- e)) +:+ ds
  else
    let x := e - 1 in
    let tail := "e" +:+ (if x <? 0 then "-" else "+") +:+ Lit.of_Z (Z.abs x) in
    if k =? 1 then ds +:+ tail
    else String.substring 0 1 ds +:+ "." +:+ String.substring 1 (Z.to_nat (k - 1)) ds +:+ tail.

Definition number_to_string (x : float) : string :=
  if is_nan x then "NaN"
  else
    match Num.exact x with
    | None => if (x <? 0)%float then "-Infinity" else "Infinity"
    | Some (s, n, d) =>
        if n =? 0 then "0"
        else
          let b := Z.log2 n - Z.log2 d + 1 in
          let e0 := b * (if 0 <=? b then 30103 else 30102) / 100000 + 2 in
          let e := magnitude 8 n d e0 in
          let '(digs, e') := shortest 17 (abs x) n d e 1 in
          (if s then "-" else "") +:+ format (Lit.of_Z digs) e'
    end.

#[export] Instance host : Host :=
  {| Date_parse := iso_parse; Number_toString := number_to_string |}.

End Ecma.

(** ** The document store *)

Abbreviation doc := (gmap string value).
Abbreviation collection := (gmap string (gmap string value)).
Abbreviation database := (gmap string (gmap string (gmap string value))).

(** How a call ends: with a value, or with a thrown error (its message). *)
Inductive outcome (A : Type) : Type :=
  | Returns (a : A)
  | Throws (msg : string).
Arguments Returns {A} a.
Arguments Throws {A} msg.

(** An [async] function: it runs against the database and leaves it changed,
    also when it throws (nothing is rolled back). *)
Definition Async (A : Type) : Type := database -> outcome A * database.

#[export] Instance Async_ret : MRet Async := fun A a s => (Returns a, s).

#[export] Instance Async_bind : MBind Async := fun A B f m s =>
  match m s with
  | (Returns a, s') => f a s'
  | (Throws e, s') => (Throws e, s')
  end.

Definition throw {A : Type} (msg : string) : Async A := fun s => (Throws msg, s).

(** Modelled from the spec: the document store adapter, which the program
    reaches through [require('./firebase')] and the spec describes by its
    interface ([get], [query], [insert], [update], [delete] on keyed
    collections of documents).  Document ids are opaque keys. *)
Module Firestore.

Definition coll (c : string) (s : database) : collection := default ∅ (s !! c).

Definition put (c id : string) (d : doc) (s : database) : database :=
  <[c := <[id := d]> (coll c s)]> s.

(** [db.collection(c).doc(id).get()]: the snapshot's data, [None] when the
    document does not exist. *)
Definition get (c id : string) : Async (option doc) :=
  fun s => (Returns (coll c s !! id), s).

(** [query.get()] for the query selecting the documents of [c] that satisfy
    [p]: the matching documents with their ids, in the store's order. *)
Definition query (c : string) (p : doc -> bool) : Async (list (string * doc)) :=
  fun s => (Returns (List.filter (fun kv => p kv.2) (map_to_list (coll c s))), s).

(** [db.collection(c).add(d)], [id] being the key the store generates. *)
Definition add (c id : string) (d : doc) : Async string :=
  fun s =>
    match coll c s !! id with
    | Some _ => (Throws "ALREADY_EXISTS", s)
    | None => (Returns id, put c id d s)
    end.

(** [ref.update(fields)]: overwrites the given fields of an existing
    document, and fails on a missing one. *)
Definition update (c id : string) (fields : doc) : Async unit :=
  fun s =>
    match coll c s !! id with
    | Some d => (Returns tt, put c id (fields ∪ d) s)
    | None => (Throws "NOT_FOUND", s)
    end.

(** [ref.set(d)]: replaces the document, creating it if needed. *)
Definition set (c id : string) (d : doc) : Async unit :=
  fun s => (Returns tt, put c id d s).

(** [ref.set(d, { merge: true })]. *)
Definition set_merge (c id : string) (d : doc) : Async unit :=
  fun s => (Returns tt, put c id (d ∪ default ∅ (coll c s !! id)) s).

(** [ref.delete()]. *)
Definition delete (c id : string) : Async unit :=
  fun s => (Returns tt, <[c := base.delete id (coll c s)]> s).

(** Equality of stored values as a query's [==] and [in] decide it. *)
Definition eq_value (a b : value) : bool :=
  match a, b with
  | VNull, VNull => true
  | VBool x, VBool y => Bool.eqb x y
  | VNum x, VNum y => (x =? y)%float || (is_nan x && is_nan y)
  | VStr x, VStr y => String.eqb x y
  | _, _ => false
  end.

(** [.where(field, '==', v)]. *)
Definition where_eq (field : string) (v : value) (d : doc) : bool :=
  match d !! field with
  | Some a => eq_value a v
  | None => false
  end.

(** [.where(field, 'in', vs)]. *)
Definition where_in (field : string) (vs : list value) (d : doc) : bool :=
  match d !! field with
  | Some a => existsb (eq_value a) vs
  | None => false
  end.

End Firestore.

(** [{ id: id, ...data }]: a field [id] of the data itself wins. *)
Definition with_id (id : string) (data : doc) : doc :=
  data ∪ {["id" := VStr id]}.

(** [snapshot.docs.map((doc) => ({ id: doc.id, ...doc.data() }))]. *)
Definition records (docs : list (string * doc)) : list doc :=
  List.map (fun kv => with_id kv.1 kv.2) docs.

(** ** The helpers of the module, in the order of the source *)

(** [n.toString(36)] for an integer [n]: its digits in radix 36, written
    [0-9a-z], most significant first. *)
Definition digit36 (d : Z) : ascii :=
  ascii_of_N (Z.to_N (if d <? 10 then 48 + d else 87 + d)).

Fixpoint radix36_fuel (n : nat) (z : Z) (acc : string) : string :=
  match n with
  | O => acc
  | S n' =>
      let acc' := String (digit36 (z mod 36)) acc in
      if z <? 36 then acc' else radix36_fuel n' (z / 36) acc'
  end.

Definition toString36 (z : Z) : string :=
  let digits n := radix36_fuel (S (Z.to_nat (Z.log2 n))) n "" in
  if z <? 0 then String "-" (digits (- z)) else digits z.

(** [generateId()]; [now] is [Date.now()] and [random] is
    [Math.random().toString(36)], a string that starts with [0.] unless the
    number drawn is 0. *)
Definition generateId (now : Z) (random : string) : string :=
  toString36 now +:+ "-" +:+ String.substring 2 6 random.

(** [createOrder(data)].  [id] is the key the store assigns, [customId] what
    [generateId()] returns. *)
Definition createOrder (id customId : string) (data : doc) : Async doc :=
  let order := <["_customId" := VStr customId]> data in
  docRef ← Firestore.add "orders" id order;
  mret (with_id docRef order).

(** [listOrders(email)]; [None] is a call without the argument. *)
Definition listOrders (email : option string) : Async (list doc) :=
  let query :=
    if JS.truthy (VStr <$> email)
    then Firestore.where_eq "email" (VStr (default "" email))
    else fun _ => true in
  snapshot ← Firestore.query "orders" query;
  mret (records snapshot).

(** [getOrder(id)]; [None] is [null]. *)
Definition getOrder (id : string) : Async (option doc) :=
  d ← Firestore.get "orders" id;
  mret (with_id id <$> d).

(** [updateOrder(id, updates)]. *)
Definition updateOrder (id : string) (updates : doc) : Async doc :=
  _ ← Firestore.update "orders" id updates;
  d ← Firestore.get "orders" id;
  mret (with_id id (default ∅ d)).

(** [createRedemption(data)]. *)
Definition createRedemption (id customId : string) (data : doc) : Async doc :=
  let redemption := <["_customId" := VStr customId]> data in
  docRef ← Firestore.add "redemptions" id redemption;
  mret (with_id docRef redemption).

(** [listRedemptions(email)]. *)
Definition listRedemptions (email : option string) : Async (list doc) :=
  let query :=
    if JS.truthy (VStr <$> email)
    then Firestore.where_eq "email" (VStr (default "" email))
    else fun _ => true in
  snapshot ← Firestore.query "redemptions" query;
  mret (records snapshot).

(** [approveRedemption(id)]; [now] is [new Date().toISOString()], and the
    result [None] is [null]. *)
Definition approveRedemption (now : string) (id : string) : Async (option doc) :=
  d ← Firestore.get "redemptions" id;
  match d with
  | None => mret None
  | Some data =>
      if JS.is_string "approved" (data !! "status")
      then mret (Some (with_id id data))
      else
        _ ← Firestore.update "redemptions" id
              {[ "status" := VStr "approved"; "approvedAt" := VStr now ]};
        updated ← Firestore.get "redemptions" id;
        mret (Some (with_id id (default ∅ updated)))
  end.

(** [createUser(data)], the upsert of a user record keyed by its email. *)
Definition createUser (now : string) (data : doc) : Async doc :=
  let email := data !! "email" in
  let rest := delete "email" data in
  if negb (JS.truthy email) then throw "Email is required to create a user"
  else
    match email with
    | Some (VStr email) =>
        d ← Firestore.get "users" email;
        _ ← match d with
            | Some existing =>
                Firestore.set_merge "users" email
                  (<["updatedAt" := VStr now]> (rest ∪ existing))
            | None =>
                Firestore.set "users" email
                  (<["updatedAt" := VStr now]>
                     (<["createdAt" := VStr now]> (rest ∪ {["email" := VStr email]})))
            end;
        updated ← Firestore.get "users" email;
        mret (with_id email (default ∅ updated))
    | _ => throw "Value for argument documentPath is not a valid resource path"
    end.

(** [getUser(email)]. *)
Definition getUser (email : string) : Async (option doc) :=
  d ← Firestore.get "users" email;
  mret (with_id email <$> d).

(** [updateUser(email, updates)]. *)
Definition updateUser (email : string) (updates : doc) : Async doc :=
  _ ← Firestore.set_merge "users" email updates;
  d ← Firestore.get "users" email;
  mret (with_id email (default ∅ d)).

(** [listUsers()]. *)
Definition listUsers : Async (list doc) :=
  snapshot ← Firestore.query "users" (fun _ => true);
  mret (records snapshot).

(** [{ success: true }]. *)
Definition success : doc := {["success" := VBool true]}.

(** [deleteUser(email)]: the user's orders and redemptions stay. *)
Definition deleteUser (email : string) : Async doc :=
  _ ← Firestore.delete "users" email;
  mret success.

(** [deleteOrder(id)]. *)
Definition deleteOrder (id : string) : Async doc :=
  _ ← Firestore.delete "orders" id;
  mret success.

(** [createQuery(data)], [listQueries()] and [deleteQuery(id)], for the
    contact form. *)
Definition createQuery (id customId : string) (data : doc) : Async doc :=
  let query := <["_customId" := VStr customId]> data in
  ref ← Firestore.add "queries" id query;
  mret (with_id ref query).

Definition listQueries : Async (list doc) :=
  snapshot ← Firestore.query "queries" (fun _ => true);
  mret (records snapshot).

Definition deleteQuery (id : string) : Async doc :=
  _ ← Firestore.delete "queries" id;
  mret success.

(** [createShop(data)], [listShops()], [getShop(id)], [updateShop(id,
    updates)] and [deleteShop(id)]. *)
Definition createShop (now id : string) (data : doc) : Async doc :=
  let shop := <["createdAt" := VStr now]> data in
  ref ← Firestore.add "shops" id shop;
  d ← Firestore.get "shops" ref;
  mret (with_id ref (default ∅ d)).

Definition listShops : Async (list doc) :=
  snapshot ← Firestore.query "shops" (fun _ => true);
  mret (records snapshot).

Definition getShop (id : string) : Async (option doc) :=
  d ← Firestore.get "shops" id;
  mret (with_id id <$> d).

Definition updateShop (now id : string) (updates : doc) : Async doc :=
  _ ← Firestore.update "shops" id (<["updatedAt" := VStr now]> updates);
  d ← Firestore.get "shops" id;
  mret (with_id id (default ∅ d)).

Definition deleteShop (id : string) : Async doc :=
  _ ← Firestore.delete "shops" id;
  mret success.

(** The loop of [claimOrder] over the documents of the snapshot. *)
Fixpoint claim_each (email : string) (docs : list (string * doc))
    (updatedOrder : option doc) : Async (option doc) :=
  match docs with
  | [] => mret updatedOrder
  | (id, data) :: docs' =>
      _ ← (if negb (JS.truthy (data !! "userEmail"))
           then Firestore.update "orders" id {["userEmail" := VStr email]}
           else mret tt);
      refreshed ← Firestore.get "orders" id;
      claim_each email docs' (Some (with_id id (default ∅ refreshed)))
  end.

(** [claimOrder(orderId, email)]. *)
Definition claimOrder (orderId email : string) : Async (option doc) :=
  if negb (JS.truthy (Some (VStr orderId))) || negb (JS.truthy (Some (VStr email)))
  then throw "orderId and email are required"
  else
    snapshot ← Firestore.query "orders" (Firestore.where_eq "orderId" (VStr orderId));
    match snapshot with
    | [] => mret None
    | _ => claim_each email snapshot None
    end.

(** [getGoldPrice(defaultPrice)]. *)
Definition getGoldPrice (defaultPrice : option value) : Async (option value) :=
  d ← Firestore.get "config" "goldPrice";
  match d with
  | None => mret defaultPrice
  | Some data => mret (data !! "price")
  end.

Definition thirtyDays : Z := 30 * 24 * 60 * 60 * 1000.

(** The summary [getDashboardData] returns. *)
Record progress_indicator : Type := {
  current : value;
  nextMilestone : float;
  progressPercent : float
}.

Record dashboard : Type := {
  totalGrams : value;
  totalValue : float;
  redeemableGrams : float;
  currentPrice : option value;
  orders : list doc;
  shops : list doc;
  progress : progress_indicator
}.

Section WithHost.
Context `{Host}.

(** [setGoldPrice(price)]. *)
Definition setGoldPrice (now : string) (price : option value) : Async (option value) :=
  _ ← Firestore.set_merge "config" "goldPrice"
        {[ "price" := VNum (JS.parseFloat price); "updatedAt" := VStr now ]};
  mret price.

(** [order.createdAt ? new Date(order.createdAt).getTime() : now]. *)
Definition createdTime (now : Z) (order : doc) : timeval :=
  if JS.truthy (order !! "createdAt") then JS.Date_getTime (order !! "createdAt")
  else Ms now.

(** [now - createdTime >= thirtyDays].  The two are time values: integers of
    magnitude at most 8.64e15, exact as doubles, or NaN.  Their difference as
    a double is rounded only beyond 2^53, far from [thirtyDays], so the
    comparison is that of the integers; with NaN it is false. *)
Definition vested (now : Z) (order : doc) : bool :=
  match createdTime now order with
  | Ms t => thirtyDays <=? now - t
  | Invalid => false
  end.

(** One turn of the loop over the user's orders, on the three running sums
    [(totalGrams, totalValue, redeemableGrams)]. *)
Definition count_order (price : option value) (now : Z)
    (sums : value * float * value) (order : doc) : value * float * value :=
  let '(grams, worth, redeemable) := sums in
  let reward := JS.or (order !! "rewardGrams") (Some (VNum 0)) in
  (JS.add (Some grams) reward,
   (worth + JS.ToNumber reward * JS.ToNumber price)%float,
   if vested now order then JS.add (Some redeemable) reward else redeemable).

(** One turn of the loop over the user's outstanding redemptions. *)
Definition count_redemption (redeemed : value) (data : doc) : value :=
  JS.add (Some redeemed) (JS.or (data !! "grams") (Some (VNum 0))).

(** [getDashboardData(email, defaultPrice)]; [now] is [Date.now()]. *)
Definition getDashboardData (now : Z) (email : string) (defaultPrice : option value)
    : Async dashboard :=
  price ← getGoldPrice defaultPrice;
  orderSnap ← Firestore.query "orders" (Firestore.where_eq "userEmail" (VStr email));
  let orders := records orderSnap in
  let '(grams, worth, redeemable) :=
    fold_left (count_order price now) orders (VNum 0, PrimFloat.zero, VNum 0) in
  redemptionsSnap ← Firestore.query "redemptions"
    (fun d => Firestore.where_eq "email" (VStr email) d
              && Firestore.where_in "status" [VStr "pending"; VStr "approved"] d);
  let redeemed := fold_left count_redemption redemptionsSnap.*2 (VNum 0) in
  let redeemable :=
    Num.max (JS.ToNumber (Some redeemable) - JS.ToNumber (Some redeemed)) 0 in
  let worth := JS.parseFloat_string (JS.toFixed worth 2) in
  let milestone :=
    let c := Num.ceil (JS.ToNumber (Some grams)) in
    if JS.truthy (Some (VNum c)) then c else PrimFloat.one in
  let percent := (JS.ToNumber (Some grams) / milestone)%float in
  shopsSnap ← Firestore.query "shops" (fun _ => true);
  mret {| totalGrams := grams;
          totalValue := worth;
          redeemableGrams := redeemable;
          currentPrice := price;
          orders := orders;
          shops := records shopsSnap;
          progress := {| current := grams;
                         nextMilestone := milestone;
                         progressPercent := percent |} |}.

End WithHost.

(** ** The module as a whole *)

(** A call of one of the exported helpers, with what the environment
    supplies to it. *)
Inductive call : Type :=
  | CreateOrder (id customId : string) (data : doc)
  | ListOrders (email : option string)
  | GetOrder (id : string)
  | UpdateOrder (id : string) (updates : doc)
  | CreateRedemption (id customId : string) (data : doc)
  | ListRedemptions (email : option string)
  | ApproveRedemption (now id : string)
  | CreateUser (now : string) (data : doc)
  | GetUser (email : string)
  | UpdateUser (email : string) (updates : doc)
  | ListUsers
  | DeleteUser (email : string)
  | DeleteOrder (id : string)
  | CreateQuery (id customId : string) (data : doc)
  | ListQueries
  | DeleteQuery (id : string)
  | CreateShop (now id : string) (data : doc)
  | ListShops
  | GetShop (id : string)
  | UpdateShop (now id : string) (updates : doc)
  | DeleteShop (id : string)
  | ClaimOrder (orderId email : string)
  | GetGoldPrice (defaultPrice : option value)
  | SetGoldPrice (now : string) (price : option value)
  | GetDashboardData (now : Z) (email : string) (defaultPrice : option value).

(** The database a call leaves. *)
Definition after `{Host} (c : call) (s : database) : database :=
  match c with
  | CreateOrder id customId data => (createOrder id customId data s).2
  | ListOrders email => (listOrders email s).2
  | GetOrder id => (getOrder id s).2
  | UpdateOrder id updates => (updateOrder id updates s).2
  | CreateRedemption id customId data => (createRedemption id customId data s).2
  | ListRedemptions email => (listRedemptions email s).2
  | ApproveRedemption now id => (approveRedemption now id s).2
  | CreateUser now data => (createUser now data s).2
  | GetUser email => (getUser email s).2
  | UpdateUser email updates => (updateUser email updates s).2
  | ListUsers => (listUsers s).2
  | DeleteUser email => (deleteUser email s).2
  | DeleteOrder id => (deleteOrder id s).2
  | CreateQuery id customId data => (createQuery id customId data s).2
  | ListQueries => (listQueries s).2
  | DeleteQuery id => (deleteQuery id s).2
  | CreateShop now id data => (createShop now id data s).2
  | ListShops => (listShops s).2
  | GetShop id => (getShop id s).2
  | UpdateShop now id updates => (updateShop now id updates s).2
  | DeleteShop id => (deleteShop id s).2
  | ClaimOrder orderId email => (claimOrder orderId email s).2
  | GetGoldPrice defaultPrice => (getGoldPrice defaultPrice s).2
  | SetGoldPrice now price => (setGoldPrice now price s).2
  | GetDashboardData now email defaultPrice => (getDashboardData now email defaultPrice s).2
  end.

(** * The vocabulary of the properties *)

(** ** Outcomes, records and selections *)

(** What a call returned, if it did. *)
Definition returned {A : Type} (r : outcome A * database) : option A :=
  match r.1 with
  | Returns a => Some a
  | Throws _ => None
  end.

(** What the approval writes over a record. *)
Definition approved_at (now : string) (data : doc) : doc :=
  {[ "status" := VStr "approved"; "approvedAt" := VStr now ]} ∪ data.

(** An order is claimed when [userEmail] holds something truthy. *)
Definition claimed (data : doc) : bool := JS.truthy (data !! "userEmail").

(** What one turn of the loop leaves of a record read as [data]. *)
Definition claim_doc (email : string) (data : doc) : doc :=
  if claimed data then data else {["userEmail" := VStr email]} ∪ data.

(** What [claimOrder(orderId, email)] leaves of a stored order. *)
Definition claim_all (orderId email : string) (data : doc) : doc :=
  if Firestore.where_eq "orderId" (VStr orderId) data then claim_doc email data else data.

(** A snapshot of the orders: each entry is what the store holds, and no id
    comes twice. *)
Definition snapshot_of (s : database) (docs : list (string * doc)) : Prop :=
  NoDup docs.*1 ∧ ∀ id data, (id, data) ∈ docs → Firestore.coll "orders" s !! id = Some data.

(** The orders [claimOrder] looks at. *)
Definition matching (orderId : string) (s : database) : list (string * doc) :=
  List.filter (fun kv => Firestore.where_eq "orderId" (VStr orderId) kv.2)
    (map_to_list (Firestore.coll "orders" s)).

(** The record an upsert leaves for a user who exists already. *)
Definition merged (now : string) (data existing : doc) : doc :=
  <["updatedAt" := VStr now]> (delete "email" data ∪ existing).

(** The claim's reading of [listOrders(email)]: the orders whose [userEmail]
    is [email]. *)
Definition orders_by_userEmail (email : string) (s : database) : list doc :=
  records (List.filter (fun kv => Firestore.where_eq "userEmail" (VStr email) kv.2)
             (map_to_list (Firestore.coll "orders" s))).

(** What the code selects: the orders whose [email] field is [email]. *)
Definition orders_by_email (email : string) (s : database) : list doc :=
  records (List.filter (fun kv => Firestore.where_eq "email" (VStr email) kv.2)
             (map_to_list (Firestore.coll "orders" s))).

Definition all_orders (s : database) : list doc :=
  records (map_to_list (Firestore.coll "orders" s)).

(** The price [getGoldPrice] reads. *)
Definition price_of (defaultPrice : option value) (s : database) : option value :=
  match Firestore.coll "config" s !! "goldPrice" with
  | Some data => data !! "price"
  | None => defaultPrice
  end.

(** ** The sums of the dashboard *)

Section Sums.
Context `{Host}.

(** The user's orders, as [getDashboardData] reads them. *)
Definition user_orders (email : string) (s : database) : list doc :=
  records (List.filter (fun kv => Firestore.where_eq "userEmail" (VStr email) kv.2)
             (map_to_list (Firestore.coll "orders" s))).

(** The user's outstanding redemptions: those whose status is [pending] or
    [approved]. *)
Definition outstanding (email : string) (s : database) : list doc :=
  (List.filter
     (fun kv => Firestore.where_eq "email" (VStr email) kv.2
                && Firestore.where_in "status" [VStr "pending"; VStr "approved"] kv.2)
     (map_to_list (Firestore.coll "redemptions" s))).*2.

(** [order.rewardGrams || 0] and [data.grams || 0]. *)
Definition reward (order : doc) : option value := JS.or (order !! "rewardGrams") (Some (VNum 0)).
Definition requested (data : doc) : option value := JS.or (data !! "grams") (Some (VNum 0)).

(** A sum as the program takes it: [+=] from 0 along the list. *)
Definition sum_of (f : doc → option value) (l : list doc) : value :=
  fold_left (fun acc d => JS.add (Some acc) (f d)) l (VNum 0).

(** The grams of the user's vested orders, and of the outstanding
    redemptions. *)
Definition vestedGramsSum (now : Z) (email : string) (s : database) : value :=
  sum_of reward (List.filter (vested now) (user_orders email s)).

Definition outstandingGramsSum (email : string) (s : database) : value :=
  sum_of requested (outstanding email s).

(** What [setGoldPrice] leaves in the price document. *)
Definition priced (now : string) (price : option value) (s : database) : doc :=
  {[ "price" := VNum (JS.parseFloat price); "updatedAt" := VStr now ]}
  ∪ default ∅ (Firestore.coll "config" s !! "goldPrice").

End Sums.

(** ** Identifiers and field names *)

(** The number a string of radix-36 digits writes, read onto [acc]. *)
Fixpoint parse36 (s : string) (acc : Z) : Z :=
  match s with
  | String c r =>
      let n := Lit.code c in
      parse36 r (36 * acc + (if n <? 58 then n - 48 else n - 87))
  | EmptyString => acc
  end.

(** The characters of [s] before its first [-]. *)
Fixpoint before_dash (s : string) : string :=
  match s with
  | String c r => if Ascii.eqb c "-" then EmptyString else String c (before_dash r)
  | EmptyString => EmptyString
  end.

(** A string that names a document of a collection: it is not empty, holds
    no [/] and is neither [.] nor [..].  For the others the store refuses the
    call. *)
Definition document_id (k : string) : bool :=
  negb (String.eqb k "") && negb (String.eqb k ".") && negb (String.eqb k "..")
  && forallb (fun c => negb (Ascii.eqb c "/")) (list_ascii_of_string k).

(** A key that [ref.update] reads as the name of one top-level field: it is
    not empty and holds none of the characters of a field path. *)
Definition top_level (k : string) : bool :=
  negb (String.eqb k "")
  && forallb (fun c => negb (existsb (Ascii.eqb c) (list_ascii_of_string ".~*/[]")))
       (list_ascii_of_string k).

(** ** The summary in closed form *)

Section Summary.
Context `{Host}.

(** The worth of a list of orders at a price, as the loop adds it up. *)
Definition worth (price : option value) (l : list doc) : float :=
  fold_left (fun acc d => (acc + JS.ToNumber (reward d) * JS.ToNumber price)%float)
    l PrimFloat.zero.

(** [Math.ceil(totalGrams) || 1]. *)
Definition milestone (grams : value) : float :=
  let c := Num.ceil (JS.ToNumber (Some grams)) in
  if JS.truthy (Some (VNum c)) then c else PrimFloat.one.

(** The summary of a user, from the sums. *)
Definition summary (now : Z) (email : string) (defaultPrice : option value) (s : database)
    : dashboard :=
  let price := price_of defaultPrice s in
  let grams := sum_of reward (user_orders email s) in
  {| totalGrams := grams;
     totalValue := JS.parseFloat_string (JS.toFixed (worth price (user_orders email s)) 2);
     redeemableGrams :=
       Num.max (JS.ToNumber (Some (vestedGramsSum now email s))
                - JS.ToNumber (Some (outstandingGramsSum email s))) 0;
     currentPrice := price;
     orders := user_orders email s;
     shops := records (map_to_list (Firestore.coll "shops" s));
     progress := {| current := grams;
                    nextMilestone := milestone grams;
                    progressPercent := (JS.ToNumber (Some grams) / milestone grams)%float |} |}.

End Summary.

(** ** What a helper reads and writes *)

(** A computation that writes to no collection but [c]. *)
Definition writes_only {A : Type} (c : string) (m : Async A) : Prop :=
  ∀ s c', c' ≠ c → Firestore.coll c' (m s).2 = Firestore.coll c' s.

(** A computation that leaves the database as it is. *)
Definition reads_only {A : Type} (m : Async A) : Prop := ∀ s, (m s).2 = s.

(** The helpers that only read. *)
Definition reads (c : call) : bool :=
  match c with
  | ListOrders _ | GetOrder _ | ListRedemptions _ | GetUser _ | ListUsers | ListQueries
  | ListShops | GetShop _ | GetGoldPrice _ | GetDashboardData _ _ _ => true
  | _ => false
  end.

(** The one collection a helper may write to. *)
Definition target (c : call) : string :=
  match c with
  | CreateOrder _ _ _ | UpdateOrder _ _ | DeleteOrder _ | ClaimOrder _ _
  | ListOrders _ | GetOrder _ => "orders"
  | CreateRedemption _ _ _ | ApproveRedemption _ _ | ListRedemptions _ => "redemptions"
  | CreateUser _ _ | UpdateUser _ _ | DeleteUser _ | GetUser _ | ListUsers => "users"
  | CreateQuery _ _ _ | DeleteQuery _ | ListQueries => "queries"
  | CreateShop _ _ _ | UpdateShop _ _ _ | DeleteShop _ | ListShops | GetShop _ => "shops"
  | SetGoldPrice _ _ | GetGoldPrice _ => "config"
  | GetDashboardData _ _ _ => "orders"
  end.

(** ** Stores of the examples *)

(** A user with one order of 10 grams earned on 1 January 2024, a pending
    redemption of 2 grams and an approved one of 3 grams. *)
Definition ledger_10_2_3 : database :=
  {[ "orders" :=
       {[ "o1" := {[ "orderId" := VStr "X"; "userEmail" := VStr "a@b.com";
                     "rewardGrams" := VNum 10;
                     "createdAt" := VStr "2024-01-01T00:00:00.000Z" ]} ]};
     "redemptions" :=
       {[ "r1" := {[ "email" := VStr "a@b.com"; "grams" := VNum 2;
                     "status" := VStr "pending" ]};
          "r2" := {[ "email" := VStr "a@b.com"; "grams" := VNum 3;
                     "status" := VStr "approved" ]} ]} ]}.

(** A user with one order of 10 grams, whose [createdAt] is as given. *)
Definition one_order (createdAt : option value) : database :=
  let order : doc :=
    {[ "orderId" := VStr "X"; "userEmail" := VStr "a@b.com"; "rewardGrams" := VNum 10 ]} in
  {[ "orders" :=
       {[ "o1" := match createdAt with
                  | Some c => <["createdAt" := c]> order
                  | None => order
                  end ]} ]}.

(** A user created at [t0], then an upsert at [t1] whose data carries a
    [createdAt] of its own. *)
Definition user_created : database :=
  (createUser "2024-01-01T00:00:00.000Z"
     {[ "email" := VStr "a@b.com"; "displayName" := VStr "A" ]} ∅).2.

Definition upsert_with_createdAt : outcome doc * database :=
  createUser "2024-03-01T00:00:00.000Z"
    {[ "email" := VStr "a@b.com"; "createdAt" := VStr "1999-12-31T00:00:00.000Z" ]}
    user_created.

(** An order claimed by a@b.com, as [claimOrder] leaves it. *)
Definition claimed_order_store : database :=
  {[ "orders" := {[ "o1" := {[ "orderId" := VStr "X"; "rewardGrams" := VNum 5;
                               "userEmail" := VStr "a@b.com" ]} ]} ]}.

(** A request for 2 grams that names no status. *)
Definition request_without_status : doc :=
  {[ "email" := VStr "a@b.com"; "grams" := VNum 2 ]}.

(** Two parcels of the purchase [X], neither of them claimed, and an order of
    another purchase. *)
Definition split_shipment : database :=
  {[ "orders" :=
       {[ "o1" := {[ "orderId" := VStr "X"; "rewardGrams" := VNum 5 ]};
          "o2" := {[ "orderId" := VStr "X"; "rewardGrams" := VNum 7 ]};
          "o3" := {[ "orderId" := VStr "Y"; "rewardGrams" := VNum 1 ]} ]} ]}.

(** A store with one shop. *)
Definition one_shop : database :=
  {[ "shops" := {[ "s1" := {[ "name" := VStr "Vault";
                              "createdAt" := VStr "2024-01-01T00:00:00.000Z" ]} ]} ]}.

(** A request for 2 grams, pending: the redemption [r1] of the ledger. *)
Definition pending_request : doc :=
  {[ "email" := VStr "a@b.com"; "grams" := VNum 2; "status" := VStr "pending" ]}.

(** A user with one order of two grams and a half. *)
Definition fractional_order : database :=
  {[ "orders" := {[ "o1" := {[ "orderId" := VStr "X"; "userEmail" := VStr "a@b.com";
                               "rewardGrams" := VNum 2.5 ]} ]} ]}.

(** * Properties *)

(** ** The store *)

Section Store.
Implicit Types (s : database) (c id : string) (d : doc).

Lemma coll_put c id d s : Firestore.coll c (Firestore.put c id d s) = <[id := d]> (Firestore.coll c s).
Proof. unfold Firestore.put, Firestore.coll at 1. by rewrite lookup_insert_eq. Qed.

Lemma coll_put_ne c c' id d s :
  c ≠ c' → Firestore.coll c' (Firestore.put c id d s) = Firestore.coll c' s.
Proof. intros. unfold Firestore.put, Firestore.coll at 1. by rewrite lookup_insert_ne. Qed.

Lemma lookup_put c id d s : Firestore.coll c (Firestore.put c id d s) !! id = Some d.
Proof. by rewrite coll_put, lookup_insert_eq. Qed.

Lemma lookup_put_ne c id id' d s :
  id ≠ id' → Firestore.coll c (Firestore.put c id d s) !! id' = Firestore.coll c s !! id'.
Proof. intros. by rewrite coll_put, lookup_insert_ne. Qed.

End Store.

(** ** Which collections a helper touches *)

Section Frame.
Context `{Host}.
Implicit Types (s : database) (c id : string).

Lemma reads_only_writes_only {A} c (m : Async A) : reads_only m → writes_only c m.
Proof. intros Hr s c' _. by rewrite Hr. Qed.

Lemma writes_only_bind {A B} c (m : Async A) (f : A → Async B) :
  writes_only c m → (∀ a, writes_only c (f a)) → writes_only c (m ≫= f).
Proof.
  intros Hm Hf s c' Hne. unfold mbind, Async_bind. specialize (Hm s c' Hne).
  destruct (m s) as [[a|e] s']; simpl in *; [|done]. by rewrite Hf.
Qed.

Lemma reads_only_bind {A B} (m : Async A) (f : A → Async B) :
  reads_only m → (∀ a, reads_only (f a)) → reads_only (m ≫= f).
Proof.
  intros Hm Hf s. unfold mbind, Async_bind. specialize (Hm s).
  destruct (m s) as [[a|e] s']; simpl in *; [|done]. by rewrite Hf, Hm.
Qed.

Lemma reads_only_ret {A} (a : A) : reads_only (mret a).
Proof. done. Qed.

Lemma reads_only_throw {A} msg : reads_only (throw (A := A) msg).
Proof. done. Qed.

Lemma reads_only_get c id : reads_only (Firestore.get c id).
Proof. done. Qed.

Lemma reads_only_query c p : reads_only (Firestore.query c p).
Proof. done. Qed.

Lemma writes_only_add c id d : writes_only c (Firestore.add c id d).
Proof.
  intros s c' Hne. unfold Firestore.add. destruct (Firestore.coll c s !! id); [done|].
  by apply coll_put_ne.
Qed.

Lemma writes_only_update c id d : writes_only c (Firestore.update c id d).
Proof.
  intros s c' Hne. unfold Firestore.update. destruct (Firestore.coll c s !! id); [|done].
  by apply coll_put_ne.
Qed.

Lemma writes_only_set c id d : writes_only c (Firestore.set c id d).
Proof. intros s c' Hne. by apply coll_put_ne. Qed.

Lemma writes_only_set_merge c id d : writes_only c (Firestore.set_merge c id d).
Proof. intros s c' Hne. by apply coll_put_ne. Qed.

Lemma writes_only_delete c id : writes_only c (Firestore.delete c id).
Proof.
  intros s c' Hne. unfold Firestore.delete, Firestore.coll at 1. simpl.
  by rewrite lookup_insert_ne.
Qed.

Lemma writes_only_claim_each email docs : ∀ acc, writes_only "orders" (claim_each email docs acc).
Proof.
  induction docs as [|[id data] docs IH]; intros acc; simpl.
  - apply reads_only_writes_only, reads_only_ret.
  - apply writes_only_bind.
    + destruct (negb _); [apply writes_only_update|apply reads_only_writes_only, reads_only_ret].
    + intros _. apply writes_only_bind; [apply reads_only_writes_only, reads_only_get|].
      intros d. apply IH.
Qed.

End Frame.

Create HintDb frame.
#[export] Hint Resolve reads_only_ret reads_only_throw reads_only_get reads_only_query
  writes_only_add writes_only_update writes_only_set writes_only_set_merge
  writes_only_delete writes_only_claim_each : frame.

Ltac frame :=
  repeat match goal with
  | |- writes_only _ (_ ≫= _) => apply writes_only_bind; [|intros ?]
  | |- reads_only (_ ≫= _) => apply reads_only_bind; [|intros ?]
  | |- writes_only _ (match ?x with _ => _ end) => destruct x
  | |- writes_only _ (if ?b then _ else _) => destruct b
  | |- reads_only (match ?x with _ => _ end) => destruct x
  | |- reads_only (if ?b then _ else _) => destruct b
  | |- _ => progress eauto with frame
  | |- writes_only _ _ => apply reads_only_writes_only
  end.

(** ** The gold price *)

Lemma getGoldPrice_absent (s : database) (defaultPrice : option value) :
  Firestore.coll "config" s !! "goldPrice" = None →
  getGoldPrice defaultPrice s = (Returns defaultPrice, s).
Proof. intros Hd. unfold getGoldPrice, mbind, Async_bind, Firestore.get. by rewrite Hd. Qed.

(** C10: when the [goldPrice] document exists, [getGoldPrice] returns its
    [price] field as it is and never the default: a document without a
    [price] field gives [undefined], whatever [defaultPrice] is.  The default
    is the result on the stores that have no such document. *)
Theorem getGoldPrice_existing_verbatim (s : database) (defaultPrice : option value) (data : doc) :
  Firestore.coll "config" s !! "goldPrice" = Some data →
  getGoldPrice defaultPrice s = (Returns (data !! "price"), s)
  ∧ (data !! "price" = None → getGoldPrice defaultPrice s = (Returns None, s))
  ∧ (∀ s', Firestore.coll "config" s' !! "goldPrice" = None →
           getGoldPrice defaultPrice s' = (Returns defaultPrice, s')).
Proof.
  intros Hd.
  assert (getGoldPrice defaultPrice s = (Returns (data !! "price"), s)) as Hget.
  { unfold getGoldPrice, mbind, Async_bind, Firestore.get. by rewrite Hd. }
  split_and!; [done| |intros s'; apply getGoldPrice_absent].
  intros Hp. by rewrite Hget, Hp.
Qed.

(** A price document holding only [updatedAt], and the default 60: the
    result is [undefined]. *)
Lemma getGoldPrice_existing_verbatim_witness :
  let s : database := {[ "config" := {[ "goldPrice" := {[ "updatedAt" := VStr "2024-01-01T00:00:00.000Z" ]} ]} ]} in
  getGoldPrice (Some (VNum 60)) s = (Returns None, s).
Proof.
  intros s.
  refine (proj1 (proj2 (getGoldPrice_existing_verbatim s (Some (VNum 60))
                          {[ "updatedAt" := VStr "2024-01-01T00:00:00.000Z" ]} _)) _);
    vm_compute; reflexivity.
Defined.

(** ** Approving a redemption *)

Section Approve.
Implicit Types (s : database) (now id : string) (data : doc).

Lemma approved_at_status now data : approved_at now data !! "status" = Some (VStr "approved").
Proof. unfold approved_at. by apply lookup_union_Some_l. Qed.

Lemma approved_at_time now data : approved_at now data !! "approvedAt" = Some (VStr now).
Proof. unfold approved_at. by apply lookup_union_Some_l. Qed.

Lemma approved_at_other now data k :
  k ≠ "status" → k ≠ "approvedAt" → approved_at now data !! k = data !! k.
Proof.
  intros. unfold approved_at. apply lookup_union_r.
  by rewrite lookup_insert_ne, lookup_singleton_ne.
Qed.

Lemma approve_missing now id s :
  Firestore.coll "redemptions" s !! id = None →
  approveRedemption now id s = (Returns None, s).
Proof. intros Hd. unfold approveRedemption, mbind, Async_bind, Firestore.get. by rewrite Hd. Qed.

Lemma approve_approved now id data s :
  Firestore.coll "redemptions" s !! id = Some data →
  JS.is_string "approved" (data !! "status") = true →
  approveRedemption now id s = (Returns (Some (with_id id data)), s).
Proof.
  intros Hd Hst. unfold approveRedemption, mbind, Async_bind, Firestore.get.
  by rewrite Hd, Hst.
Qed.

Lemma approve_other now id data s :
  Firestore.coll "redemptions" s !! id = Some data →
  JS.is_string "approved" (data !! "status") = false →
  approveRedemption now id s =
    (Returns (Some (with_id id (approved_at now data))),
     Firestore.put "redemptions" id (approved_at now data) s).
Proof.
  intros Hd Hst.
  unfold approveRedemption, mbind, Async_bind, Firestore.get, Firestore.update.
  rewrite Hd, Hst, Hd. fold (approved_at now data). by rewrite lookup_put.
Qed.

Lemma approve_idempotent now now' id s :
  approveRedemption now' id (approveRedemption now id s).2 = approveRedemption now id s.
Proof.
  destruct (Firestore.coll "redemptions" s !! id) as [data|] eqn:Hd.
  - destruct (JS.is_string "approved" (data !! "status")) eqn:Hst.
    + rewrite (approve_approved now id data s Hd Hst); simpl.
      by apply approve_approved.
    + rewrite (approve_other now id data s Hd Hst); simpl.
      apply approve_approved; [apply lookup_put|].
      by rewrite approved_at_status.
  - rewrite (approve_missing now id s Hd); simpl. by apply approve_missing.
Qed.

Lemma approve_keeps_approved now id id' data s :
  Firestore.coll "redemptions" s !! id' = Some data →
  JS.is_string "approved" (data !! "status") = true →
  Firestore.coll "redemptions" (approveRedemption now id s).2 !! id' = Some data.
Proof.
  intros Hd' Hst'.
  destruct (Firestore.coll "redemptions" s !! id) as [data0|] eqn:Hd.
  - destruct (JS.is_string "approved" (data0 !! "status")) eqn:Hst.
    + by rewrite (approve_approved now id data0 s Hd Hst).
    + rewrite (approve_other now id data0 s Hd Hst); simpl.
      rewrite lookup_put_ne; [done|]. intros ->. congruence.
  - by rewrite (approve_missing now id s Hd).
Qed.

End Approve.

(** ** Claiming an order *)

Section Claim.
Implicit Types (s : database) (id orderId email : string) (data : doc).
Implicit Types (docs : list (string * doc)).

Lemma snapshot_of_query (p : doc → bool) s :
  snapshot_of s (List.filter (fun kv => p kv.2) (map_to_list (Firestore.coll "orders" s))).
Proof.
  split.
  - pose proof (NoDup_fst_map_to_list (Firestore.coll "orders" s)) as Hnd.
    induction (map_to_list (Firestore.coll "orders" s)) as [|[id data] l IH]; simpl; [constructor|].
    inversion Hnd as [|? ? Hnotin Hnd']; subst.
    destruct (p data); simpl; [|by apply IH].
    constructor; [|by apply IH].
    intros Hin. apply Hnotin. apply list_elem_of_fmap in Hin as [[id' d'] [-> Hin]].
    apply list_elem_of_fmap. exists (id', d'). split; [done|].
    apply list_elem_of_In, filter_In in Hin as [Hin _]. by apply list_elem_of_In.
  - intros id data Hin. apply list_elem_of_In, filter_In in Hin as [Hin _].
    by apply elem_of_map_to_list, list_elem_of_In.
Qed.

Lemma in_query (p : doc → bool) s id data :
  (id, data) ∈ List.filter (fun kv => p kv.2) (map_to_list (Firestore.coll "orders" s))
  ↔ Firestore.coll "orders" s !! id = Some data ∧ p data = true.
Proof.
  rewrite list_elem_of_In, filter_In, <- list_elem_of_In, elem_of_map_to_list. simpl. tauto.
Qed.

(** The loop never throws on a snapshot of the store; it rewrites exactly the
    unclaimed entries, and returns the last entry re-read. *)
Lemma claim_each_spec email docs : ∀ acc s,
  snapshot_of s docs →
  ∃ s',
    claim_each email docs acc s =
      (Returns (match last docs with
                | Some (id, data) => Some (with_id id (claim_doc email data))
                | None => acc
                end), s')
    ∧ (∀ c, c ≠ "orders" → Firestore.coll c s' = Firestore.coll c s)
    ∧ (∀ id data, (id, data) ∈ docs →
         Firestore.coll "orders" s' !! id = Some (claim_doc email data))
    ∧ (∀ id, id ∉ docs.*1 → Firestore.coll "orders" s' !! id = Firestore.coll "orders" s !! id)
    ∧ ((∀ id data, (id, data) ∈ docs → claimed data = true) → s' = s).
Proof.
  induction docs as [|[id data] docs IH]; intros acc s [Hnd Hsnap].
  - exists s. split_and!; try done. intros ? ? Hin. by apply elem_of_nil in Hin.
  - apply NoDup_cons in Hnd as [Hnotin Hnd].
    assert (Firestore.coll "orders" s !! id = Some data) as Hd
      by (apply Hsnap; constructor).
    set (s1 := if claimed data then s
               else Firestore.put "orders" id (claim_doc email data) s).
    assert (Firestore.coll "orders" s1 !! id = Some (claim_doc email data)) as Hd1.
    { unfold s1, claim_doc. destruct (claimed data); [done|]. apply lookup_put. }
    assert (∀ id', id' ≠ id →
              Firestore.coll "orders" s1 !! id' = Firestore.coll "orders" s !! id') as Hne1.
    { intros id' Hne. unfold s1. destruct (claimed data); [done|].
      by apply lookup_put_ne. }
    assert (∀ c, c ≠ "orders" → Firestore.coll c s1 = Firestore.coll c s) as Hc1.
    { intros c Hc. unfold s1. destruct (claimed data); [done|]. by apply coll_put_ne. }
    assert (snapshot_of s1 docs) as Hsnap1.
    { split; [done|]. intros id' data' Hin. rewrite Hne1.
      - apply Hsnap. by constructor.
      - intros ->. apply Hnotin. apply list_elem_of_fmap. by exists (id, data'). }
    destruct (IH (Some (with_id id (claim_doc email data))) s1 Hsnap1)
      as (s' & Hrun & Hc & Hin & Hout & Hsame).
    exists s'. split_and!.
    + simpl. unfold mbind, Async_bind at 1.
      assert ((if negb (JS.truthy (data !! "userEmail"))
               then Firestore.update "orders" id {["userEmail" := VStr email]}
               else mret tt) s = (Returns tt, s1)) as ->.
      { unfold s1, claim_doc, claimed. destruct (JS.truthy (data !! "userEmail")); simpl; [done|].
        unfold Firestore.update. by rewrite Hd. }
      unfold Async_bind, Firestore.get. rewrite Hd1. simpl. rewrite Hrun.
      rewrite last_cons. by destruct (last docs) as [[? ?]|].
    + intros c Hne. by rewrite Hc, Hc1.
    + intros id' data' Hin'. apply elem_of_cons in Hin' as [[= -> ->]|Hin'].
      * rewrite Hout; [done|]. done.
      * by apply Hin.
    + intros id' Hnotin'. rewrite fmap_cons, not_elem_of_cons in Hnotin'.
      destruct Hnotin' as [Hne Hnotin']. rewrite Hout by done. by apply Hne1.
    + intros Hall.
      assert (s' = s1) as -> by (apply Hsame; intros id' data' Hin'; apply (Hall id'); by constructor).
      unfold s1. assert (claimed data = true) as -> by (apply (Hall id); constructor). done.
Qed.

Lemma claimed_claim_doc email data : claimed data = true → claim_doc email data = data.
Proof. intros Hc. unfold claim_doc. by rewrite Hc. Qed.

Lemma claimOrder_invalid orderId email s :
  orderId = "" ∨ email = "" →
  claimOrder orderId email s = (Throws "orderId and email are required", s).
Proof. intros [-> | ->]; unfold claimOrder; simpl; [done|]. by rewrite orb_true_r. Qed.

Lemma claimOrder_valid orderId email s :
  orderId ≠ "" → email ≠ "" →
  claimOrder orderId email s = claim_each email (matching orderId s) None s.
Proof.
  intros Ho He. unfold claimOrder. simpl.
  apply String.eqb_neq in Ho, He. rewrite Ho, He. simpl.
  unfold mbind, Async_bind, Firestore.query. fold (matching orderId s).
  by destruct (matching orderId s).
Qed.

(** A claimed order is never touched, by any call. *)
Lemma claimOrder_keeps_claimed orderId email id data s :
  Firestore.coll "orders" s !! id = Some data →
  claimed data = true →
  Firestore.coll "orders" (claimOrder orderId email s).2 !! id = Some data.
Proof.
  intros Hd Hc.
  destruct (decide (orderId = "")) as [Ho|Ho];
    [by rewrite claimOrder_invalid by auto|].
  destruct (decide (email = "")) as [He|He];
    [by rewrite claimOrder_invalid by auto|].
  rewrite claimOrder_valid by done.
  destruct (claim_each_spec email (matching orderId s) None s (snapshot_of_query _ s))
    as (s' & -> & _ & Hin & Hout & _). simpl.
  destruct (Firestore.where_eq "orderId" (VStr orderId) data) eqn:Hm.
  - rewrite (Hin id data), claimed_claim_doc; [done..|]. by apply in_query.
  - rewrite Hout; [done|]. intros Hi. apply list_elem_of_fmap in Hi as [[id' data'] [-> Hi]].
    apply in_query in Hi as [Hd' Hm']. simpl in *. congruence.
Qed.

(** When every matching order is claimed already, nothing is written and the
    call returns a stored matching order with its id ([null] without a
    match). *)
Lemma claimOrder_all_claimed orderId email s :
  orderId ≠ "" → email ≠ "" →
  (∀ id data, (id, data) ∈ matching orderId s → claimed data = true) →
  ∃ r, claimOrder orderId email s = (Returns r, s)
       ∧ match r with
         | None => matching orderId s = []
         | Some o => ∃ id data, o = with_id id data ∧ (id, data) ∈ matching orderId s
         end.
Proof.
  intros Ho He Hall. rewrite claimOrder_valid by done.
  destruct (claim_each_spec email (matching orderId s) None s (snapshot_of_query _ s))
    as (s' & -> & _ & _ & _ & Hsame).
  rewrite (Hsame Hall). eexists; split; [done|].
  destruct (last (matching orderId s)) as [[id data]|] eqn:Hl.
  - apply last_Some in Hl as [l' Hl].
    assert ((id, data) ∈ matching orderId s) as Hin by (rewrite Hl; set_solver).
    exists id, data. by rewrite claimed_claim_doc by eauto.
  - by apply last_None.
Qed.

(** An unclaimed matching order goes to the claimant. *)
Lemma claimOrder_claims orderId email id data s :
  orderId ≠ "" → email ≠ "" →
  (id, data) ∈ matching orderId s →
  claimed data = false →
  Firestore.coll "orders" (claimOrder orderId email s).2 !! id
    = Some ({["userEmail" := VStr email]} ∪ data).
Proof.
  intros Ho He Hin Hc. rewrite claimOrder_valid by done.
  destruct (claim_each_spec email (matching orderId s) None s (snapshot_of_query _ s))
    as (s' & -> & _ & Hin' & _ & _). simpl.
  rewrite (Hin' id data Hin). unfold claim_doc. by rewrite Hc.
Qed.

Lemma where_eq_string field x data :
  Firestore.where_eq field (VStr x) data = true ↔ data !! field = Some (VStr x).
Proof.
  unfold Firestore.where_eq. destruct (data !! field) as [[| |?|t]|]; simpl; try by split.
  rewrite String.eqb_eq. split; congruence.
Qed.

(** C3: a claimed order (one whose [userEmail] is set) is left as it is by
    every later [claimOrder] call, whatever its arguments; when all the
    orders a call matches are claimed already it writes nothing and returns a
    stored order with its id; and an order claimed by a first call still
    bears the first claimant's email after a second call. *)
Theorem claimOrder_first_attribution_wins :
  (∀ orderId email id data s,
     Firestore.coll "orders" s !! id = Some data →
     JS.truthy (data !! "userEmail") = true →
     Firestore.coll "orders" (claimOrder orderId email s).2 !! id = Some data)
  ∧ (∀ orderId email s,
       orderId ≠ "" → email ≠ "" →
       (∀ id data, (id, data) ∈ matching orderId s → JS.truthy (data !! "userEmail") = true) →
       ∃ r, claimOrder orderId email s = (Returns r, s)
            ∧ match r with
              | None => matching orderId s = []
              | Some o => ∃ id data, o = with_id id data ∧ (id, data) ∈ matching orderId s
              end)
  ∧ (∀ orderId email orderId' email' id data s,
       orderId ≠ "" → email ≠ "" →
       Firestore.coll "orders" s !! id = Some data →
       data !! "orderId" = Some (VStr orderId) →
       JS.truthy (data !! "userEmail") = false →
       let s1 := (claimOrder orderId email s).2 in
       let s2 := (claimOrder orderId' email' s1).2 in
       ∃ data1,
         Firestore.coll "orders" s1 !! id = Some data1
         ∧ data1 !! "userEmail" = Some (VStr email)
         ∧ Firestore.coll "orders" s2 !! id = Some data1).
Proof.
  split_and!.
  - intros. by apply claimOrder_keeps_claimed.
  - intros. by apply claimOrder_all_claimed.
  - intros orderId email orderId' email' id data s Ho He Hd Hm Hc s1 s2.
    exists ({["userEmail" := VStr email]} ∪ data).
    assert (Firestore.coll "orders" s1 !! id = Some ({["userEmail" := VStr email]} ∪ data)) as Hd1.
    { apply claimOrder_claims; [done..| |done]. apply in_query. split; [done|].
      by apply where_eq_string. }
    assert (({["userEmail" := VStr email]} ∪ data : doc) !! "userEmail" = Some (VStr email)) as Hu
      by (by apply lookup_union_Some_l).
    split_and!; [done..|].
    apply claimOrder_keeps_claimed; [done|]. unfold claimed. rewrite Hu. simpl.
    apply String.eqb_neq in He. by rewrite He.
Qed.

(** Two claims on the order of purchase [X], by different users. *)
Example claimOrder_twice :
  let s : database :=
    {[ "orders" := {[ "o1" := {[ "orderId" := VStr "X"; "rewardGrams" := VNum 5 ]} ]} ]} in
  let first := claimOrder "X" "a@b.com" s in
  let second := claimOrder "X" "c@d.com" first.2 in
  first.1 = Returns (Some {[ "id" := VStr "o1"; "orderId" := VStr "X";
                             "rewardGrams" := VNum 5; "userEmail" := VStr "a@b.com" ]})
  ∧ second = first.
Proof. split; vm_compute; exact eq_refl. Qed.

End Claim.

(** ** The dashboard *)

Section Dashboard.
Context `{Host}.
Implicit Types (s : database) (now : Z) (email : string) (order data : doc).

Lemma count_orders_total price now (l : list doc) : ∀ g w r,
  (fold_left (count_order price now) l (g, w, r)).1.1
  = fold_left (fun acc d => JS.add (Some acc) (reward d)) l g.
Proof. induction l as [|o l IH]; intros g w r; simpl; [done|]. by rewrite IH. Qed.

Lemma count_orders_vested price now (l : list doc) : ∀ g w r,
  (fold_left (count_order price now) l (g, w, r)).2
  = fold_left (fun acc d => JS.add (Some acc) (reward d)) (List.filter (vested now) l) r.
Proof.
  induction l as [|o l IH]; intros g w r; simpl; [done|].
  rewrite IH. by destruct (vested now o).
Qed.

Lemma count_orders_worth price now (l : list doc) : ∀ g w r,
  (fold_left (count_order price now) l (g, w, r)).1.2
  = fold_left (fun acc d => (acc + JS.ToNumber (reward d) * JS.ToNumber price)%float) l w.
Proof. induction l as [|o l IH]; intros g w r; simpl; [done|]. by rewrite IH. Qed.

(** [Math.max(x, 0)] is not below zero. *)
Lemma max_zero_not_negative (x : float) : (Num.max x 0 <? 0)%float = false.
Proof.
  unfold Num.max. destruct (is_nan x || is_nan 0); [done|].
  destruct (x <? 0)%float eqn:Hlt; [done|].
  destruct (0 <? x)%float; [done|].
  by destruct (get_sign x).
Qed.

(** Unless it is NaN, [Math.max(x, 0)] is at least zero. *)
Lemma max_zero_nan_or_nonneg (x : float) :
  is_nan (Num.max x 0) = true ∨ (0 <=? Num.max x 0)%float = true.
Proof.
  unfold Num.max. destruct (is_nan x) eqn:Hnan; [by left|]. right.
  change (is_nan 0) with false. simpl.
  destruct (x <? 0)%float eqn:Hlt; [done|].
  assert ((0 <=? x)%float = true) as Hle.
  { unfold is_nan in Hnan. apply negb_false_iff in Hnan.
    rewrite FloatAxioms.eqb_spec in Hnan. rewrite FloatAxioms.ltb_spec in Hlt.
    rewrite FloatAxioms.leb_spec.
    change (Prim2SF 0) with (S754_zero false) in *.
    destruct (Prim2SF x) as [s|s| |s m e]; try done; by destruct s. }
  destruct (0 <? x)%float; [done|]. by destruct (get_sign x).
Qed.

Lemma getGoldPrice_price_of defaultPrice s :
  getGoldPrice defaultPrice s = (Returns (price_of defaultPrice s), s).
Proof.
  unfold getGoldPrice, price_of, mbind, Async_bind, Firestore.get.
  by destruct (Firestore.coll "config" s !! "goldPrice").
Qed.

(** [getDashboardData] reads and never writes or throws; its sums are those
    of the loops. *)
Lemma getDashboardData_returns now email defaultPrice s :
  ∃ d, getDashboardData now email defaultPrice s = (Returns d, s)
       ∧ totalGrams d = sum_of reward (user_orders email s)
       ∧ redeemableGrams d =
           Num.max (JS.ToNumber (Some (vestedGramsSum now email s))
                    - JS.ToNumber (Some (outstandingGramsSum email s))) 0
       ∧ totalValue d =
           JS.parseFloat_string
             (JS.toFixed
                (fold_left (fun acc d => (acc + JS.ToNumber (reward d)
                                                * JS.ToNumber (price_of defaultPrice s))%float)
                   (user_orders email s) PrimFloat.zero) 2)
       ∧ currentPrice d = price_of defaultPrice s
       ∧ orders d = user_orders email s.
Proof.
  unfold getDashboardData, mbind, Async_bind. rewrite getGoldPrice_price_of.
  unfold Firestore.query. fold (user_orders email s).
  pose proof (count_orders_total (price_of defaultPrice s) now (user_orders email s)
                (VNum 0) PrimFloat.zero (VNum 0)) as Htotal.
  pose proof (count_orders_vested (price_of defaultPrice s) now (user_orders email s)
                (VNum 0) PrimFloat.zero (VNum 0)) as Hvested.
  pose proof (count_orders_worth (price_of defaultPrice s) now (user_orders email s)
                (VNum 0) PrimFloat.zero (VNum 0)) as Hworth.
  destruct (fold_left (count_order (price_of defaultPrice s) now) (user_orders email s)
              (VNum 0, PrimFloat.zero, VNum 0)) as [[g w] r].
  simpl in Htotal, Hvested, Hworth. subst g r w.
  eexists. split; [reflexivity|]. simpl. split_and!; reflexivity.
Qed.

(** C1: for every user, store, clock and host, [getDashboardData] returns a
    summary whose [redeemableGrams] is [Math.max] of 0 and the grams of the
    user's vested orders less the grams of the user's pending and approved
    redemptions; it is not below zero (it is at least zero, or NaN when that
    difference is NaN); and with 10 vested grams, 2 grams pending and 3 grams
    approved it is 5. *)
Theorem redeemableGrams_formula :
  (∀ now email defaultPrice s,
     ∃ d, getDashboardData now email defaultPrice s = (Returns d, s)
          ∧ redeemableGrams d =
              Num.max (JS.ToNumber (Some (vestedGramsSum now email s))
                       - JS.ToNumber (Some (outstandingGramsSum email s))) 0
          ∧ (redeemableGrams d <? 0)%float = false
          ∧ (is_nan (redeemableGrams d) = true ∨ (0 <=? redeemableGrams d)%float = true))
  ∧ redeemableGrams <$>
      returned (getDashboardData (H := Ecma.host) 1706745600000 "a@b.com"
                  (Some (VNum 60)) ledger_10_2_3)
    = Some 5%float.
Proof.
  split.
  - intros now email defaultPrice s.
    destruct (getDashboardData_returns now email defaultPrice s)
      as (d & Hrun & _ & Hred & _).
    exists d. split_and!; [done..| |]; rewrite Hred.
    + apply max_zero_not_negative.
    + apply max_zero_nan_or_nonneg.
  - vm_compute. reflexivity.
Qed.

(** *** The vesting rule *)

Lemma vested_iff now order :
  vested now order = true ↔ ∃ t, createdTime now order = Ms t ∧ now - t >= thirtyDays.
Proof.
  unfold vested. destruct (createdTime now order) as [|t].
  - split; [done|]. by intros (t & ? & _).
  - rewrite Z.leb_le. split.
    + intros Hle. exists t. split; [done|lia].
    + intros (t' & [= <-] & Hge). lia.
Qed.

Lemma createdTime_missing now order :
  order !! "createdAt" = None → createdTime now order = Ms now.
Proof. intros Hc. unfold createdTime. by rewrite Hc. Qed.

Lemma createdTime_string now order iso :
  order !! "createdAt" = Some (VStr iso) → iso ≠ "" →
  createdTime now order = Date_parse iso.
Proof.
  intros Hc Hne. unfold createdTime. rewrite Hc. simpl.
  apply String.eqb_neq in Hne. by rewrite Hne.
Qed.

Lemma createdTime_falsy now order :
  JS.truthy (order !! "createdAt") = false → createdTime now order = Ms now.
Proof. intros Hc. unfold createdTime. by rewrite Hc. Qed.

Lemma createdTime_number now order (x : float) :
  order !! "createdAt" = Some (VNum x) → is_nan x = false → is_zero x = false →
  createdTime now order = JS.TimeClip x.
Proof. intros Hc Hn Hz. unfold createdTime. rewrite Hc. simpl. by rewrite Hn, Hz. Qed.

Lemma vested_at now order (t : Z) :
  createdTime now order = Ms t → (vested now order = true ↔ now - t >= thirtyDays).
Proof.
  intros Ht. rewrite vested_iff. split.
  - intros (t' & Ht' & Hge). rewrite Ht in Ht'. by injection Ht' as <-.
  - intros Hge. by exists t.
Qed.

(** C2: the loop adds an order's grams to the vested sum exactly when
    [vested] holds of it, so that the redeemable grams of every summary are
    those of the user's vested orders less the outstanding redemptions;
    [vested] holds exactly when [now - createdTime >= 30 days], 30 days being
    2592000000 ms: an order created exactly 30 days ago is vested, one
    created a millisecond later is not.  The creation time is
    [new Date(order.createdAt).getTime()] when [createdAt] is truthy and the
    time of the call otherwise: what [Date.parse] reads for a non-empty
    string; for a number other than 0 and NaN its integer part, when that is
    a time value, so that such an order is vested exactly when
    [now - createdAt >= 30 days]; 1 for [true]; and for a missing [createdAt],
    as for [null], [false], 0, NaN and the empty string, the time of the
    call, so that the order is not vested.  On the dashboard of a user whose
    one order of 10 grams was created on 1 January 2024 at midnight, given as
    a string or as the number of milliseconds, the redeemable grams are 10 at
    midnight 30 days later and 0 a millisecond before; they are 0 when the
    order has no [createdAt], or 0, [null] or the empty string for it, or a
    number beyond the range of time values; with [true] or 1.5 for
    [createdAt] they are 10 from 30 days and a millisecond after the epoch
    on. *)
Theorem vesting_rule :
  thirtyDays = 2592000000
  ∧ (∀ price now g w r order,
       (count_order price now (g, w, r) order).2
       = if vested now order then JS.add (Some r) (reward order) else r)
  ∧ (∀ now email defaultPrice s,
       ∃ d, getDashboardData now email defaultPrice s = (Returns d, s)
            ∧ redeemableGrams d =
                Num.max
                  (JS.ToNumber
                     (Some (sum_of reward (List.filter (vested now) (user_orders email s))))
                   - JS.ToNumber (Some (outstandingGramsSum email s))) 0)
  ∧ (∀ now order,
       vested now order = true ↔ ∃ t, createdTime now order = Ms t ∧ now - t >= thirtyDays)
  ∧ (∀ now order, createdTime now order = Ms (now - thirtyDays) → vested now order = true)
  ∧ (∀ now order, createdTime now order = Ms (now - thirtyDays + 1) → vested now order = false)
  ∧ (∀ now order,
       createdTime now order
       = if JS.truthy (order !! "createdAt") then JS.Date_getTime (order !! "createdAt")
         else Ms now)
  ∧ (∀ now order iso,
       order !! "createdAt" = Some (VStr iso) → iso ≠ "" →
       createdTime now order = Date_parse iso)
  ∧ (∀ now order (x : float) t,
       order !! "createdAt" = Some (VNum x) → is_nan x = false → is_zero x = false →
       Num.trunc x = Some t → Z.abs t <= 8640000000000000 →
       createdTime now order = Ms t
       ∧ (vested now order = true ↔ now - t >= thirtyDays))
  ∧ (∀ now order (x : float),
       order !! "createdAt" = Some (VNum x) → is_nan x = false → is_zero x = false →
       (Num.trunc x = None ∨ ∃ t, Num.trunc x = Some t ∧ 8640000000000000 < Z.abs t) →
       createdTime now order = Invalid ∧ vested now order = false)
  ∧ (∀ now order,
       order !! "createdAt" = Some (VBool true) →
       createdTime now order = Ms 1
       ∧ (vested now order = true ↔ now - 1 >= thirtyDays))
  ∧ (∀ now order,
       JS.truthy (order !! "createdAt") = false →
       createdTime now order = Ms now ∧ vested now order = false)
  ∧ (∀ now order,
       order !! "createdAt" = None →
       createdTime now order = Ms now ∧ vested now order = false)
  ∧ (let created := Some (VStr "2024-01-01T00:00:00.000Z") in
     let dashboard now createdAt :=
       redeemableGrams <$>
         returned (getDashboardData (H := Ecma.host) now "a@b.com" (Some (VNum 60))
                     (one_order createdAt)) in
     Ecma.iso_parse "2024-01-01T00:00:00.000Z" = Ms 1704067200000
     ∧ dashboard (1704067200000 + thirtyDays) created = Some 10%float
     ∧ dashboard (1704067200000 + thirtyDays - 1) created = Some 0%float
     ∧ dashboard (1704067200000 + thirtyDays) None = Some 0%float
     ∧ dashboard (1704067200000 + thirtyDays) (Some (VNum 1704067200000)) = Some 10%float
     ∧ dashboard (1704067200000 + thirtyDays - 1) (Some (VNum 1704067200000)) = Some 0%float
     ∧ dashboard (1 + thirtyDays) (Some (VBool true)) = Some 10%float
     ∧ dashboard thirtyDays (Some (VBool true)) = Some 0%float
     ∧ dashboard (1 + thirtyDays) (Some (VNum 1.5)) = Some 10%float
     ∧ dashboard thirtyDays (Some (VNum 1.5)) = Some 0%float
     ∧ dashboard (1704067200000 + thirtyDays) (Some (VNum 0)) = Some 0%float
     ∧ dashboard (1704067200000 + thirtyDays) (Some VNull) = Some 0%float
     ∧ dashboard (1704067200000 + thirtyDays) (Some (VBool false)) = Some 0%float
     ∧ dashboard (1704067200000 + thirtyDays) (Some (VStr "")) = Some 0%float
     ∧ dashboard (1704067200000 + thirtyDays) (Some (VNum nan)) = Some 0%float
     ∧ dashboard (1704067200000 + thirtyDays) (Some (VNum 8640000000000001)) = Some 0%float).
Proof.
  assert (∀ now order, JS.truthy (order !! "createdAt") = false →
            createdTime now order = Ms now ∧ vested now order = false) as Hfalsy.
  { intros now order Hc. split; [by apply createdTime_falsy|].
    unfold vested. rewrite createdTime_falsy by done. rewrite Z.sub_diag. reflexivity. }
  split_and!.
  - reflexivity.
  - intros. unfold count_order. fold (reward order). by destruct (vested now order).
  - intros now email defaultPrice s.
    destruct (getDashboardData_returns now email defaultPrice s) as (d & Hrun & _ & Hred & _).
    by exists d.
  - apply vested_iff.
  - intros now order Hc. apply vested_iff. exists (now - thirtyDays). split; [done|lia].
  - intros now order Hc. apply not_true_is_false. intros Hv.
    apply vested_iff in Hv as (t & Ht & Hge). rewrite Hc in Ht. injection Ht as <-. lia.
  - reflexivity.
  - apply createdTime_string.
  - intros now order x t Hc Hn Hz Ht Hrange.
    assert (createdTime now order = Ms t) as Hcreated.
    { rewrite (createdTime_number now order x) by done. unfold JS.TimeClip. rewrite Ht.
      apply Z.leb_le in Hrange. by rewrite Hrange. }
    split; [done|]. by apply vested_at.
  - intros now order x Hc Hn Hz Hout.
    assert (createdTime now order = Invalid) as Hcreated.
    { rewrite (createdTime_number now order x) by done. unfold JS.TimeClip.
      destruct Hout as [->|(t & -> & Hbig)]; [done|].
      apply Z.leb_gt in Hbig. by rewrite Hbig. }
    split; [done|]. unfold vested. by rewrite Hcreated.
  - intros now order Hc.
    assert (createdTime now order = Ms 1) as Hcreated.
    { unfold createdTime. rewrite Hc. vm_compute. reflexivity. }
    split; [done|]. by apply vested_at.
  - exact Hfalsy.
  - intros now order Hc. apply Hfalsy. by rewrite Hc.
  - repeat split; vm_compute; reflexivity.
Qed.

(** *** From an order to the dashboard *)

Lemma coll_empty c : Firestore.coll c (∅ : database) = ∅.
Proof. unfold Firestore.coll. by rewrite lookup_empty. Qed.

(** C9: on the empty store, [createOrder({rewardGrams: 5, orderId: "X"})],
    then [claimOrder("X", "a@b.com")], then
    [getDashboardData("a@b.com", 50)] all return, whatever ids are drawn and
    whatever the clock and the host are, and the summary has
    [totalGrams = 5], [totalValue = 250] and [redeemableGrams = 0]. *)
Theorem order_claim_dashboard (id customId : string) (now : Z) :
  let data : doc := {[ "rewardGrams" := VNum 5; "orderId" := VStr "X" ]} in
  let created := createOrder id customId data ∅ in
  let claim := claimOrder "X" "a@b.com" created.2 in
  ∃ order d,
    created.1 = Returns order
    ∧ claim.1 = Returns (Some (<["userEmail" := VStr "a@b.com"]> order))
    ∧ getDashboardData now "a@b.com" (Some (VNum 50)) claim.2 = (Returns d, claim.2)
    ∧ totalGrams d = VNum 5
    ∧ totalValue d = 250%float
    ∧ redeemableGrams d = 0%float.
Proof.
  intros data created claim.
  set (order := <["_customId" := VStr customId]> data).
  set (order' := ({["userEmail" := VStr "a@b.com"]} ∪ order : doc)).
  set (s1 := Firestore.put "orders" id order ∅).
  set (s2 := Firestore.put "orders" id order' s1).
  assert (created = (Returns (with_id id order), s1)) as Hcreated.
  { unfold created, createOrder, mbind, Async_bind, Firestore.add.
    by rewrite coll_empty, lookup_empty. }
  assert (Firestore.coll "orders" s1 = {[id := order]}) as Horders1.
  { unfold s1. by rewrite coll_put, coll_empty, insert_empty. }
  assert (matching "X" s1 = [(id, order)]) as Hmatch.
  { unfold matching. rewrite Horders1, map_to_list_singleton. reflexivity. }
  assert (claim = (Returns (Some (with_id id order')), s2)) as Hclaimed.
  { unfold claim. rewrite Hcreated. simpl. rewrite claimOrder_valid by done.
    rewrite Hmatch. simpl. unfold mbind, Async_bind, Firestore.update, Firestore.get.
    change (JS.truthy (order !! "userEmail")) with false. simpl.
    rewrite Horders1, lookup_singleton_eq. fold order' s2.
    unfold s2 at 1. by rewrite lookup_put. }
  assert (Firestore.coll "orders" s2 = {[id := order']}) as Horders2.
  { unfold s2. by rewrite coll_put, Horders1, insert_singleton_eq. }
  assert (∀ c, c ≠ "orders" → Firestore.coll c s2 = ∅) as Hother.
  { intros c Hc. unfold s2, s1. by rewrite !coll_put_ne, coll_empty. }
  destruct (getDashboardData_returns now "a@b.com" (Some (VNum 50)) s2)
    as (d & Hrun & Htotal & Hred & Hvalue & _).
  exists (with_id id order), d. rewrite Hcreated, Hclaimed. simpl.
  assert (user_orders "a@b.com" s2 = [with_id id order']) as Huser.
  { unfold user_orders. rewrite Horders2, map_to_list_singleton. reflexivity. }
  assert (price_of (Some (VNum 50)) s2 = Some (VNum 50)) as Hprice.
  { unfold price_of. by rewrite Hother, lookup_empty. }
  assert (createdTime now (with_id id order') = Ms now) as Htime
    by (by apply createdTime_missing).
  split_and!.
  - done.
  - reflexivity.
  - done.
  - rewrite Htotal, Huser. reflexivity.
  - rewrite Hvalue, Huser, Hprice. vm_compute. reflexivity.
  - rewrite Hred. unfold vestedGramsSum, outstandingGramsSum, outstanding.
    rewrite Huser, Hother by done. rewrite map_to_list_empty. simpl.
    unfold vested. rewrite Htime, Z.sub_diag. reflexivity.
Qed.

End Dashboard.

(** ** Properties of the module as a whole *)

Section Calls.
Context `{Host}.

Lemma after_reads c s : reads c = true → after c s = s.
Proof.
  destruct c; try discriminate; intros _; simpl; try done.
  - by rewrite getGoldPrice_price_of.
  - by destruct (getDashboardData_returns now email defaultPrice s) as (d & -> & _).
Qed.

Lemma after_frame c s c' : c' ≠ target c → Firestore.coll c' (after c s) = Firestore.coll c' s.
Proof.
  destruct (reads c) eqn:Hr; [by rewrite after_reads|].
  intros Hne. destruct c; try discriminate; cbn [after target] in *.
  all: match goal with
       | Hne : _ ≠ ?t |- Firestore.coll _ (?m ?s).2 = _ =>
           refine ((_ : writes_only t m) s _ Hne)
       end.
  all: try (unfold createOrder, updateOrder, createRedemption, approveRedemption, createUser,
         updateUser, deleteUser, deleteOrder, createQuery, deleteQuery, createShop, updateShop,
         deleteShop, claimOrder, setGoldPrice; frame).
Qed.

(** Whatever helper of the module is called, with whatever arguments, a
    redemption that is approved stays in the store as it is. *)
Lemma approved_is_terminal (c : call) (s : database) (id : string) (data : doc) :
  Firestore.coll "redemptions" s !! id = Some data →
  data !! "status" = Some (VStr "approved") →
  Firestore.coll "redemptions" (after c s) !! id = Some data.
Proof.
  intros Hd Hst.
  destruct (decide (target c = "redemptions")) as [Ht|Ht];
    [|by rewrite after_frame].
  destruct c; try discriminate; cbn [after].
  - unfold createRedemption, mbind, Async_bind, Firestore.add.
    destruct (Firestore.coll "redemptions" s !! id0) eqn:Hd0; simpl; [done|].
    rewrite lookup_put_ne; [done|]. congruence.
  - done.
  - apply approve_keeps_approved; [done|]. by rewrite Hst.
Qed.

(** C4: [approveRedemption] returns [null] for an id that is not stored,
    returns an approved record as it is and writes nothing (so [approvedAt]
    stays), sets [status] and [approvedAt] on any other record and returns it
    re-read; a second call on the same id returns what the first returned and
    leaves the store as the first left it; and no call, of [approveRedemption]
    or of any other helper of the module, takes a record out of [approved]. *)
Theorem approveRedemption_idempotent :
  (∀ now id s,
     Firestore.coll "redemptions" s !! id = None →
     approveRedemption now id s = (Returns None, s))
  ∧ (∀ now id data s,
       Firestore.coll "redemptions" s !! id = Some data →
       data !! "status" = Some (VStr "approved") →
       approveRedemption now id s = (Returns (Some (with_id id data)), s))
  ∧ (∀ now id data s,
       Firestore.coll "redemptions" s !! id = Some data →
       data !! "status" ≠ Some (VStr "approved") →
       ∃ data',
         approveRedemption now id s =
           (Returns (Some (with_id id data')), Firestore.put "redemptions" id data' s)
         ∧ data' !! "status" = Some (VStr "approved")
         ∧ data' !! "approvedAt" = Some (VStr now)
         ∧ ∀ k, k ≠ "status" → k ≠ "approvedAt" → data' !! k = data !! k)
  ∧ (∀ now now' id s,
       approveRedemption now' id (approveRedemption now id s).2 = approveRedemption now id s)
  ∧ (∀ now id id' data s,
       Firestore.coll "redemptions" s !! id' = Some data →
       data !! "status" = Some (VStr "approved") →
       Firestore.coll "redemptions" (approveRedemption now id s).2 !! id' = Some data)
  ∧ (∀ (c : call) s id data,
       Firestore.coll "redemptions" s !! id = Some data →
       data !! "status" = Some (VStr "approved") →
       Firestore.coll "redemptions" (after c s) !! id = Some data).
Proof.
  split_and!.
  - apply approve_missing.
  - intros now id data s Hd Hst. apply approve_approved; [done|]. by rewrite Hst.
  - intros now id data s Hd Hst. exists (approved_at now data). split_and!.
    + apply approve_other; [done|].
      destruct (data !! "status") as [[| |?|t]|] eqn:E; try done; simpl.
      apply String.eqb_neq. congruence.
    + apply approved_at_status.
    + apply approved_at_time.
    + apply approved_at_other.
  - apply approve_idempotent.
  - intros now id id' data s Hd Hst. apply approve_keeps_approved; [done|]. by rewrite Hst.
  - intros c s id data. apply approved_is_terminal.
Qed.

(** The pending redemption of the example ledger, approved in March and
    approved again in April: the record and the store of the first call. *)
Example approveRedemption_twice :
  let first := approveRedemption "2024-03-01T00:00:00.000Z" "r1" ledger_10_2_3 in
  let second := approveRedemption "2024-04-01T00:00:00.000Z" "r1" first.2 in
  first.1 = Returns (Some {[ "id" := VStr "r1"; "email" := VStr "a@b.com"; "grams" := VNum 2;
                             "status" := VStr "approved";
                             "approvedAt" := VStr "2024-03-01T00:00:00.000Z" ]})
  ∧ second = first.
Proof. split; vm_compute; exact eq_refl. Qed.

(** X1: the helpers that list, get or summarise leave the database as it
    is. *)
Theorem reading_helpers_write_nothing (c : call) (s : database) :
  reads c = true → after c s = s.
Proof. apply after_reads. Qed.

End Calls.

Lemma reading_helpers_write_nothing_witness :
  after (H := Ecma.host) (GetDashboardData 1706745600000 "a@b.com" None) ledger_10_2_3
  = ledger_10_2_3.
Proof. apply (reading_helpers_write_nothing (H := Ecma.host)). reflexivity. Defined.

(** ** Creating a user *)

Section Users.
Implicit Types (s : database) (now email : string) (data existing : doc).

Lemma createUser_existing now email data existing s :
  data !! "email" = Some (VStr email) → email ≠ "" →
  Firestore.coll "users" s !! email = Some existing →
  createUser now data s =
    (Returns (with_id email (merged now data existing)),
     Firestore.put "users" email (merged now data existing) s).
Proof.
  intros He Hne Hex. unfold createUser. rewrite He. simpl.
  apply String.eqb_neq in Hne. rewrite Hne. simpl.
  unfold mbind, Async_bind, Firestore.get, Firestore.set_merge. rewrite Hex. simpl.
  fold (merged now data existing). rewrite Hex. simpl.
  assert (merged now data existing ∪ existing = merged now data existing) as ->.
  { apply map_eq. intros k. unfold merged. rewrite lookup_union.
    destruct (decide (k = "updatedAt")) as [->|Hk].
    - rewrite lookup_insert_eq. by destruct (existing !! "updatedAt").
    - rewrite lookup_insert_ne by done. rewrite lookup_union.
      by destruct (delete "email" data !! k), (existing !! k). }
  by rewrite lookup_put.
Qed.

Lemma merged_updatedAt now data existing : merged now data existing !! "updatedAt" = Some (VStr now).
Proof. unfold merged. by rewrite lookup_insert_eq. Qed.

Lemma merged_given now data existing k v :
  k ≠ "updatedAt" → k ≠ "email" → data !! k = Some v → merged now data existing !! k = Some v.
Proof.
  intros Hu He Hk. unfold merged. rewrite lookup_insert_ne by done.
  apply lookup_union_Some_l. by rewrite lookup_delete_ne.
Qed.

Lemma merged_kept now data existing k :
  k ≠ "updatedAt" → (k = "email" ∨ data !! k = None) →
  merged now data existing !! k = existing !! k.
Proof.
  intros Hu Hk. unfold merged. rewrite lookup_insert_ne by done.
  apply lookup_union_r. destruct Hk as [->|Hk].
  - apply lookup_delete_eq.
  - destruct (decide (k = "email")) as [->|]; [apply lookup_delete_eq|].
    by rewrite lookup_delete_ne.
Qed.

(** The upsert of a user: fields the input names take the input's value
    ([createdAt] among them), the others keep theirs, [updatedAt] is the
    time of the call. *)
Lemma createUser_merges now email data existing s :
  data !! "email" = Some (VStr email) → email ≠ "" →
  Firestore.coll "users" s !! email = Some existing →
  ∃ user,
    createUser now data s = (Returns (with_id email user), Firestore.put "users" email user s)
    ∧ user !! "updatedAt" = Some (VStr now)
    ∧ (data !! "createdAt" = None → user !! "createdAt" = existing !! "createdAt")
    ∧ (∀ k, k ≠ "updatedAt" → data !! k = None → user !! k = existing !! k)
    ∧ (∀ k v, k ≠ "updatedAt" → k ≠ "email" → data !! k = Some v → user !! k = Some v).
Proof.
  intros He Hne Hex. exists (merged now data existing). split_and!.
  - by apply createUser_existing.
  - apply merged_updatedAt.
  - intros Hc. apply merged_kept; auto.
  - intros k Hk Hd. apply merged_kept; auto.
  - intros k v. apply merged_given.
Qed.

(** C5 (the code departs from the claim): the upsert of an existing user
    with data that names [createdAt] overwrites the stored [createdAt]. *)
Theorem createUser_overwrites_createdAt :
  Firestore.coll "users" user_created !! "a@b.com"
    = Some {[ "email" := VStr "a@b.com"; "displayName" := VStr "A";
              "createdAt" := VStr "2024-01-01T00:00:00.000Z";
              "updatedAt" := VStr "2024-01-01T00:00:00.000Z" ]}
  ∧ Firestore.coll "users" upsert_with_createdAt.2 !! "a@b.com"
    = Some {[ "email" := VStr "a@b.com"; "displayName" := VStr "A";
              "createdAt" := VStr "1999-12-31T00:00:00.000Z";
              "updatedAt" := VStr "2024-03-01T00:00:00.000Z" ]}.
Proof. split; vm_compute; exact eq_refl. Qed.

End Users.

(** ** Listing orders *)

Section Listing.
Implicit Types (s : database) (email : string).

Lemma listOrders_filtered email s :
  email ≠ "" → listOrders (Some email) s = (Returns (orders_by_email email s), s).
Proof.
  intros Hne. unfold listOrders. simpl. apply String.eqb_neq in Hne. by rewrite Hne.
Qed.

Lemma listOrders_all (arg : option string) s :
  arg = None ∨ arg = Some "" → listOrders arg s = (Returns (all_orders s), s).
Proof.
  intros [-> | ->]; unfold listOrders, all_orders, mbind, Async_bind, Firestore.query; simpl;
    by rewrite filter_true.
Qed.

Lemma elem_of_orders_by_email email s (o : doc) :
  o ∈ orders_by_email email s
  ↔ ∃ id data, Firestore.coll "orders" s !! id = Some data
               ∧ data !! "email" = Some (VStr email) ∧ o = with_id id data.
Proof.
  unfold orders_by_email, records. rewrite list_elem_of_In, in_map_iff. split.
  - intros ([id data] & <- & Hin). apply list_elem_of_In, in_query in Hin as [Hd Hm].
    exists id, data. split_and!; [done| |done]. by apply where_eq_string.
  - intros (id & data & Hd & Hm & ->). exists (id, data). split; [done|].
    apply list_elem_of_In, in_query. split; [done|]. by apply where_eq_string.
Qed.

(** C6, as stated, fails: the user's claimed order is not listed. *)
Lemma listOrders_misses_userEmail :
  orders_by_userEmail "a@b.com" claimed_order_store
    = [ {[ "id" := VStr "o1"; "orderId" := VStr "X"; "rewardGrams" := VNum 5;
           "userEmail" := VStr "a@b.com" ]} ]
  ∧ listOrders (Some "a@b.com") claimed_order_store = (Returns [], claimed_order_store)
  ∧ (listOrders (Some "a@b.com") claimed_order_store).1
    ≠ Returns (orders_by_userEmail "a@b.com" claimed_order_store).
Proof.
  assert (listOrders (Some "a@b.com") claimed_order_store = (Returns [], claimed_order_store)) as Hl
    by (vm_compute; exact eq_refl).
  split_and!; [vm_compute; exact eq_refl|exact Hl|].
  rewrite Hl. intros Heq. vm_compute in Heq. discriminate.
Qed.

(** C6, amended: with a non-empty [email], [listOrders] returns exactly the
    stored orders whose [email] field is that string, each with its id;
    without the argument (or with the empty string) it returns all orders;
    and when no order matches, the result is the empty list. *)
Theorem listOrders_filters_email_field :
  (∀ email s,
     email ≠ "" →
     ∃ l, listOrders (Some email) s = (Returns l, s)
          ∧ l = orders_by_email email s
          ∧ ∀ o, o ∈ l ↔ ∃ id data, Firestore.coll "orders" s !! id = Some data
                                    ∧ data !! "email" = Some (VStr email)
                                    ∧ o = with_id id data)
  ∧ (∀ s, listOrders None s = (Returns (all_orders s), s)
          ∧ listOrders (Some "") s = (Returns (all_orders s), s)
          ∧ ∀ o, o ∈ all_orders s
                 ↔ ∃ id data, Firestore.coll "orders" s !! id = Some data ∧ o = with_id id data)
  ∧ (∀ email s,
       email ≠ "" →
       (∀ id data, Firestore.coll "orders" s !! id = Some data →
                   data !! "email" ≠ Some (VStr email)) →
       listOrders (Some email) s = (Returns [], s)).
Proof.
  split_and!.
  - intros email s Hne. exists (orders_by_email email s).
    split_and!; [by apply listOrders_filtered|done|apply elem_of_orders_by_email].
  - intros s. split_and!; [apply listOrders_all; auto..|].
    intros o. unfold all_orders, records. rewrite list_elem_of_In, in_map_iff. split.
    + intros ([id data] & <- & Hin). exists id, data. split; [|done].
      by apply elem_of_map_to_list, list_elem_of_In.
    + intros (id & data & Hd & ->). exists (id, data). split; [done|].
      by apply list_elem_of_In, elem_of_map_to_list.
  - intros email s Hne Hnone. rewrite listOrders_filtered by done. f_equal.
    destruct (orders_by_email email s) as [|o l] eqn:Hl; [done|].
    assert (o ∈ orders_by_email email s) as Hin by (rewrite Hl; left).
    apply elem_of_orders_by_email in Hin as (id & data & Hd & Hm & _).
    by destruct (Hnone id data Hd).
Qed.

End Listing.

(** ** Creating a redemption *)

Section Redemptions.
Implicit Types (s : database) (id customId : string) (data : doc).

(** C7, as stated, fails: the record stored for an input without [status]
    has no [status] field, so its status is not [pending]. *)
Lemma createRedemption_leaves_status_undefined :
  let r := createRedemption "r1" "c1" request_without_status ∅ in
  request_without_status !! "status" = None
  ∧ r.1 = Returns {[ "id" := VStr "r1"; "_customId" := VStr "c1";
                     "email" := VStr "a@b.com"; "grams" := VNum 2 ]}
  ∧ Firestore.coll "redemptions" r.2 !! "r1"
    = Some {[ "_customId" := VStr "c1"; "email" := VStr "a@b.com"; "grams" := VNum 2 ]}
  ∧ (Firestore.coll "redemptions" r.2 !! "r1") ≫= (.!! "status") ≠ Some (VStr "pending").
Proof.
  cbv zeta. split_and!; [vm_compute; exact eq_refl..|].
  intros Heq. vm_compute in Heq. discriminate.
Qed.

(** C7, amended: [createRedemption] stores the fields of its input and the
    generated [_customId], nothing more, under a key the store did not hold:
    the stored record's [status] is the input's, and is absent when the input
    has none. *)
Theorem createRedemption_stores_input id customId data s :
  Firestore.coll "redemptions" s !! id = None →
  ∃ stored,
    createRedemption id customId data s
      = (Returns (with_id id stored), Firestore.put "redemptions" id stored s)
    ∧ Firestore.coll "redemptions" (Firestore.put "redemptions" id stored s) !! id = Some stored
    ∧ stored !! "_customId" = Some (VStr customId)
    ∧ (∀ k, k ≠ "_customId" → stored !! k = data !! k)
    ∧ stored !! "status" = data !! "status"
    ∧ (data !! "status" = None → stored !! "status" = None).
Proof.
  intros Hfresh. exists (<["_customId" := VStr customId]> data).
  assert (∀ k, k ≠ "_customId" → (<["_customId" := VStr customId]> data : doc) !! k = data !! k)
    as Hk by (intros k Hne; by rewrite lookup_insert_ne).
  split_and!.
  - unfold createRedemption, mbind, Async_bind, Firestore.add. by rewrite Hfresh.
  - apply lookup_put.
  - apply lookup_insert_eq.
  - exact Hk.
  - by apply Hk.
  - intros Hnone. by rewrite Hk.
Qed.

Lemma createRedemption_stores_input_witness :
  ∃ stored,
    createRedemption "r1" "c1" request_without_status ∅
      = (Returns (with_id "r1" stored), Firestore.put "redemptions" "r1" stored ∅)
    ∧ Firestore.coll "redemptions" (Firestore.put "redemptions" "r1" stored ∅) !! "r1" = Some stored
    ∧ stored !! "_customId" = Some (VStr "c1")
    ∧ (∀ k, k ≠ "_customId" → stored !! k = request_without_status !! k)
    ∧ stored !! "status" = request_without_status !! "status"
    ∧ (request_without_status !! "status" = None → stored !! "status" = None).
Proof.
  apply (createRedemption_stores_input "r1" "c1" request_without_status ∅).
  vm_compute. reflexivity.
Defined.

End Redemptions.

(** ** Setting the gold price *)

Section Price.
Context `{Host}.
Implicit Types (s : database) (now : string) (price : option value).

Lemma setGoldPrice_returns now price s :
  setGoldPrice now price s
  = (Returns price, Firestore.put "config" "goldPrice" (priced now price s) s).
Proof. reflexivity. Qed.

(** C8, as stated, fails: given the string [abc], [setGoldPrice] throws
    nothing; it stores NaN as the price and returns the string. *)
Lemma setGoldPrice_stores_NaN :
  let r := setGoldPrice (H := Ecma.host) "2024-01-01T00:00:00.000Z" (Some (VStr "abc")) ∅ in
  JS.parseFloat (H := Ecma.host) (Some (VStr "abc")) = nan
  ∧ r.1 = Returns (Some (VStr "abc"))
  ∧ Firestore.coll "config" r.2 !! "goldPrice"
    = Some {[ "price" := VNum nan; "updatedAt" := VStr "2024-01-01T00:00:00.000Z" ]}
  ∧ ¬ ∃ msg, r.1 = Throws msg.
Proof.
  cbv zeta. split_and!; [vm_compute; exact eq_refl..|].
  intros [msg Hmsg]. discriminate.
Qed.

(** C8, amended: [setGoldPrice] never fails.  For every input it returns the
    input as given and leaves a price document whose [price] is
    [parseFloat] of the input (NaN when the input does not start with a
    number), whose [updatedAt] is the time of the call and whose other fields
    are the ones it had; [getGoldPrice] returns that number from then on. *)
Theorem setGoldPrice_never_fails now price s :
  ∃ d,
    setGoldPrice now price s = (Returns price, Firestore.put "config" "goldPrice" d s)
    ∧ d !! "price" = Some (VNum (JS.parseFloat price))
    ∧ d !! "updatedAt" = Some (VStr now)
    ∧ (∀ k, k ≠ "price" → k ≠ "updatedAt" →
         d !! k = default ∅ (Firestore.coll "config" s !! "goldPrice") !! k)
    ∧ ∀ defaultPrice,
        (getGoldPrice defaultPrice (setGoldPrice now price s).2).1
        = Returns (Some (VNum (JS.parseFloat price))).
Proof.
  exists (priced now price s).
  assert (priced now price s !! "price" = Some (VNum (JS.parseFloat price))) as Hp
    by (by apply lookup_union_Some_l).
  split_and!.
  - apply setGoldPrice_returns.
  - exact Hp.
  - by apply lookup_union_Some_l.
  - intros k Hk Hu. unfold priced. apply lookup_union_r.
    by rewrite lookup_insert_ne, lookup_singleton_ne.
  - intros defaultPrice. rewrite setGoldPrice_returns. simpl.
    rewrite getGoldPrice_price_of. simpl. unfold price_of.
    by rewrite lookup_put, Hp.
Qed.

End Price.

(** ** Further facts about the helpers *)

Section More.
Context `{Host}.
Implicit Types (s : database) (now email orderId : string) (data : doc).

(** X2: the upsert of a user who exists keeps every field the input does not
    name (so [createdAt], when the input has none), takes the input's value
    for the others, [email] apart, and stamps [updatedAt]. *)
Theorem createUser_merge_semantics now email data existing s :
  data !! "email" = Some (VStr email) → email ≠ "" →
  Firestore.coll "users" s !! email = Some existing →
  ∃ user,
    createUser now data s = (Returns (with_id email user), Firestore.put "users" email user s)
    ∧ user !! "updatedAt" = Some (VStr now)
    ∧ (data !! "createdAt" = None → user !! "createdAt" = existing !! "createdAt")
    ∧ (∀ k, k ≠ "updatedAt" → data !! k = None → user !! k = existing !! k)
    ∧ (∀ k v, k ≠ "updatedAt" → k ≠ "email" → data !! k = Some v → user !! k = Some v).
Proof. apply createUser_merges. Qed.

(** X3: the first upsert of a user, under an email that can name a
    document, stores the input: the record it stores and returns has every
    field of the input, [createdAt] and [updatedAt] apart, which are both
    the time of the call (over what the input may carry), and nothing else;
    an input without a truthy [email] is refused and nothing is written. *)
Theorem createUser_new_user now data s :
  (∀ email, data !! "email" = Some (VStr email) → document_id email = true →
     Firestore.coll "users" s !! email = None →
     ∃ user,
       createUser now data s = (Returns (with_id email user), Firestore.put "users" email user s)
       ∧ user !! "createdAt" = Some (VStr now)
       ∧ user !! "updatedAt" = Some (VStr now)
       ∧ user !! "email" = Some (VStr email)
       ∧ (∀ k, k ≠ "createdAt" → k ≠ "updatedAt" → user !! k = data !! k)
       ∧ Firestore.coll "users" (Firestore.put "users" email user s) !! email = Some user)
  ∧ (JS.truthy (data !! "email") = false →
       createUser now data s = (Throws "Email is required to create a user", s)).
Proof.
  split.
  - intros email He Hid Hnew.
    assert (email ≠ "") as Hne by (by intros ->).
    exists (<["updatedAt" := VStr now]>
              (<["createdAt" := VStr now]> (delete "email" data ∪ {["email" := VStr email]}))).
    split_and!.
    + unfold createUser. rewrite He. simpl. apply String.eqb_neq in Hne. rewrite Hne. simpl.
      unfold mbind, Async_bind, Firestore.get, Firestore.set. rewrite Hnew. simpl.
      by rewrite lookup_put.
    + by rewrite lookup_insert_ne, lookup_insert_eq.
    + by rewrite lookup_insert_eq.
    + rewrite !lookup_insert_ne by done. apply lookup_union_Some_r.
      * apply map_disjoint_singleton_r, lookup_delete_eq.
      * apply lookup_singleton_eq.
    + intros k Hc Hu. rewrite !lookup_insert_ne by done. rewrite lookup_union.
      destruct (decide (k = "email")) as [->|Hk].
      * by rewrite lookup_delete_eq, lookup_singleton_eq, He.
      * rewrite lookup_delete_ne, lookup_singleton_ne by done. by destruct (data !! k).
    + apply lookup_put.
  - intros Hf. unfold createUser. by rewrite Hf.
Qed.

(** X4: [claimOrder] refuses an empty [orderId] or [email] and writes
    nothing; with no order of that [orderId] it returns [null] and writes
    nothing. *)
Theorem claimOrder_refusals orderId email s :
  (orderId = "" ∨ email = "" →
     claimOrder orderId email s = (Throws "orderId and email are required", s))
  ∧ (orderId ≠ "" → email ≠ "" → matching orderId s = [] →
       claimOrder orderId email s = (Returns None, s)).
Proof.
  split; [apply claimOrder_invalid|].
  intros Ho He Hm. rewrite claimOrder_valid by done. by rewrite Hm.
Qed.

(** X5: the redemptions the dashboard subtracts are the user's stored
    redemptions whose [status] is the string [pending] or [approved]; one
    stored without a status is not among them. *)
Theorem outstanding_redemptions email s (d : doc) :
  d ∈ outstanding email s
  ↔ ∃ id, Firestore.coll "redemptions" s !! id = Some d
          ∧ d !! "email" = Some (VStr email)
          ∧ (d !! "status" = Some (VStr "pending") ∨ d !! "status" = Some (VStr "approved")).
Proof.
  unfold outstanding. rewrite list_elem_of_fmap.
  assert (∀ d, Firestore.where_in "status" [VStr "pending"; VStr "approved"] d = true
               ↔ d !! "status" = Some (VStr "pending") ∨ d !! "status" = Some (VStr "approved"))
    as Hin.
  { intros d'. unfold Firestore.where_in. destruct (d' !! "status") as [[| |?|t]|]; simpl;
      try (split; [done|intros [?|?]; done]).
    rewrite !orb_true_iff, !String.eqb_eq. split.
    - intros [->|[->|?]]; [by left|by right|done].
    - intros [[= ->]|[= ->]]; auto. }
  split.
  - intros ([id d'] & -> & Hq). simpl.
    apply list_elem_of_In, filter_In in Hq as [Hq Hp]. simpl in Hp.
    apply andb_true_iff in Hp as [He Hs].
    exists id. split_and!.
    + by apply elem_of_map_to_list, list_elem_of_In.
    + by apply where_eq_string.
    + by apply Hin.
  - intros (id & Hd & He & Hs). exists (id, d). split; [done|].
    apply list_elem_of_In, filter_In. split.
    + by apply list_elem_of_In, elem_of_map_to_list.
    + simpl. apply andb_true_iff. split; [by apply where_eq_string|by apply Hin].
Qed.

End More.

Lemma createUser_merge_semantics_witness :
  ∃ user,
    createUser "2024-03-01T00:00:00.000Z"
      {[ "email" := VStr "a@b.com"; "phone" := VStr "555" ]} user_created
    = (Returns (with_id "a@b.com" user), Firestore.put "users" "a@b.com" user user_created)
    ∧ user !! "createdAt" = Some (VStr "2024-01-01T00:00:00.000Z")
    ∧ user !! "displayName" = Some (VStr "A")
    ∧ user !! "phone" = Some (VStr "555")
    ∧ user !! "updatedAt" = Some (VStr "2024-03-01T00:00:00.000Z").
Proof.
  destruct (createUser_merge_semantics "2024-03-01T00:00:00.000Z" "a@b.com"
              {[ "email" := VStr "a@b.com"; "phone" := VStr "555" ]}
              {[ "email" := VStr "a@b.com"; "displayName" := VStr "A";
                 "createdAt" := VStr "2024-01-01T00:00:00.000Z";
                 "updatedAt" := VStr "2024-01-01T00:00:00.000Z" ]}
              user_created)
    as (user & Hrun & Hupd & Hcreated & Hkept & Hgiven);
    [vm_compute; reflexivity|done|vm_compute; reflexivity|].
  exists user. split_and!.
  - exact Hrun.
  - rewrite Hcreated; vm_compute; reflexivity.
  - rewrite Hkept; [vm_compute; reflexivity|done|vm_compute; reflexivity].
  - apply Hgiven; [done..|vm_compute; reflexivity].
  - exact Hupd.
Defined.

(** With no price set, [getGoldPrice(60)] returns 60; after
    [setGoldPrice(75)] it returns 75. *)
Example gold_price_scenario :
  returned (getGoldPrice (Some (VNum 60)) ∅) = Some (Some (VNum 60))
  ∧ returned
      (getGoldPrice (Some (VNum 60))
         (setGoldPrice (H := Ecma.host) "2024-01-01T00:00:00.000Z" (Some (VNum 75)) ∅).2)
    = Some (Some (VNum 75)).
Proof. split; vm_compute; reflexivity. Qed.

(** ** Records and whole collections *)

Section Records.
Implicit Types (s : database) (c id : string) (data : doc) (m : collection).

Lemma with_id_id id data : with_id id data !! "id" = Some (default (VStr id) (data !! "id")).
Proof.
  unfold with_id. rewrite lookup_union. destruct (data !! "id"); simpl.
  - by rewrite lookup_singleton_eq.
  - by rewrite lookup_singleton_eq.
Qed.

Lemma with_id_other id data k : k ≠ "id" → with_id id data !! k = data !! k.
Proof.
  intros Hk. unfold with_id. rewrite lookup_union, lookup_singleton_ne by done.
  by destruct (data !! k).
Qed.

Lemma elem_of_records m (r : doc) :
  r ∈ records (map_to_list m) ↔ ∃ id data, m !! id = Some data ∧ r = with_id id data.
Proof.
  unfold records. rewrite list_elem_of_In, in_map_iff. split.
  - intros ([id data] & <- & Hin). exists id, data. split; [|done].
    by apply elem_of_map_to_list, list_elem_of_In.
  - intros (id & data & Hd & ->). exists (id, data). split; [done|].
    by apply list_elem_of_In, elem_of_map_to_list.
Qed.

Lemma coll_delete c id s :
  Firestore.coll c (Firestore.delete c id s).2 = delete id (Firestore.coll c s).
Proof. unfold Firestore.delete, Firestore.coll at 1. simpl. by rewrite lookup_insert_eq. Qed.

Lemma coll_delete_ne c c' id s :
  c ≠ c' → Firestore.coll c' (Firestore.delete c id s).2 = Firestore.coll c' s.
Proof. intros. unfold Firestore.delete, Firestore.coll at 1. simpl. by rewrite lookup_insert_ne. Qed.

Lemma query_all c s :
  Firestore.query c (fun _ => true) s = (Returns (map_to_list (Firestore.coll c s)), s).
Proof. unfold Firestore.query. by rewrite filter_true. Qed.

End Records.

(** ** The identifiers [generateId] draws *)

Section Ids.
Implicit Types (z now acc : Z) (s t u ds out random : string).

Lemma code_digit36 d : 0 <= d < 36 → Lit.code (digit36 d) = if d <? 10 then 48 + d else 87 + d.
Proof.
  intros Hd. unfold Lit.code, digit36. rewrite N_ascii_embedding.
  - rewrite Z2N.id; [done|]. destruct (d <? 10); lia.
  - destruct (d <? 10) eqn:E; [apply Z.ltb_lt in E|apply Z.ltb_ge in E]; lia.
Qed.

Lemma append_cons (c : ascii) s t : String c s +:+ t = String c (s +:+ t).
Proof. reflexivity. Qed.

Lemma append_assoc s t u : (s +:+ t) +:+ u = s +:+ (t +:+ u).
Proof. induction s as [|c s IH]; [done|]. rewrite !append_cons. by rewrite IH. Qed.

Lemma append_nil s : s +:+ "" = s.
Proof. induction s as [|c s IH]; [done|]. rewrite append_cons. by rewrite IH. Qed.

Lemma length_append s t : String.length (s +:+ t) = (String.length s + String.length t)%nat.
Proof. induction s as [|c s IH]; [done|]. rewrite append_cons. simpl. by rewrite IH. Qed.

Lemma length_substring (n m : nat) s : (String.length (String.substring n m s) <= m)%nat.
Proof.
  revert n m. induction s as [|c s IH]; intros [|n] [|m]; simpl; try lia.
  - specialize (IH O m). lia.
  - apply (IH n 0%nat).
  - apply (IH n (S m)).
Qed.

Lemma parse36_app s t acc : parse36 (s +:+ t) acc = parse36 t (parse36 s acc).
Proof. revert acc. induction s as [|c s IH]; intros acc; simpl; [done|]. apply IH. Qed.

Lemma parse36_digit36 d acc : 0 <= d < 36 → parse36 (String (digit36 d) "") acc = 36 * acc + d.
Proof.
  intros Hd. simpl. rewrite code_digit36 by done.
  destruct (d <? 10) eqn:E; [apply Z.ltb_lt in E|apply Z.ltb_ge in E].
  - assert ((48 + d <? 58) = true) as -> by (apply Z.ltb_lt; lia). lia.
  - assert ((87 + d <? 58) = false) as -> by (apply Z.ltb_ge; lia). lia.
Qed.

Lemma digit36_not_dash d : 0 <= d < 36 → Ascii.eqb (digit36 d) "-" = false.
Proof.
  intros Hd. apply Ascii.eqb_neq. intros Heq.
  pose proof (code_digit36 d Hd) as Hc. rewrite Heq in Hc. change (Lit.code "-") with 45 in Hc.
  destruct (d <? 10); lia.
Qed.

Lemma before_dash_snoc ds (c : ascii) t :
  Ascii.eqb c "-" = false →
  before_dash (ds +:+ String "-" t) = ds →
  before_dash (ds +:+ (String c "" +:+ String "-" t)) = ds +:+ String c "".
Proof.
  intros Hc. induction ds as [|a ds IH].
  - intros _. change (before_dash (String c (String "-" t)) = String c ""). simpl.
    by rewrite Hc.
  - rewrite !append_cons. simpl. destruct (Ascii.eqb a "-"); [discriminate|].
    intros [= Hb]. f_equal. by apply IH.
Qed.

(** The digits [radix36_fuel] writes in front of [out]: they hold no [-] and
    read back as [z]. *)
Lemma radix36_fuel_spec (n : nat) : ∀ z out,
  0 <= z < 2 ^ Z.of_nat n →
  (0 < n)%nat →
  ∃ ds, radix36_fuel n z out = ds +:+ out
        ∧ parse36 ds 0 = z
        ∧ ∀ t, before_dash (ds +:+ String "-" t) = ds.
Proof.
  induction n as [|n IH]; intros z out Hz Hn; [lia|].
  assert (0 <= z mod 36 < 36) as Hm by (apply Z.mod_pos_bound; lia).
  simpl. destruct (z <? 36) eqn:E; [apply Z.ltb_lt in E|apply Z.ltb_ge in E].
  - exists (String (digit36 (z mod 36)) ""). rewrite Z.mod_small by lia. split_and!.
    + done.
    + rewrite parse36_digit36 by lia. lia.
    + intros t. simpl. rewrite digit36_not_dash by lia. done.
  - assert (0 <= z / 36 < 2 ^ Z.of_nat n) as Hq.
    { split; [apply Z.div_pos; lia|]. apply Z.div_lt_upper_bound; [lia|].
      rewrite Nat2Z.inj_succ, Z.pow_succ_r in Hz by lia. lia. }
    assert (0 < n)%nat as Hn'.
    { destruct n; [|lia]. simpl in Hz. lia. }
    destruct (IH (z / 36) (String (digit36 (z mod 36)) out) Hq Hn') as (ds & -> & Hp & Hb).
    exists (ds +:+ String (digit36 (z mod 36)) ""). split_and!.
    + by rewrite append_assoc.
    + rewrite parse36_app, Hp, parse36_digit36 by done.
      rewrite (Z.div_mod z 36) at 3 by lia. lia.
    + intros t. rewrite append_assoc. apply before_dash_snoc; [by apply digit36_not_dash|apply Hb].
Qed.

Lemma toString36_spec z :
  0 <= z → parse36 (toString36 z) 0 = z ∧ ∀ t, before_dash (toString36 z +:+ String "-" t) = toString36 z.
Proof.
  intros Hz. unfold toString36. assert ((z <? 0) = false) as -> by (apply Z.ltb_ge; lia).
  destruct (radix36_fuel_spec (S (Z.to_nat (Z.log2 z))) z "") as (ds & -> & Hp & Hb).
  - split; [done|]. rewrite Nat2Z.inj_succ, Z2Nat.id by apply Z.log2_nonneg.
    destruct (decide (z = 0)) as [->|Hne]; [done|]. apply Z.log2_spec. lia.
  - lia.
  - by rewrite append_nil.
Qed.

(** X7: an identifier is the time in radix 36, a dash, and at most six
    characters of the random string.  The time reads back from the part
    before the dash, so identifiers drawn at different times differ; two
    drawn in the same millisecond are equal exactly when the random strings
    agree on those six characters. *)
Theorem generateId_distinct now now' random random' :
  0 <= now → 0 <= now' →
  (generateId now random = generateId now' random'
   ↔ now = now' ∧ String.substring 2 6 random = String.substring 2 6 random')
  ∧ (now ≠ now' → generateId now random ≠ generateId now' random')
  ∧ parse36 (before_dash (generateId now random)) 0 = now
  ∧ (String.length (generateId now random) <= String.length (toString36 now) + 7)%nat.
Proof.
  intros Hn Hn'.
  destruct (toString36_spec now Hn) as [Hp Hb], (toString36_spec now' Hn') as [Hp' Hb'].
  assert (∀ t, before_dash (generateId now t) = toString36 now) as Hbd by (intros; apply Hb).
  assert (∀ t, before_dash (generateId now' t) = toString36 now') as Hbd' by (intros; apply Hb').
  assert (generateId now random = generateId now' random' → now = now') as Hinj.
  { intros Heq. rewrite <- Hp, <- Hp', <- (Hbd random), <- (Hbd' random'). by rewrite Heq. }
  split_and!.
  - split.
    + intros Heq. pose proof (Hinj Heq) as <-. split; [done|].
      unfold generateId in Heq. revert Heq. generalize (toString36 now).
      intros p. induction p as [|c p IH]; simpl; [by intros [= ?]|]. intros [= ?]. auto.
    + intros [<- Hs]. unfold generateId. by rewrite Hs.
  - intros Hne Heq. by apply Hne, Hinj.
  - by rewrite Hbd.
  - unfold generateId. rewrite !length_append. simpl.
    pose proof (length_substring 2 6 random). lia.
Qed.

(** The random string may be short: drawn as 0 it leaves nothing after the
    dash. *)
Example generateId_sample :
  generateId 1704067200000 "0.4fzyo82mvyr" = "lqu5m2o0-4fzyo8"
  ∧ generateId 1704067200000 "0" = "lqu5m2o0-"
  ∧ generateId 1704067200000 "0.i" = "lqu5m2o0-i".
Proof. repeat split; vm_compute; reflexivity. Qed.

End Ids.

Lemma generateId_distinct_witness :
  (generateId 1704067200000 "0.4fzyo82mvyr" = generateId 1704067200001 "0.4fzyo82mvyr"
   ↔ 1704067200000 = 1704067200001
     ∧ String.substring 2 6 "0.4fzyo82mvyr" = String.substring 2 6 "0.4fzyo82mvyr")
  ∧ (1704067200000 ≠ 1704067200001 →
     generateId 1704067200000 "0.4fzyo82mvyr" ≠ generateId 1704067200001 "0.4fzyo82mvyr")
  ∧ parse36 (before_dash (generateId 1704067200000 "0.4fzyo82mvyr")) 0 = 1704067200000
  ∧ (String.length (generateId 1704067200000 "0.4fzyo82mvyr")
     <= String.length (toString36 1704067200000) + 7)%nat.
Proof. apply generateId_distinct; lia. Defined.

(** ** The summary in closed form *)

Section Summaries.
Context `{Host}.
Implicit Types (s : database) (now : Z) (email : string) (defaultPrice : option value).

Lemma getDashboardData_summary now email defaultPrice s :
  getDashboardData now email defaultPrice s = (Returns (summary now email defaultPrice s), s).
Proof.
  unfold getDashboardData, mbind, Async_bind. rewrite getGoldPrice_price_of.
  unfold Firestore.query. fold (user_orders email s).
  pose proof (count_orders_total (price_of defaultPrice s) now (user_orders email s)
                (VNum 0) PrimFloat.zero (VNum 0)) as Htotal.
  pose proof (count_orders_vested (price_of defaultPrice s) now (user_orders email s)
                (VNum 0) PrimFloat.zero (VNum 0)) as Hvested.
  pose proof (count_orders_worth (price_of defaultPrice s) now (user_orders email s)
                (VNum 0) PrimFloat.zero (VNum 0)) as Hworth.
  destruct (fold_left (count_order (price_of defaultPrice s) now) (user_orders email s)
              (VNum 0, PrimFloat.zero, VNum 0)) as [[g w] r].
  simpl in Htotal, Hvested, Hworth. subst g r w. rewrite filter_true. reflexivity.
Qed.

Lemma summary_ext now email defaultPrice s s' :
  price_of defaultPrice s' = price_of defaultPrice s →
  user_orders email s' = user_orders email s →
  outstandingGramsSum email s' = outstandingGramsSum email s →
  Firestore.coll "shops" s' = Firestore.coll "shops" s →
  summary now email defaultPrice s' = summary now email defaultPrice s.
Proof.
  intros Hp Ho Hr Hs. unfold summary, vestedGramsSum. by rewrite Hp, Ho, Hr, Hs.
Qed.

Lemma summary_colls now email defaultPrice s s' :
  (∀ c, c ∈ ["config"; "orders"; "redemptions"; "shops"] →
        Firestore.coll c s' = Firestore.coll c s) →
  summary now email defaultPrice s' = summary now email defaultPrice s.
Proof.
  intros Hc. apply summary_ext.
  - unfold price_of. rewrite Hc; [done|set_solver].
  - unfold user_orders. rewrite Hc; [done|set_solver].
  - unfold outstandingGramsSum, outstanding. rewrite Hc; [done|set_solver].
  - apply Hc. set_solver.
Qed.

Lemma milestone_truthy (grams : value) : JS.truthy (Some (VNum (milestone grams))) = true.
Proof.
  unfold milestone.
  destruct (JS.truthy (Some (VNum (Num.ceil (JS.ToNumber (Some grams)))))) eqn:E; [done|].
  vm_compute. reflexivity.
Qed.

Lemma elem_of_user_orders email s (o : doc) :
  o ∈ user_orders email s
  ↔ ∃ id data, Firestore.coll "orders" s !! id = Some data
               ∧ data !! "userEmail" = Some (VStr email) ∧ o = with_id id data.
Proof.
  unfold user_orders, records. rewrite list_elem_of_In, in_map_iff. split.
  - intros ([id data] & <- & Hin). apply list_elem_of_In, in_query in Hin as [Hd Hm].
    exists id, data. split_and!; [done| |done]. by apply where_eq_string.
  - intros (id & data & Hd & Hm & ->). exists (id, data). split; [done|].
    apply list_elem_of_In, in_query. split; [done|]. by apply where_eq_string.
Qed.

(** X11: the summary is a function of the collections [config], [orders],
    [redemptions] and [shops]: two stores that agree on them give the same
    summary.  So no helper of the [users] or [queries] collections changes
    any summary: deleting a user leaves the user's orders, redemptions and
    balance as they were. *)
Theorem dashboard_reads_four_collections :
  (∀ now email defaultPrice s s',
     (∀ c, c ∈ ["config"; "orders"; "redemptions"; "shops"] →
           Firestore.coll c s' = Firestore.coll c s) →
     (getDashboardData now email defaultPrice s').1
     = (getDashboardData now email defaultPrice s).1)
  ∧ (∀ (c : call) now email defaultPrice s,
       target c = "users" ∨ target c = "queries" →
       (getDashboardData now email defaultPrice (after c s)).1
       = (getDashboardData now email defaultPrice s).1).
Proof.
  assert (∀ now email defaultPrice s s',
     (∀ c, c ∈ ["config"; "orders"; "redemptions"; "shops"] →
           Firestore.coll c s' = Firestore.coll c s) →
     (getDashboardData now email defaultPrice s').1
     = (getDashboardData now email defaultPrice s).1) as Hfour.
  { intros now email defaultPrice s s' Hc. rewrite !getDashboardData_summary. simpl.
    f_equal. by apply summary_colls. }
  split; [exact Hfour|].
  intros c now email defaultPrice s Ht. apply Hfour. intros c' Hc'.
  apply after_frame. intros ->.
  destruct Ht as [Ht|Ht]; rewrite Ht in Hc';
    repeat (apply elem_of_cons in Hc' as [Hc'|Hc']; [discriminate Hc'|]);
    by apply elem_of_nil in Hc'.
Qed.

(** X12: in every summary the orders are the stored orders whose
    [userEmail] is the user's, each with its id; [totalGrams] and
    [totalValue] are the sums over those very orders, vested or not, the
    value at the price the summary reports and rounded to two decimals;
    [nextMilestone] is [Math.ceil(totalGrams)] when that is neither zero nor
    NaN, and 1 when it is, so that it is never zero or NaN and
    [progressPercent], the quotient of the two, never divides by zero.
    Without orders the totals are 0, the milestone 1 and the progress 0;
    with one order of 2.5 grams the milestone is 3 and the progress 2.5/3;
    with the 10 grams of the example ledger the milestone is 10 and the
    progress 1. *)
Theorem dashboard_totals now email defaultPrice s :
  (∃ d, getDashboardData now email defaultPrice s = (Returns d, s)
        ∧ (∀ o, o ∈ orders d
                ↔ ∃ id data, Firestore.coll "orders" s !! id = Some data
                             ∧ data !! "userEmail" = Some (VStr email) ∧ o = with_id id data)
        ∧ totalGrams d = sum_of reward (orders d)
        ∧ totalValue d = JS.parseFloat_string (JS.toFixed (worth (currentPrice d) (orders d)) 2)
        ∧ current (progress d) = totalGrams d
        ∧ nextMilestone (progress d)
          = (if JS.truthy (Some (VNum (Num.ceil (JS.ToNumber (Some (totalGrams d))))))
             then Num.ceil (JS.ToNumber (Some (totalGrams d)))
             else 1%float)
        ∧ (is_nan (Num.ceil (JS.ToNumber (Some (totalGrams d)))) = false →
           is_zero (Num.ceil (JS.ToNumber (Some (totalGrams d)))) = false →
           nextMilestone (progress d) = Num.ceil (JS.ToNumber (Some (totalGrams d))))
        ∧ JS.truthy (Some (VNum (nextMilestone (progress d)))) = true
        ∧ progressPercent (progress d)
          = (JS.ToNumber (Some (totalGrams d)) / nextMilestone (progress d))%float
        ∧ (orders d = [] →
             totalGrams d = VNum 0 ∧ totalValue d = 0%float
             ∧ nextMilestone (progress d) = 1%float ∧ progressPercent (progress d) = 0%float))
  ∧ (let progress_of (s : database) :=
       (fun d => (totalGrams d, nextMilestone (progress d), progressPercent (progress d)))
         <$> returned (getDashboardData (H := Ecma.host) 1706745600000 "a@b.com"
                         (Some (VNum 60)) s) in
     progress_of fractional_order = Some (VNum 2.5, 3%float, (2.5 / 3)%float)
     ∧ progress_of ledger_10_2_3 = Some (VNum 10, 10%float, 1%float)
     ∧ progress_of ∅ = Some (VNum 0, 1%float, 0%float)).
Proof.
  split.
  - exists (summary now email defaultPrice s). split_and!.
    + apply getDashboardData_summary.
    + apply elem_of_user_orders.
    + done.
    + done.
    + done.
    + done.
    + simpl. unfold milestone. intros Hn Hz. simpl. by rewrite Hn, Hz.
    + apply milestone_truthy.
    + done.
    + simpl. intros ->. split_and!; vm_compute; reflexivity.
  - repeat split; vm_compute; reflexivity.
Qed.

End Summaries.

(** ** Requests for redemption *)

Section Requests.
Context `{Host}.
Implicit Types (s : database) (now id customId email : string) (data : doc).

Lemma where_in_status data :
  Firestore.where_in "status" [VStr "pending"; VStr "approved"] data = true
  ↔ data !! "status" = Some (VStr "pending") ∨ data !! "status" = Some (VStr "approved").
Proof.
  unfold Firestore.where_in. destruct (data !! "status") as [[| |?|t]|]; simpl;
    try (split; [done|intros [?|?]; done]).
  rewrite !orb_true_iff, !String.eqb_eq. split.
  - intros [->|[->|?]]; [by left|by right|done].
  - intros [[= ->]|[= ->]]; auto.
Qed.

Lemma elem_of_outstanding email s (d : doc) :
  d ∈ outstanding email s
  ↔ ∃ id, Firestore.coll "redemptions" s !! id = Some d
          ∧ d !! "email" = Some (VStr email)
          ∧ (d !! "status" = Some (VStr "pending") ∨ d !! "status" = Some (VStr "approved")).
Proof.
  unfold outstanding. rewrite list_elem_of_fmap. split.
  - intros ([id d'] & -> & Hq). simpl.
    apply list_elem_of_In, filter_In in Hq as [Hq Hp]. simpl in Hp.
    apply andb_true_iff in Hp as [He Hs].
    exists id. split_and!.
    + by apply elem_of_map_to_list, list_elem_of_In.
    + by apply where_eq_string.
    + by apply where_in_status.
  - intros (id & Hd & He & Hs). exists (id, d). split; [done|].
    apply list_elem_of_In, filter_In. split.
    + by apply list_elem_of_In, elem_of_map_to_list.
    + simpl. apply andb_true_iff. split; [by apply where_eq_string|by apply where_in_status].
Qed.

(** Rewriting one entry of a list changes no sum over a selection of it,
    when the entry stays in or out of the selection and adds the same. *)
Lemma sum_filter_insert (p : string * doc → bool) (g : doc → option value)
    (l : list (string * doc)) : ∀ j a b acc,
  l !! j = Some a → p b = p a → g b.2 = g a.2 →
  fold_left (fun acc d => JS.add (Some acc) (g d)) (List.filter p (<[j:=b]> l)).*2 acc
  = fold_left (fun acc d => JS.add (Some acc) (g d)) (List.filter p l).*2 acc.
Proof.
  induction l as [|x l IH]; intros j a b acc Hj Hp Hg; [done|].
  destruct j as [|j]; simpl in *.
  - injection Hj as ->. rewrite Hp. destruct (p a); simpl; [|done]. by rewrite Hg.
  - destruct (p x); simpl; by apply (IH j a b).
Qed.

Lemma outstandingGramsSum_put email id data data' s :
  Firestore.coll "redemptions" s !! id = Some data →
  data' !! "email" = data !! "email" →
  data' !! "grams" = data !! "grams" →
  (Firestore.where_in "status" [VStr "pending"; VStr "approved"] data'
   = Firestore.where_in "status" [VStr "pending"; VStr "approved"] data) →
  outstandingGramsSum email (Firestore.put "redemptions" id data' s)
  = outstandingGramsSum email s.
Proof.
  intros Hd He Hg Hs. unfold outstandingGramsSum, outstanding, sum_of. rewrite coll_put.
  apply elem_of_map_to_list, list_elem_of_lookup in Hd as [j Hj].
  rewrite (map_to_list_update _ j id data data' Hj).
  apply (sum_filter_insert _ requested _ j (id, data) (id, data')); [done| |].
  - simpl. unfold Firestore.where_eq. by rewrite He, Hs.
  - simpl. unfold requested. by rewrite Hg.
Qed.

(** X13: approving a redemption that is pending (or approved already)
    changes no summary, of any user at any time: a pending request is
    subtracted from the balance from the moment it is stored. *)
Theorem approving_keeps_dashboards now id data s :
  Firestore.coll "redemptions" s !! id = Some data →
  data !! "status" = Some (VStr "pending") ∨ data !! "status" = Some (VStr "approved") →
  ∀ (clock : Z) email defaultPrice,
    (getDashboardData clock email defaultPrice (approveRedemption now id s).2).1
    = (getDashboardData clock email defaultPrice s).1.
Proof.
  intros Hd Hst clock email defaultPrice.
  destruct (JS.is_string "approved" (data !! "status")) eqn:Ha.
  { by rewrite (approve_approved now id data s Hd Ha). }
  rewrite (approve_other now id data s Hd Ha). simpl.
  rewrite !getDashboardData_summary. simpl. f_equal. apply summary_ext.
  - unfold price_of. by rewrite coll_put_ne.
  - unfold user_orders. by rewrite coll_put_ne.
  - apply (outstandingGramsSum_put email id data); [done|by apply approved_at_other..|].
    transitivity true; [|symmetry]; apply where_in_status; [|done].
    right. apply approved_at_status.
  - by rewrite coll_put_ne.
Qed.

(** X14: after [createRedemption] the redemptions the summary subtracts for
    the request's email are those of before and, when the input's [status] is
    [pending] or [approved], the stored request; with any other status, or
    none, the request is not subtracted. *)
Theorem createRedemption_reserves id customId data email s :
  Firestore.coll "redemptions" s !! id = None →
  data !! "email" = Some (VStr email) →
  ∃ stored s',
    createRedemption id customId data s = (Returns (with_id id stored), s')
    ∧ ∀ d, d ∈ outstanding email s'
           ↔ (d = stored ∧ (data !! "status" = Some (VStr "pending")
                            ∨ data !! "status" = Some (VStr "approved")))
             ∨ d ∈ outstanding email s.
Proof.
  intros Hfresh He. set (stored := <["_customId" := VStr customId]> data).
  exists stored, (Firestore.put "redemptions" id stored s). split.
  { unfold createRedemption, mbind, Async_bind, Firestore.add. by rewrite Hfresh. }
  assert (∀ k, k ≠ "_customId" → stored !! k = data !! k) as Hk
    by (intros k Hne; unfold stored; by rewrite lookup_insert_ne).
  intros d. rewrite !elem_of_outstanding. split.
  - intros (id' & Hd & Hem & Hs). destruct (decide (id' = id)) as [->|Hne].
    + rewrite lookup_put in Hd. injection Hd as <-. left. split; [done|].
      by rewrite !Hk in Hs.
    + rewrite lookup_put_ne in Hd by done. right. eauto.
  - intros [[-> Hs]|(id' & Hd & Hem & Hs)].
    + exists id. rewrite lookup_put, !Hk by done. done.
    + exists id'. rewrite lookup_put_ne; [done|]. intros ->. congruence.
Qed.

(** X15: a request that was created and is then approved comes back with
    [status] approved, [approvedAt] at the time of the approval, the
    [_customId] it was given and its other fields as they were put in; from
    then on it is among the redemptions the summary subtracts for its email,
    also when it was created without a status. *)
Theorem request_then_approval id customId now data s :
  Firestore.coll "redemptions" s !! id = None →
  data !! "status" ≠ Some (VStr "approved") →
  let s1 := (createRedemption id customId data s).2 in
  ∃ r stored,
    approveRedemption now id s1 = (Returns (Some r), Firestore.put "redemptions" id stored s1)
    ∧ r = with_id id stored
    ∧ stored !! "status" = Some (VStr "approved")
    ∧ stored !! "approvedAt" = Some (VStr now)
    ∧ stored !! "_customId" = Some (VStr customId)
    ∧ (∀ k, k ≠ "status" → k ≠ "approvedAt" → k ≠ "_customId" → stored !! k = data !! k)
    ∧ (∀ email, data !! "email" = Some (VStr email) →
         stored ∈ outstanding email (Firestore.put "redemptions" id stored s1)).
Proof.
  intros Hfresh Hst s1.
  set (created := <["_customId" := VStr customId]> data).
  assert (s1 = Firestore.put "redemptions" id created s) as Hs1.
  { unfold s1, createRedemption, mbind, Async_bind, Firestore.add. by rewrite Hfresh. }
  assert (∀ k, k ≠ "_customId" → created !! k = data !! k) as Hk
    by (intros k Hne; unfold created; by rewrite lookup_insert_ne).
  assert (Firestore.coll "redemptions" s1 !! id = Some created) as Hd
    by (rewrite Hs1; apply lookup_put).
  assert (JS.is_string "approved" (created !! "status") = false) as Ha.
  { rewrite Hk by done. destruct (data !! "status") as [[| |?|t]|] eqn:E; try done; simpl.
    apply String.eqb_neq. congruence. }
  exists (with_id id (approved_at now created)), (approved_at now created). split_and!.
  - by apply approve_other.
  - done.
  - apply approved_at_status.
  - apply approved_at_time.
  - rewrite approved_at_other by done. apply lookup_insert_eq.
  - intros k H1 H2 H3. rewrite approved_at_other by done. by apply Hk.
  - intros email He. apply elem_of_outstanding. exists id. split_and!.
    + apply lookup_put.
    + rewrite approved_at_other by done. by rewrite Hk.
    + right. apply approved_at_status.
Qed.

End Requests.

Lemma approving_keeps_dashboards_witness :
  (getDashboardData (H := Ecma.host) 1706745600000 "a@b.com" (Some (VNum 60))
     (approveRedemption "2024-03-01T00:00:00.000Z" "r1" ledger_10_2_3).2).1
  = (getDashboardData (H := Ecma.host) 1706745600000 "a@b.com" (Some (VNum 60)) ledger_10_2_3).1.
Proof.
  apply (approving_keeps_dashboards (H := Ecma.host) "2024-03-01T00:00:00.000Z" "r1" pending_request).
  - vm_compute; reflexivity.
  - left. vm_compute; reflexivity.
Defined.

Lemma createRedemption_reserves_witness :
  ∃ stored s',
    createRedemption "r3" "c3" pending_request ledger_10_2_3 = (Returns (with_id "r3" stored), s')
    ∧ ∀ d, d ∈ outstanding "a@b.com" s'
           ↔ (d = stored ∧ (pending_request !! "status" = Some (VStr "pending")
                            ∨ pending_request !! "status" = Some (VStr "approved")))
             ∨ d ∈ outstanding "a@b.com" ledger_10_2_3.
Proof.
  apply (createRedemption_reserves "r3" "c3" pending_request "a@b.com" ledger_10_2_3);
    vm_compute; reflexivity.
Defined.

Lemma request_then_approval_witness :
  ∃ r stored,
    approveRedemption "2024-03-01T00:00:00.000Z" "r1"
      (createRedemption "r1" "c1" request_without_status ∅).2
    = (Returns (Some r),
       Firestore.put "redemptions" "r1" stored (createRedemption "r1" "c1" request_without_status ∅).2)
    ∧ r = with_id "r1" stored
    ∧ stored !! "status" = Some (VStr "approved")
    ∧ stored !! "approvedAt" = Some (VStr "2024-03-01T00:00:00.000Z")
    ∧ stored !! "_customId" = Some (VStr "c1")
    ∧ (∀ k, k ≠ "status" → k ≠ "approvedAt" → k ≠ "_customId" →
            stored !! k = request_without_status !! k)
    ∧ (∀ email, request_without_status !! "email" = Some (VStr email) →
         stored ∈ outstanding email
           (Firestore.put "redemptions" "r1" stored
              (createRedemption "r1" "c1" request_without_status ∅).2)).
Proof.
  apply (request_then_approval "r1" "c1" "2024-03-01T00:00:00.000Z" request_without_status ∅).
  - vm_compute; reflexivity.
  - intros Heq. vm_compute in Heq. discriminate.
Defined.

(** ** The whole effect of a claim *)

Section Claims.
Context `{Host}.
Implicit Types (s : database) (id orderId email : string) (data : doc).

Lemma claim_doc_claimed email data : email ≠ "" → claimed (claim_doc email data) = true.
Proof.
  intros He. unfold claim_doc. destruct (claimed data) eqn:Hc; [done|].
  unfold claimed. erewrite lookup_union_Some_l by apply lookup_singleton_eq. simpl.
  apply String.eqb_neq in He. by rewrite He.
Qed.

Lemma claim_doc_other email data k : k ≠ "userEmail" → claim_doc email data !! k = data !! k.
Proof.
  intros Hk. unfold claim_doc. destruct (claimed data); [done|].
  apply lookup_union_r. by rewrite lookup_singleton_ne.
Qed.

Lemma where_eq_claim_all orderId orderId' email data :
  Firestore.where_eq "orderId" (VStr orderId') (claim_all orderId email data)
  = Firestore.where_eq "orderId" (VStr orderId') data.
Proof.
  unfold claim_all. destruct (Firestore.where_eq "orderId" (VStr orderId) data); [|done].
  unfold Firestore.where_eq. by rewrite claim_doc_other.
Qed.

(** What a claim with valid arguments does to the store and returns. *)
Lemma claimOrder_run orderId email s :
  orderId ≠ "" → email ≠ "" →
  ∃ s',
    claimOrder orderId email s
    = (Returns ((fun kv => with_id kv.1 (claim_doc email kv.2)) <$> last (matching orderId s)), s')
    ∧ Firestore.coll "orders" s' = claim_all orderId email <$> Firestore.coll "orders" s
    ∧ (∀ c, c ≠ "orders" → Firestore.coll c s' = Firestore.coll c s)
    ∧ ((∀ id data, (id, data) ∈ matching orderId s → claimed data = true) → s' = s).
Proof.
  intros Ho He. rewrite claimOrder_valid by done.
  destruct (claim_each_spec email (matching orderId s) None s (snapshot_of_query _ s))
    as (s' & -> & Hc & Hin & Hout & Hsame).
  exists s'. split_and!; [|  |done|done].
  - f_equal. f_equal. by destruct (last (matching orderId s)) as [[id data]|].
  - apply map_eq. intros id. rewrite lookup_fmap.
    destruct (Firestore.coll "orders" s !! id) as [data|] eqn:Hd; simpl.
    + unfold claim_all.
      destruct (Firestore.where_eq "orderId" (VStr orderId) data) eqn:Hm.
      * apply Hin. by apply in_query.
      * rewrite Hout; [done|]. intros Hi.
        apply list_elem_of_fmap in Hi as [[id' data'] [-> Hi]].
        apply in_query in Hi as [Hd' Hm']. simpl in *. congruence.
    + rewrite Hout; [done|]. intros Hi.
      apply list_elem_of_fmap in Hi as [[id' data'] [-> Hi]].
      apply in_query in Hi as [Hd' Hm']. simpl in *. congruence.
Qed.

Lemma filter_prod_map (p : doc → bool) (f : doc → doc) (l : list (string * doc)) :
  (∀ d, p (f d) = p d) →
  List.filter (fun kv => p kv.2) (prod_map id f <$> l)
  = prod_map id f <$> List.filter (fun kv => p kv.2) l.
Proof.
  intros Hp. induction l as [|[id data] l IH]; [done|].
  rewrite fmap_cons. cbn [List.filter prod_map snd fst]. rewrite Hp.
  destruct (p data); [rewrite fmap_cons|]; by rewrite IH.
Qed.

Lemma matching_fmap orderId orderId' email (m : collection) :
  List.filter (fun kv => Firestore.where_eq "orderId" (VStr orderId') kv.2)
    (map_to_list (claim_all orderId email <$> m))
  = prod_map id (claim_all orderId email)
      <$> List.filter (fun kv => Firestore.where_eq "orderId" (VStr orderId') kv.2) (map_to_list m).
Proof.
  rewrite map_to_list_fmap. apply filter_prod_map. intros d. apply where_eq_claim_all.
Qed.

(** X16: a claim with a non-empty [orderId] and [email] returns; it gives
    the email to every stored order of that [orderId] that has no
    [userEmail] yet (all the parcels of a split shipment), so that afterwards
    each order of that [orderId] is claimed; it leaves the orders of other
    purchases and the other collections as they were; it returns [null]
    exactly when no order matches, and otherwise a stored order of that
    [orderId], claimed, with its id. *)
Theorem claimOrder_claims_every_match orderId email s :
  orderId ≠ "" → email ≠ "" →
  ∃ r s',
    claimOrder orderId email s = (Returns r, s')
    ∧ (∀ id, Firestore.coll "orders" s' !! id
             = claim_all orderId email <$> Firestore.coll "orders" s !! id)
    ∧ (∀ id data, Firestore.coll "orders" s' !! id = Some data →
                  data !! "orderId" = Some (VStr orderId) →
                  JS.truthy (data !! "userEmail") = true)
    ∧ (∀ id data, Firestore.coll "orders" s !! id = Some data →
                  data !! "orderId" ≠ Some (VStr orderId) →
                  Firestore.coll "orders" s' !! id = Some data)
    ∧ (∀ c, c ≠ "orders" → Firestore.coll c s' = Firestore.coll c s)
    ∧ (r = None ↔ matching orderId s = [])
    ∧ (∀ o, r = Some o →
         ∃ id data, Firestore.coll "orders" s' !! id = Some data ∧ o = with_id id data
                    ∧ data !! "orderId" = Some (VStr orderId)
                    ∧ JS.truthy (data !! "userEmail") = true).
Proof.
  intros Ho He. destruct (claimOrder_run orderId email s Ho He) as (s' & Hrun & Hm & Hc & _).
  eexists _, s'. split_and!; [exact Hrun| | | |exact Hc| |].
  - intros id. by rewrite Hm, lookup_fmap.
  - intros id data Hd Hmatch. rewrite Hm, lookup_fmap in Hd.
    destruct (Firestore.coll "orders" s !! id) as [data0|]; [|done].
    injection Hd as <-. unfold claim_all in *.
    destruct (Firestore.where_eq "orderId" (VStr orderId) data0) eqn:E.
    + by apply claim_doc_claimed.
    + apply where_eq_string in Hmatch. congruence.
  - intros id data Hd Hne. rewrite Hm, lookup_fmap, Hd. simpl. unfold claim_all.
    destruct (Firestore.where_eq "orderId" (VStr orderId) data) eqn:E; [|done].
    by apply where_eq_string in E.
  - rewrite <- last_None. by destruct (last (matching orderId s)).
  - intros o Ho'. destruct (last (matching orderId s)) as [[id data]|] eqn:Hl; [|done].
    injection Ho' as <-. simpl. apply last_Some in Hl as [l' Hl].
    assert ((id, data) ∈ matching orderId s) as Hin by (rewrite Hl; set_solver).
    apply in_query in Hin as [Hd Hp]. exists id, (claim_doc email data). split_and!.
    + rewrite Hm, lookup_fmap, Hd. simpl. unfold claim_all. by rewrite Hp.
    + done.
    + rewrite claim_doc_other by done. by apply where_eq_string.
    + by apply claim_doc_claimed.
Qed.

(** X17: a claim repeated on the same [orderId], by the same user or by
    another, writes nothing and returns what the first claim returned. *)
Theorem claimOrder_repeated orderId email email' s :
  orderId ≠ "" → email ≠ "" → email' ≠ "" →
  claimOrder orderId email' (claimOrder orderId email s).2 = claimOrder orderId email s.
Proof.
  intros Ho He He'.
  destruct (claimOrder_run orderId email s Ho He) as (s1 & Hrun & Hm & Hc & _).
  rewrite Hrun. simpl.
  assert (matching orderId s1
          = prod_map id (claim_all orderId email) <$> matching orderId s) as Hmatch.
  { unfold matching. rewrite Hm. apply matching_fmap. }
  assert (∀ id data, (id, data) ∈ matching orderId s →
            claim_all orderId email data = claim_doc email data) as Hall.
  { intros id data Hin. apply in_query in Hin as [_ Hp]. unfold claim_all. by rewrite Hp. }
  destruct (claimOrder_run orderId email' s1 Ho He') as (s2 & -> & _ & _ & Hsame).
  rewrite Hsame.
  - f_equal. f_equal. rewrite Hmatch, fmap_last.
    destruct (last (matching orderId s)) as [[id data]|] eqn:Hl; simpl; [|done].
    apply last_Some in Hl as [l' Hl].
    assert ((id, data) ∈ matching orderId s) as Hin by (rewrite Hl; set_solver).
    rewrite (Hall id data Hin), (claimed_claim_doc email'); [reflexivity|].
    by apply claim_doc_claimed.
  - intros id data Hin. rewrite Hmatch in Hin.
    apply list_elem_of_fmap in Hin as [[id0 data0] [[= -> ->] Hin]]. simpl.
    rewrite (Hall _ _ Hin). by apply claim_doc_claimed.
Qed.

(** X18: an unclaimed order that a user claims is, from then on, among the
    orders of the user's summary, with the user's email on it, and among the
    orders of no other user's summary. *)
Theorem claimed_order_reaches_dashboard orderId email id data s :
  orderId ≠ "" → email ≠ "" →
  Firestore.coll "orders" s !! id = Some data →
  data !! "orderId" = Some (VStr orderId) →
  JS.truthy (data !! "userEmail") = false →
  let s' := (claimOrder orderId email s).2 in
  let order := with_id id ({["userEmail" := VStr email]} ∪ data) in
  ∀ (now : Z) defaultPrice,
    (∃ d, getDashboardData now email defaultPrice s' = (Returns d, s') ∧ order ∈ orders d)
    ∧ (∀ email' d, email' ≠ email →
         getDashboardData now email' defaultPrice s' = (Returns d, s') → order ∉ orders d).
Proof.
  intros Ho He Hd Hm Hc s' order now defaultPrice.
  assert (Firestore.coll "orders" s' !! id = Some ({["userEmail" := VStr email]} ∪ data)) as Hd'.
  { apply claimOrder_claims; [done..| |done]. apply in_query. split; [done|].
    by apply where_eq_string. }
  assert (order !! "userEmail" = Some (VStr email)) as Hu.
  { unfold order. rewrite with_id_other by done. by apply lookup_union_Some_l. }
  split.
  - exists (summary now email defaultPrice s'). split; [apply getDashboardData_summary|].
    simpl. apply elem_of_user_orders. exists id, ({["userEmail" := VStr email]} ∪ data).
    split_and!; [done| |done]. by apply lookup_union_Some_l.
  - intros email' d Hne Hrun. rewrite getDashboardData_summary in Hrun.
    injection Hrun as <-. simpl. intros Hin.
    apply elem_of_user_orders in Hin as (id' & data' & _ & Hu' & Heq).
    rewrite Heq, with_id_other in Hu by done. congruence.
Qed.

End Claims.

Lemma claimOrder_claims_every_match_witness :
  ∃ r s',
    claimOrder "X" "a@b.com" split_shipment = (Returns r, s')
    ∧ (∀ id, Firestore.coll "orders" s' !! id
             = claim_all "X" "a@b.com" <$> Firestore.coll "orders" split_shipment !! id)
    ∧ (∀ id data, Firestore.coll "orders" s' !! id = Some data →
                  data !! "orderId" = Some (VStr "X") →
                  JS.truthy (data !! "userEmail") = true)
    ∧ (∀ id data, Firestore.coll "orders" split_shipment !! id = Some data →
                  data !! "orderId" ≠ Some (VStr "X") →
                  Firestore.coll "orders" s' !! id = Some data)
    ∧ (∀ c, c ≠ "orders" → Firestore.coll c s' = Firestore.coll c split_shipment)
    ∧ (r = None ↔ matching "X" split_shipment = [])
    ∧ (∀ o, r = Some o →
         ∃ id data, Firestore.coll "orders" s' !! id = Some data ∧ o = with_id id data
                    ∧ data !! "orderId" = Some (VStr "X")
                    ∧ JS.truthy (data !! "userEmail") = true).
Proof. apply (claimOrder_claims_every_match "X" "a@b.com" split_shipment); done. Defined.

Lemma claimOrder_repeated_witness :
  claimOrder "X" "c@d.com" (claimOrder "X" "a@b.com" split_shipment).2
  = claimOrder "X" "a@b.com" split_shipment.
Proof. apply (claimOrder_repeated "X" "a@b.com" "c@d.com" split_shipment); done. Defined.

Lemma claimed_order_reaches_dashboard_witness :
  let s' := (claimOrder "X" "a@b.com" split_shipment).2 in
  let order := with_id "o2" ({["userEmail" := VStr "a@b.com"]}
                             ∪ {[ "orderId" := VStr "X"; "rewardGrams" := VNum 7 ]}) in
  (∃ d, getDashboardData (H := Ecma.host) 1706745600000 "a@b.com" None s' = (Returns d, s')
        ∧ order ∈ orders d)
  ∧ (∀ email' d, email' ≠ "a@b.com" →
       getDashboardData (H := Ecma.host) 1706745600000 email' None s' = (Returns d, s') →
       order ∉ orders d).
Proof.
  apply (claimed_order_reaches_dashboard (H := Ecma.host) "X" "a@b.com" "o2"
           {[ "orderId" := VStr "X"; "rewardGrams" := VNum 7 ]} split_shipment);
    first [done | vm_compute; reflexivity].
Defined.

(** ** What no helper does *)

Section Invariants.
Context `{Host}.
Implicit Types (s : database) (id : string) (data : doc).

(** X8: every helper writes to one collection at most, its own: orders for
    the order helpers and the claim, redemptions, users, queries, shops, and
    [config] for the price.  Every other collection is after the call what it
    was before, whether the call returns or throws. *)
Theorem helpers_write_their_own_collection (c : call) s (c' : string) :
  c' ≠ target c → Firestore.coll c' (after c s) = Firestore.coll c' s.
Proof. apply after_frame. Qed.

(** X10: no helper deletes a redemption or changes its fields, [status] and
    [approvedAt] apart: after any call a stored redemption is still stored,
    with the same grams and email, and is either unchanged or approved. *)
Theorem redemptions_are_permanent (c : call) s id data :
  Firestore.coll "redemptions" s !! id = Some data →
  ∃ data',
    Firestore.coll "redemptions" (after c s) !! id = Some data'
    ∧ (∀ k, k ≠ "status" → k ≠ "approvedAt" → data' !! k = data !! k)
    ∧ (data' = data ∨ data' !! "status" = Some (VStr "approved")).
Proof.
  intros Hd.
  destruct (decide (target c = "redemptions")) as [Ht|Ht];
    [|exists data; rewrite after_frame by done; auto].
  destruct c; try discriminate; cbn [after].
  - exists data. split_and!; [|done|by left].
    unfold createRedemption, mbind, Async_bind, Firestore.add.
    destruct (Firestore.coll "redemptions" s !! id0) eqn:Hd0; simpl; [done|].
    rewrite lookup_put_ne; [done|]. congruence.
  - exists data. auto.
  - destruct (decide (id0 = id)) as [->|Hne].
    + destruct (JS.is_string "approved" (data !! "status")) eqn:Hst.
      * rewrite (approve_approved now id data s Hd Hst). exists data. auto.
      * rewrite (approve_other now id data s Hd Hst). simpl.
        exists (approved_at now data). rewrite lookup_put. split_and!; [done| |right].
        -- apply approved_at_other.
        -- apply approved_at_status.
    + exists data. split_and!; [|done|by left].
      destruct (Firestore.coll "redemptions" s !! id0) as [data0|] eqn:Hd0.
      * destruct (JS.is_string "approved" (data0 !! "status")) eqn:Hst.
        -- by rewrite (approve_approved now id0 data0 s Hd0 Hst).
        -- rewrite (approve_other now id0 data0 s Hd0 Hst). simpl. by rewrite lookup_put_ne.
      * by rewrite (approve_missing now id0 s Hd0).
Qed.

(** X9: apart from [updateOrder] and [deleteOrder], no helper deletes an
    order or changes a field of it other than [userEmail]; and [userEmail]
    changes only by a claim of the order's own [orderId], on an order that
    had none, to the claimant's email. *)
Theorem orders_change_by_update_or_delete_only (c : call) s id data :
  Firestore.coll "orders" s !! id = Some data →
  (∀ id' updates, c ≠ UpdateOrder id' updates) → (∀ id', c ≠ DeleteOrder id') →
  ∃ data',
    Firestore.coll "orders" (after c s) !! id = Some data'
    ∧ (∀ k, k ≠ "userEmail" → data' !! k = data !! k)
    ∧ (data' = data ∨ (JS.truthy (data !! "userEmail") = false
                       ∧ ∃ email, c = ClaimOrder (match data !! "orderId" with
                                                  | Some (VStr o) => o
                                                  | _ => ""
                                                  end) email
                                  ∧ data' !! "userEmail" = Some (VStr email))).
Proof.
  intros Hd Hupdate Hdelete.
  destruct (decide (target c = "orders")) as [Ht|Ht];
    [|exists data; rewrite after_frame by done; auto].
  destruct c; try discriminate; cbn [after].
  - exists data. split_and!; [|done|by left].
    unfold createOrder, mbind, Async_bind, Firestore.add.
    destruct (Firestore.coll "orders" s !! id0) eqn:Hd0; simpl; [done|].
    rewrite lookup_put_ne; [done|]. congruence.
  - exists data. auto.
  - exists data. auto.
  - by destruct (Hupdate id0 updates).
  - by destruct (Hdelete id0).
  - destruct (decide (orderId = "")) as [Ho|Ho];
      [exists data; rewrite claimOrder_invalid by auto; auto|].
    destruct (decide (email = "")) as [He|He];
      [exists data; rewrite claimOrder_invalid by auto; auto|].
    destruct (claimOrder_run orderId email s Ho He) as (s' & -> & Hm & _). simpl.
    exists (claim_all orderId email data). rewrite Hm, lookup_fmap, Hd. simpl.
    split_and!; [done| |].
    + intros k Hk. unfold claim_all. destruct (Firestore.where_eq _ _ data); [|done].
      by apply claim_doc_other.
    + unfold claim_all. destruct (Firestore.where_eq "orderId" (VStr orderId) data) eqn:Hw; [|by left].
      unfold claim_doc, claimed. destruct (JS.truthy (data !! "userEmail")) eqn:Hc; [by left|].
      right. split; [done|]. exists email. apply where_eq_string in Hw. rewrite Hw.
      split; [done|]. by apply lookup_union_Some_l.
  - exists data. rewrite getDashboardData_summary. auto.
Qed.

End Invariants.

Lemma helpers_write_their_own_collection_witness :
  Firestore.coll "redemptions"
    (after (H := Ecma.host) (ClaimOrder "X" "a@b.com") ledger_10_2_3)
  = Firestore.coll "redemptions" ledger_10_2_3.
Proof.
  apply (helpers_write_their_own_collection (H := Ecma.host)
           (ClaimOrder "X" "a@b.com") ledger_10_2_3 "redemptions").
  done.
Defined.

Lemma orders_change_by_update_or_delete_only_witness :
  ∃ data',
    Firestore.coll "orders" (after (H := Ecma.host) (ClaimOrder "X" "a@b.com") split_shipment)
      !! "o1" = Some data'
    ∧ data' !! "rewardGrams" = Some (VNum 5)
    ∧ data' !! "orderId" = Some (VStr "X").
Proof.
  destruct (orders_change_by_update_or_delete_only (H := Ecma.host)
              (ClaimOrder "X" "a@b.com") split_shipment "o1"
              {[ "orderId" := VStr "X"; "rewardGrams" := VNum 5 ]})
    as (data' & Hd & Hsame & _); [vm_compute; reflexivity|done..|].
  exists data'. split_and!; [done|by rewrite Hsame..].
Defined.

Lemma redemptions_are_permanent_witness :
  ∃ data',
    Firestore.coll "redemptions"
      (after (H := Ecma.host) (ApproveRedemption "2024-03-01T00:00:00.000Z" "r1") ledger_10_2_3)
      !! "r1" = Some data'
    ∧ (∀ k, k ≠ "status" → k ≠ "approvedAt" → data' !! k = pending_request !! k)
    ∧ (data' = pending_request ∨ data' !! "status" = Some (VStr "approved")).
Proof.
  apply (redemptions_are_permanent (H := Ecma.host)
           (ApproveRedemption "2024-03-01T00:00:00.000Z" "r1") ledger_10_2_3 "r1" pending_request).
  vm_compute; reflexivity.
Defined.

(** ** Creating, updating and deleting *)

Section Orders.
Implicit Types (s : database) (id customId : string) (data updates : doc).

(** X19: [createOrder] under an id the store did not hold returns a record
    that [getOrder] returns from then on and that [listOrders()] lists.  The
    record has the fields of the input, the generated [_customId] (over one
    the input may carry), and as [id] the store's id, unless the input has a
    field [id] of its own, which wins.  The other orders read as before. *)
Theorem createOrder_round_trip id customId data s :
  Firestore.coll "orders" s !! id = None →
  ∃ order s',
    createOrder id customId data s = (Returns order, s')
    ∧ getOrder id s' = (Returns (Some order), s')
    ∧ (∃ l, listOrders None s' = (Returns l, s') ∧ order ∈ l)
    ∧ order !! "_customId" = Some (VStr customId)
    ∧ order !! "id" = Some (default (VStr id) (data !! "id"))
    ∧ (∀ k, k ≠ "_customId" → k ≠ "id" → order !! k = data !! k)
    ∧ (∀ id', id' ≠ id → (getOrder id' s').1 = (getOrder id' s).1).
Proof.
  intros Hfresh.
  set (stored := <["_customId" := VStr customId]> data).
  exists (with_id id stored), (Firestore.put "orders" id stored s). split_and!.
  - unfold createOrder, mbind, Async_bind, Firestore.add. by rewrite Hfresh.
  - unfold getOrder, mbind, Async_bind, Firestore.get. by rewrite lookup_put.
  - eexists. split.
    + unfold listOrders. simpl. unfold mbind, Async_bind. rewrite query_all. reflexivity.
    + apply elem_of_records. exists id, stored. by rewrite lookup_put.
  - rewrite with_id_other by done. apply lookup_insert_eq.
  - rewrite with_id_id. unfold stored. by rewrite lookup_insert_ne.
  - intros k Hc Hi. rewrite with_id_other by done. unfold stored. by rewrite lookup_insert_ne.
  - intros id' Hne. unfold getOrder, mbind, Async_bind, Firestore.get. simpl.
    by rewrite lookup_put_ne.
Qed.

(** X20: [updateOrder] on a stored order, with updates that name top-level
    fields, returns the order with the named fields at their new values and
    the others as they were, and [getOrder] returns the same from then on;
    [userEmail] is a field like the others, so an update can reassign a
    claimed order.  The other orders and collections are untouched. *)
Theorem updateOrder_overlays id updates data s :
  Firestore.coll "orders" s !! id = Some data →
  updates ≠ ∅ → (∀ k, is_Some (updates !! k) → top_level k = true) →
  ∃ order s',
    updateOrder id updates s = (Returns order, s')
    ∧ getOrder id s' = (Returns (Some order), s')
    ∧ (∀ k v, updates !! k = Some v → k ≠ "id" → order !! k = Some v)
    ∧ (∀ k, updates !! k = None → k ≠ "id" → order !! k = data !! k)
    ∧ (∀ id', id' ≠ id → Firestore.coll "orders" s' !! id' = Firestore.coll "orders" s !! id')
    ∧ (∀ c, c ≠ "orders" → Firestore.coll c s' = Firestore.coll c s).
Proof.
  intros Hd _ _.
  exists (with_id id (updates ∪ data)), (Firestore.put "orders" id (updates ∪ data) s). split_and!.
  - unfold updateOrder, mbind, Async_bind, Firestore.update, Firestore.get.
    rewrite Hd. by rewrite lookup_put.
  - unfold getOrder, mbind, Async_bind, Firestore.get. by rewrite lookup_put.
  - intros k v Hk Hi. rewrite with_id_other by done. by apply lookup_union_Some_l.
  - intros k Hk Hi. rewrite with_id_other by done. by apply lookup_union_r.
  - intros id' Hne. by rewrite lookup_put_ne.
  - intros c Hne. by rewrite coll_put_ne.
Qed.

End Orders.

Section Missing.
Implicit Types (s : database) (id now email : string) (data updates : doc).

(** X21: on an id that is not stored, [updateOrder] and [updateShop] throw
    and write nothing, while [updateUser] creates the user, as a record that
    holds the updates and nothing else (no [email], no [createdAt] unless the
    updates name them); [approveRedemption], [getOrder], [getShop] and
    [getUser] return [null].  (The ids are strings that can name a document,
    where a result is promised.) *)
Theorem writes_to_missing_documents :
  (∀ id updates s,
     Firestore.coll "orders" s !! id = None →
     ∃ msg, updateOrder id updates s = (Throws msg, s))
  ∧ (∀ now id updates s,
       Firestore.coll "shops" s !! id = None →
       ∃ msg, updateShop now id updates s = (Throws msg, s))
  ∧ (∀ email updates s,
       document_id email = true →
       Firestore.coll "users" s !! email = None →
       ∃ s', updateUser email updates s = (Returns (with_id email updates), s')
             ∧ getUser email s' = (Returns (Some (with_id email updates)), s')
             ∧ Firestore.coll "users" s' !! email = Some updates)
  ∧ (∀ now id s,
       document_id id = true →
       Firestore.coll "redemptions" s !! id = None →
       approveRedemption now id s = (Returns None, s))
  ∧ (∀ id s,
       document_id id = true →
       Firestore.coll "orders" s !! id = None → getOrder id s = (Returns None, s))
  ∧ (∀ id s,
       document_id id = true →
       Firestore.coll "shops" s !! id = None → getShop id s = (Returns None, s))
  ∧ (∀ email s,
       document_id email = true →
       Firestore.coll "users" s !! email = None → getUser email s = (Returns None, s)).
Proof.
  split_and!.
  - intros id updates s Hd. exists "NOT_FOUND".
    unfold updateOrder, mbind, Async_bind, Firestore.update. by rewrite Hd.
  - intros now id updates s Hd. exists "NOT_FOUND".
    unfold updateShop, mbind, Async_bind, Firestore.update. by rewrite Hd.
  - intros email updates s _ Hd. exists (Firestore.put "users" email updates s).
    assert (updates ∪ (∅ : doc) = updates) as Hu by apply (right_id _ _).
    split_and!.
    + unfold updateUser, mbind, Async_bind, Firestore.set_merge, Firestore.get.
      rewrite Hd. simpl. by rewrite Hu, lookup_put.
    + unfold getUser, mbind, Async_bind, Firestore.get. by rewrite lookup_put.
    + apply lookup_put.
  - intros now id s _. apply approve_missing.
  - intros id s _ Hd. unfold getOrder, mbind, Async_bind, Firestore.get. by rewrite Hd.
  - intros id s _ Hd. unfold getShop, mbind, Async_bind, Firestore.get. by rewrite Hd.
  - intros email s _ Hd. unfold getUser, mbind, Async_bind, Firestore.get. by rewrite Hd.
Qed.

End Missing.

Section Deleting.
Context `{Host}.
Implicit Types (s : database) (key : string).

(** X22: [deleteUser], [deleteOrder], [deleteQuery] and [deleteShop] return
    [{ success: true }] whether or not the document exists (its id being a
    string that can name a document); afterwards the
    document is gone, the other documents of the collection and the other
    collections are as before (deleting a user or an order removes none of
    the orders or redemptions that refer to it), a second deletion changes
    nothing, and so does the deletion of a document that is not stored. *)
Theorem deleting_removes_one_document (c : call) key s :
  document_id key = true →
  c ∈ [DeleteUser key; DeleteOrder key; DeleteQuery key; DeleteShop key] →
  Firestore.coll (target c) (after c s) !! key = None
  ∧ (∀ key', key' ≠ key →
       Firestore.coll (target c) (after c s) !! key' = Firestore.coll (target c) s !! key')
  ∧ (∀ c', c' ≠ target c → Firestore.coll c' (after c s) = Firestore.coll c' s)
  ∧ (∀ c', Firestore.coll c' (after c (after c s)) = Firestore.coll c' (after c s))
  ∧ (Firestore.coll (target c) s !! key = None →
       ∀ c', Firestore.coll c' (after c s) = Firestore.coll c' s)
  ∧ (deleteUser key s).1 = Returns success ∧ (deleteOrder key s).1 = Returns success
  ∧ (deleteQuery key s).1 = Returns success ∧ (deleteShop key s).1 = Returns success.
Proof.
  intros _ Hc.
  assert (after c s = (Firestore.delete (target c) key s).2) as Hafter.
  { repeat (apply elem_of_cons in Hc as [->|Hc]; [done|]). by apply elem_of_nil in Hc. }
  assert (after c (after c s) = (Firestore.delete (target c) key (after c s)).2) as Hagain.
  { repeat (apply elem_of_cons in Hc as [->|Hc]; [done|]). by apply elem_of_nil in Hc. }
  assert (∀ c', c' ≠ target c → Firestore.coll c' (after c s) = Firestore.coll c' s) as Hframe.
  { intros c' Hne. rewrite Hafter. by apply coll_delete_ne. }
  assert (Firestore.coll (target c) (after c s) = delete key (Firestore.coll (target c) s)) as Hdel.
  { rewrite Hafter. apply coll_delete. }
  split_and!.
  - rewrite Hdel. apply lookup_delete_eq.
  - intros key' Hne. rewrite Hdel. by apply lookup_delete_ne.
  - exact Hframe.
  - intros c'. rewrite Hagain. destruct (decide (c' = target c)) as [->|Hne].
    + rewrite coll_delete, Hdel. apply delete_id, lookup_delete_eq.
    + by rewrite coll_delete_ne.
  - intros Hnone c'. destruct (decide (c' = target c)) as [->|Hne]; [|by apply Hframe].
    rewrite Hdel. by apply delete_id.
  - done.
  - done.
  - done.
  - done.
Qed.

End Deleting.

Lemma createOrder_round_trip_witness :
  ∃ order s',
    createOrder "o4" "c4" {[ "orderId" := VStr "Z"; "id" := VStr "mine" ]} split_shipment
    = (Returns order, s')
    ∧ getOrder "o4" s' = (Returns (Some order), s')
    ∧ (∃ l, listOrders None s' = (Returns l, s') ∧ order ∈ l)
    ∧ order !! "_customId" = Some (VStr "c4")
    ∧ order !! "id"
      = Some (default (VStr "o4")
                (({[ "orderId" := VStr "Z"; "id" := VStr "mine" ]} : doc) !! "id"))
    ∧ (∀ k, k ≠ "_customId" → k ≠ "id" →
            order !! k = ({[ "orderId" := VStr "Z"; "id" := VStr "mine" ]} : doc) !! k)
    ∧ (∀ id', id' ≠ "o4" → (getOrder id' s').1 = (getOrder id' split_shipment).1).
Proof.
  apply (createOrder_round_trip "o4" "c4" {[ "orderId" := VStr "Z"; "id" := VStr "mine" ]}
           split_shipment).
  vm_compute; reflexivity.
Defined.

Lemma updateOrder_overlays_witness :
  ∃ order s',
    updateOrder "o1" {[ "userEmail" := VStr "c@d.com" ]} claimed_order_store = (Returns order, s')
    ∧ getOrder "o1" s' = (Returns (Some order), s')
    ∧ order !! "userEmail" = Some (VStr "c@d.com")
    ∧ order !! "rewardGrams" = Some (VNum 5).
Proof.
  destruct (updateOrder_overlays "o1" {[ "userEmail" := VStr "c@d.com" ]}
              {[ "orderId" := VStr "X"; "rewardGrams" := VNum 5; "userEmail" := VStr "a@b.com" ]}
              claimed_order_store)
    as (order & s' & Hrun & Hget & Hnew & Hold & _).
  - vm_compute; reflexivity.
  - intros Heq. apply (f_equal (lookup "userEmail")) in Heq. vm_compute in Heq. discriminate.
  - intros k [v Hk]. destruct (decide (k = "userEmail")) as [->|Hne]; [reflexivity|].
    by rewrite lookup_singleton_ne in Hk.
  - exists order, s'. split_and!; [done..| |].
    + by apply Hnew.
    + by rewrite Hold.
Defined.

Lemma deleting_removes_one_document_witness :
  Firestore.coll "orders" (after (H := Ecma.host) (DeleteOrder "o1") split_shipment) !! "o1" = None
  ∧ Firestore.coll "orders" (after (H := Ecma.host) (DeleteOrder "o1") split_shipment) !! "o2"
    = Firestore.coll "orders" split_shipment !! "o2".
Proof.
  destruct (deleting_removes_one_document (H := Ecma.host) (DeleteOrder "o1") "o1" split_shipment)
    as (Hgone & Hkept & _).
  - reflexivity.
  - apply elem_of_cons. right. left.
  - split; [exact Hgone|]. by apply Hkept.
Defined.

(** ** User records *)

Section Profiles.
Context `{Host}.
Implicit Types (s : database) (now email : string) (data updates existing : doc).

Lemma createUser_new now email data s :
  data !! "email" = Some (VStr email) → email ≠ "" →
  Firestore.coll "users" s !! email = None →
  let user := <["updatedAt" := VStr now]>
                (<["createdAt" := VStr now]> (delete "email" data ∪ {["email" := VStr email]})) in
  createUser now data s = (Returns (with_id email user), Firestore.put "users" email user s).
Proof.
  intros He Hne Hnew user. unfold createUser. rewrite He. simpl.
  apply String.eqb_neq in Hne. rewrite Hne. simpl.
  unfold mbind, Async_bind, Firestore.get, Firestore.set. rewrite Hnew. simpl.
  by rewrite lookup_put.
Qed.

Lemma createUser_returned now data s (r : doc) :
  (createUser now data s).1 = Returns r →
  ∃ email user,
    data !! "email" = Some (VStr email) ∧ email ≠ ""
    ∧ r = with_id email user
    ∧ createUser now data s = (Returns r, Firestore.put "users" email user s)
    ∧ user !! "updatedAt" = Some (VStr now).
Proof.
  intros Hr.
  destruct (data !! "email") as [[| |?|email]|] eqn:He;
    try (unfold createUser in Hr; rewrite He in Hr; simpl in Hr;
         first [discriminate | destruct (negb _); discriminate]).
  - destruct (decide (email = "")) as [->|Hne].
    { unfold createUser in Hr. by rewrite He in Hr. }
    destruct (Firestore.coll "users" s !! email) as [existing|] eqn:Hex.
    + rewrite (createUser_existing now email data existing s He Hne Hex) in Hr |- *.
      injection Hr as <-. exists email, (merged now data existing).
      split_and!; try done. apply merged_updatedAt.
    + rewrite (createUser_new now email data s He Hne Hex) in Hr |- *.
      injection Hr as <-. eexists email, _. split_and!; try done.
      apply lookup_insert_eq.
Qed.

(** X23: whenever [createUser] returns a record, the input's [email] is a
    non-empty string, [getUser] of that email returns the same record from
    then on, [listUsers] lists it, its [updatedAt] is the time of the call,
    and no other user and no other collection has changed. *)
Theorem createUser_then_getUser now data s (r : doc) :
  (createUser now data s).1 = Returns r →
  ∃ email,
    data !! "email" = Some (VStr email) ∧ email ≠ ""
    ∧ getUser email (createUser now data s).2 = (Returns (Some r), (createUser now data s).2)
    ∧ (∃ l, listUsers (createUser now data s).2 = (Returns l, (createUser now data s).2)
            ∧ r ∈ l)
    ∧ r !! "updatedAt" = Some (VStr now)
    ∧ (∀ c, c ≠ "users" →
         Firestore.coll c (createUser now data s).2 = Firestore.coll c s)
    ∧ (∀ email', email' ≠ email →
         Firestore.coll "users" (createUser now data s).2 !! email'
         = Firestore.coll "users" s !! email').
Proof.
  intros Hr. destruct (createUser_returned now data s r Hr) as (email & user & He & Hne & -> & Hrun & Hu).
  exists email. rewrite Hrun. simpl. split_and!; try done.
  - unfold getUser, mbind, Async_bind, Firestore.get. by rewrite lookup_put.
  - eexists. split.
    + unfold listUsers, mbind, Async_bind. rewrite query_all. reflexivity.
    + apply elem_of_records. exists email, user. by rewrite lookup_put.
  - by rewrite with_id_other.
  - intros c Hc. by rewrite coll_put_ne.
  - intros email' Hne'. by rewrite lookup_put_ne.
Qed.

(** X24: a user whose record was first written by [updateUser] (under an
    email that can name a document) has no
    [createdAt], and a later [createUser] does not add one: it finds the
    record, merges into it and stamps [updatedAt] only.  The record has an
    [email] field only if the updates named one. *)
Theorem updateUser_first_leaves_no_createdAt now email updates data s :
  document_id email = true →
  Firestore.coll "users" s !! email = None →
  updates !! "createdAt" = None → data !! "createdAt" = None →
  data !! "email" = Some (VStr email) →
  let s1 := (updateUser email updates s).2 in
  ∃ user,
    createUser now data s1 = (Returns (with_id email user), Firestore.put "users" email user s1)
    ∧ user !! "createdAt" = None
    ∧ user !! "email" = updates !! "email"
    ∧ user !! "updatedAt" = Some (VStr now).
Proof.
  intros Hid Hnew Hu Hd He s1.
  assert (email ≠ "") as Hne by (by intros ->).
  assert (Firestore.coll "users" s1 !! email = Some updates) as Hex.
  { unfold s1, updateUser, mbind, Async_bind, Firestore.set_merge, Firestore.get. simpl.
    rewrite Hnew. simpl. rewrite lookup_put. f_equal. apply (right_id _ _). }
  exists (merged now data updates). split_and!.
  - by apply createUser_existing.
  - rewrite merged_kept; auto.
  - rewrite merged_kept; auto.
  - apply merged_updatedAt.
Qed.

(** X25: after [deleteUser] of an email that can name a document, [getUser]
    returns [null], and a [createUser] for the same email starts afresh: [createdAt] and [updatedAt] are the
    time of the new call and the other fields are the input's, nothing of the
    deleted record comes back. *)
Theorem deleteUser_then_createUser now email data s :
  data !! "email" = Some (VStr email) → document_id email = true →
  let s1 := (deleteUser email s).2 in
  getUser email s1 = (Returns None, s1)
  ∧ ∃ user,
      createUser now data s1 = (Returns (with_id email user), Firestore.put "users" email user s1)
      ∧ user !! "createdAt" = Some (VStr now)
      ∧ user !! "updatedAt" = Some (VStr now)
      ∧ user !! "email" = Some (VStr email)
      ∧ (∀ k, k ≠ "createdAt" → k ≠ "updatedAt" → k ≠ "email" → user !! k = data !! k).
Proof.
  intros He Hid s1.
  assert (email ≠ "") as Hne by (by intros ->).
  assert (Firestore.coll "users" s1 !! email = None) as Hgone.
  { unfold s1. change (deleteUser email s).2 with (Firestore.delete "users" email s).2.
    rewrite coll_delete. apply lookup_delete_eq. }
  split.
  - unfold getUser, mbind, Async_bind, Firestore.get. by rewrite Hgone.
  - eexists. split_and!.
    + by apply createUser_new.
    + by rewrite lookup_insert_ne, lookup_insert_eq.
    + by rewrite lookup_insert_eq.
    + rewrite !lookup_insert_ne by done. apply lookup_union_Some_r.
      * apply map_disjoint_singleton_r, lookup_delete_eq.
      * apply lookup_singleton_eq.
    + intros k H1 H2 H3. rewrite !lookup_insert_ne by done.
      rewrite lookup_union, lookup_singleton_ne, lookup_delete_ne by done.
      by destruct (data !! k).
Qed.

End Profiles.

Lemma createUser_then_getUser_witness :
  ∃ email,
    ({[ "email" := VStr "a@b.com"; "phone" := VStr "555" ]} : doc) !! "email" = Some (VStr email)
    ∧ email ≠ ""
    ∧ getUser email
        (createUser "2024-03-01T00:00:00.000Z"
           {[ "email" := VStr "a@b.com"; "phone" := VStr "555" ]} user_created).2
      = (Returns (Some {[ "id" := VStr "a@b.com"; "email" := VStr "a@b.com";
                          "displayName" := VStr "A"; "phone" := VStr "555";
                          "createdAt" := VStr "2024-01-01T00:00:00.000Z";
                          "updatedAt" := VStr "2024-03-01T00:00:00.000Z" ]}),
         (createUser "2024-03-01T00:00:00.000Z"
            {[ "email" := VStr "a@b.com"; "phone" := VStr "555" ]} user_created).2).
Proof.
  destruct (createUser_then_getUser "2024-03-01T00:00:00.000Z"
              {[ "email" := VStr "a@b.com"; "phone" := VStr "555" ]} user_created
              {[ "id" := VStr "a@b.com"; "email" := VStr "a@b.com";
                 "displayName" := VStr "A"; "phone" := VStr "555";
                 "createdAt" := VStr "2024-01-01T00:00:00.000Z";
                 "updatedAt" := VStr "2024-03-01T00:00:00.000Z" ]})
    as (email & He & Hne & Hget & _).
  - vm_compute; exact eq_refl.
  - exists email. by split_and!.
Defined.

Lemma updateUser_first_leaves_no_createdAt_witness :
  let s1 := (updateUser "a@b.com" {[ "phone" := VStr "555" ]} ∅).2 in
  ∃ user,
    createUser "2024-03-01T00:00:00.000Z" {[ "email" := VStr "a@b.com" ]} s1
    = (Returns (with_id "a@b.com" user), Firestore.put "users" "a@b.com" user s1)
    ∧ user !! "createdAt" = None
    ∧ user !! "email" = ({[ "phone" := VStr "555" ]} : doc) !! "email"
    ∧ user !! "updatedAt" = Some (VStr "2024-03-01T00:00:00.000Z").
Proof.
  apply (updateUser_first_leaves_no_createdAt "2024-03-01T00:00:00.000Z" "a@b.com"
           {[ "phone" := VStr "555" ]} {[ "email" := VStr "a@b.com" ]} ∅);
    first [done | vm_compute; reflexivity].
Defined.

Lemma deleteUser_then_createUser_witness :
  let data : doc := {[ "email" := VStr "a@b.com" ]} in
  let s1 := (deleteUser "a@b.com" user_created).2 in
  getUser "a@b.com" s1 = (Returns None, s1)
  ∧ ∃ user,
      createUser "2024-03-01T00:00:00.000Z" data s1
      = (Returns (with_id "a@b.com" user), Firestore.put "users" "a@b.com" user s1)
      ∧ user !! "createdAt" = Some (VStr "2024-03-01T00:00:00.000Z")
      ∧ user !! "updatedAt" = Some (VStr "2024-03-01T00:00:00.000Z")
      ∧ user !! "email" = Some (VStr "a@b.com")
      ∧ (∀ k, k ≠ "createdAt" → k ≠ "updatedAt" → k ≠ "email" → user !! k = data !! k).
Proof.
  apply (deleteUser_then_createUser "2024-03-01T00:00:00.000Z" "a@b.com"
           {[ "email" := VStr "a@b.com" ]} user_created); done.
Defined.

(** ** Shops and queries *)

Section Shops.
Context `{Host}.
Implicit Types (s : database) (now id customId : string) (data updates : doc).

(** X26: [createShop] under an id the store did not hold returns a record
    that [getShop] returns from then on, that [listShops] lists and that the
    summary of every user carries (a summary's shops are what [listShops]
    returns).  Its [createdAt] is the time of the call, over one the input
    may carry; its other fields are the input's. *)
Theorem createShop_round_trip now id data s :
  Firestore.coll "shops" s !! id = None →
  ∃ shop s',
    createShop now id data s = (Returns shop, s')
    ∧ getShop id s' = (Returns (Some shop), s')
    ∧ (∃ l, listShops s' = (Returns l, s') ∧ shop ∈ l)
    ∧ (∀ (clock : Z) email defaultPrice,
         ∃ d, getDashboardData clock email defaultPrice s' = (Returns d, s')
              ∧ shop ∈ shops d ∧ listShops s' = (Returns (shops d), s'))
    ∧ shop !! "createdAt" = Some (VStr now)
    ∧ (∀ k, k ≠ "createdAt" → k ≠ "id" → shop !! k = data !! k).
Proof.
  intros Hfresh.
  set (stored := <["createdAt" := VStr now]> data).
  set (s' := Firestore.put "shops" id stored s).
  assert (listShops s' = (Returns (records (map_to_list (Firestore.coll "shops" s'))), s')) as Hlist.
  { unfold listShops, mbind, Async_bind. by rewrite query_all. }
  assert (with_id id stored ∈ records (map_to_list (Firestore.coll "shops" s'))) as Hin.
  { apply elem_of_records. exists id, stored. unfold s'. by rewrite lookup_put. }
  exists (with_id id stored), s'. split_and!.
  - unfold createShop, mbind, Async_bind, Firestore.add, Firestore.get.
    rewrite Hfresh. by rewrite lookup_put.
  - unfold getShop, mbind, Async_bind, Firestore.get. unfold s'. by rewrite lookup_put.
  - eauto.
  - intros clock email defaultPrice. exists (summary clock email defaultPrice s').
    split_and!; [apply getDashboardData_summary|exact Hin|exact Hlist].
  - rewrite with_id_other by done. apply lookup_insert_eq.
  - intros k Hc Hi. rewrite with_id_other by done. unfold stored. by rewrite lookup_insert_ne.
Qed.

(** X27: [updateShop] on a stored shop, with updates that name top-level
    fields, sets [updatedAt] to the time of the call, over one the updates
    may carry, gives the other named fields their new values and keeps the
    rest ([createdAt] among them, unless named); [getShop] returns the result
    from then on and the other shops are untouched. *)
Theorem updateShop_stamps now id updates data s :
  Firestore.coll "shops" s !! id = Some data →
  (∀ k, is_Some (updates !! k) → top_level k = true) →
  ∃ shop s',
    updateShop now id updates s = (Returns shop, s')
    ∧ getShop id s' = (Returns (Some shop), s')
    ∧ shop !! "updatedAt" = Some (VStr now)
    ∧ (∀ k v, updates !! k = Some v → k ≠ "updatedAt" → k ≠ "id" → shop !! k = Some v)
    ∧ (∀ k, updates !! k = None → k ≠ "updatedAt" → k ≠ "id" → shop !! k = data !! k)
    ∧ (∀ id', id' ≠ id → Firestore.coll "shops" s' !! id' = Firestore.coll "shops" s !! id').
Proof.
  intros Hd _.
  set (stored := <["updatedAt" := VStr now]> updates ∪ data).
  exists (with_id id stored), (Firestore.put "shops" id stored s). split_and!.
  - unfold updateShop, mbind, Async_bind, Firestore.update, Firestore.get.
    rewrite Hd. by rewrite lookup_put.
  - unfold getShop, mbind, Async_bind, Firestore.get. by rewrite lookup_put.
  - rewrite with_id_other by done. apply lookup_union_Some_l, lookup_insert_eq.
  - intros k v Hk Hu Hi. rewrite with_id_other by done.
    apply lookup_union_Some_l. by rewrite lookup_insert_ne.
  - intros k Hk Hu Hi. rewrite with_id_other by done.
    apply lookup_union_r. by rewrite lookup_insert_ne.
  - intros id' Hne. by rewrite lookup_put_ne.
Qed.

(** X28: [createQuery] under an id the store did not hold returns the input
    with the generated [_customId]; [listQueries] then lists it, and one
    query more than before; after [deleteQuery] of its id, [listQueries]
    returns what it returned before the query was created. *)
Theorem query_lifecycle id customId data s :
  Firestore.coll "queries" s !! id = None →
  let s1 := (createQuery id customId data s).2 in
  let s2 := (deleteQuery id s1).2 in
  ∃ query l1,
    createQuery id customId data s = (Returns query, s1)
    ∧ query !! "_customId" = Some (VStr customId)
    ∧ (∀ k, k ≠ "_customId" → k ≠ "id" → query !! k = data !! k)
    ∧ listQueries s1 = (Returns l1, s1)
    ∧ query ∈ l1
    ∧ length l1 = S (length (default [] (returned (listQueries s))))
    ∧ deleteQuery id s1 = (Returns success, s2)
    ∧ (listQueries s2).1 = (listQueries s).1.
Proof.
  intros Hfresh s1 s2.
  set (stored := <["_customId" := VStr customId]> data).
  assert (createQuery id customId data s
          = (Returns (with_id id stored), Firestore.put "queries" id stored s)) as Hcreate.
  { unfold createQuery, mbind, Async_bind, Firestore.add. by rewrite Hfresh. }
  assert (s1 = Firestore.put "queries" id stored s) as Hs1 by (unfold s1; by rewrite Hcreate).
  assert (∀ s0, listQueries s0 = (Returns (records (map_to_list (Firestore.coll "queries" s0))), s0))
    as Hlist.
  { intros s0. unfold listQueries, mbind, Async_bind. by rewrite query_all. }
  assert (Firestore.coll "queries" s2 = Firestore.coll "queries" s) as Hback.
  { unfold s2. change (deleteQuery id s1).2 with (Firestore.delete "queries" id s1).2.
    rewrite coll_delete, Hs1, coll_put. by apply delete_insert_id. }
  exists (with_id id stored), (records (map_to_list (Firestore.coll "queries" s1))). split_and!.
  - by rewrite Hcreate, Hs1.
  - rewrite with_id_other by done. apply lookup_insert_eq.
  - intros k Hc Hi. rewrite with_id_other by done. unfold stored. by rewrite lookup_insert_ne.
  - apply Hlist.
  - apply elem_of_records. exists id, stored. by rewrite Hs1, lookup_put.
  - rewrite Hlist. unfold returned, records. simpl. rewrite !length_map, !length_map_to_list.
    rewrite Hs1, coll_put. by apply map_size_insert_None.
  - done.
  - rewrite !Hlist. simpl. by rewrite Hback.
Qed.

End Shops.

Lemma createShop_round_trip_witness :
  ∃ shop s',
    createShop "2024-03-01T00:00:00.000Z" "s2"
      {[ "name" := VStr "Mint"; "createdAt" := VStr "1999-12-31T00:00:00.000Z" ]} one_shop
    = (Returns shop, s')
    ∧ getShop "s2" s' = (Returns (Some shop), s')
    ∧ shop !! "createdAt" = Some (VStr "2024-03-01T00:00:00.000Z")
    ∧ shop !! "name" = Some (VStr "Mint").
Proof.
  destruct (createShop_round_trip (H := Ecma.host) "2024-03-01T00:00:00.000Z" "s2"
              {[ "name" := VStr "Mint"; "createdAt" := VStr "1999-12-31T00:00:00.000Z" ]} one_shop)
    as (shop & s' & Hrun & Hget & _ & _ & Hcreated & Hother).
  - vm_compute; reflexivity.
  - exists shop, s'. split_and!; [done..|]. by rewrite Hother.
Defined.

Lemma updateShop_stamps_witness :
  ∃ shop s',
    updateShop "2024-03-01T00:00:00.000Z" "s1"
      {[ "name" := VStr "Mint"; "updatedAt" := VStr "1999-12-31T00:00:00.000Z" ]} one_shop
    = (Returns shop, s')
    ∧ shop !! "updatedAt" = Some (VStr "2024-03-01T00:00:00.000Z")
    ∧ shop !! "name" = Some (VStr "Mint")
    ∧ shop !! "createdAt" = Some (VStr "2024-01-01T00:00:00.000Z").
Proof.
  destruct (updateShop_stamps "2024-03-01T00:00:00.000Z" "s1"
              {[ "name" := VStr "Mint"; "updatedAt" := VStr "1999-12-31T00:00:00.000Z" ]}
              {[ "name" := VStr "Vault"; "createdAt" := VStr "2024-01-01T00:00:00.000Z" ]} one_shop)
    as (shop & s' & Hrun & _ & Hstamp & Hnew & Hold & _).
  - vm_compute; reflexivity.
  - intros k [v Hk]. destruct (decide (k = "name")) as [->|Hn]; [reflexivity|].
    destruct (decide (k = "updatedAt")) as [->|Hu]; [reflexivity|].
    by rewrite lookup_insert_ne, lookup_singleton_ne in Hk.
  - exists shop, s'. split_and!; [done..| |].
    + by apply Hnew.
    + by rewrite Hold.
Defined.

Lemma query_lifecycle_witness :
  let s1 := (createQuery "q1" "c1" {[ "message" := VStr "hello" ]} one_shop).2 in
  let s2 := (deleteQuery "q1" s1).2 in
  ∃ query l1,
    createQuery "q1" "c1" {[ "message" := VStr "hello" ]} one_shop = (Returns query, s1)
    ∧ query !! "_customId" = Some (VStr "c1")
    ∧ (∀ k, k ≠ "_customId" → k ≠ "id" →
            query !! k = ({[ "message" := VStr "hello" ]} : doc) !! k)
    ∧ listQueries s1 = (Returns l1, s1)
    ∧ query ∈ l1
    ∧ length l1 = S (length (default [] (returned (listQueries one_shop))))
    ∧ deleteQuery "q1" s1 = (Returns success, s2)
    ∧ (listQueries s2).1 = (listQueries one_shop).1.
Proof.
  apply (query_lifecycle "q1" "c1" {[ "message" := VStr "hello" ]} one_shop).
  vm_compute; reflexivity.
Defined.

(** ** Listing redemptions, and the price again *)

Section Prices.
Context `{Host}.
Implicit Types (s : database) (email : string) (price : option value).

(** X29: with a non-empty [email], [listRedemptions] returns the stored
    redemptions whose [email] field is that string, each with its id.  These
    include every redemption the summary subtracts for that user (the list
    and the summary select on the same field), and all of them are in the
    unfiltered list. *)
Theorem listRedemptions_covers_outstanding email s :
  email ≠ "" →
  ∃ l,
    listRedemptions (Some email) s = (Returns l, s)
    ∧ (∀ r, r ∈ l ↔ ∃ id data, Firestore.coll "redemptions" s !! id = Some data
                                ∧ data !! "email" = Some (VStr email)
                                ∧ r = with_id id data)
    ∧ (∀ d, d ∈ outstanding email s → ∃ id, with_id id d ∈ l)
    ∧ (∀ all, listRedemptions None s = (Returns all, s) → ∀ r, r ∈ l → r ∈ all).
Proof.
  intros Hne.
  set (l := records (List.filter (fun kv => Firestore.where_eq "email" (VStr email) kv.2)
                       (map_to_list (Firestore.coll "redemptions" s)))).
  assert (∀ r, r ∈ l ↔ ∃ id data, Firestore.coll "redemptions" s !! id = Some data
                                ∧ data !! "email" = Some (VStr email)
                                ∧ r = with_id id data) as Hl.
  { intros r. unfold l, records. rewrite list_elem_of_In, in_map_iff. split.
    - intros ([id data] & <- & Hin). apply filter_In in Hin as [Hin Hp].
      exists id, data. split_and!; [|by apply where_eq_string|done].
      by apply elem_of_map_to_list, list_elem_of_In.
    - intros (id & data & Hd & Hm & ->). exists (id, data). split; [done|].
      apply filter_In. split; [|by apply where_eq_string].
      by apply list_elem_of_In, elem_of_map_to_list. }
  exists l. split_and!.
  - unfold listRedemptions. simpl. apply String.eqb_neq in Hne. by rewrite Hne.
  - exact Hl.
  - intros d Hd. apply elem_of_outstanding in Hd as (id & Hd & He & _).
    exists id. apply Hl. eauto.
  - intros all Hall r Hr. unfold listRedemptions in Hall. simpl in Hall.
    unfold mbind, Async_bind in Hall. rewrite query_all in Hall. injection Hall as <-.
    apply Hl in Hr as (id & data & Hd & _ & ->). apply elem_of_records. eauto.
Qed.

(** X6: of two calls of [setGoldPrice] the second wins: the price document
    holds [parseFloat] of the second input and the time of the second call,
    and keeps its fields other than [price] and [updatedAt]; [getGoldPrice]
    returns that number whatever default it is given, and every summary
    reports it as [currentPrice].  A change of price changes no order, no
    total of grams, no redeemable balance and no progress. *)
Theorem setGoldPrice_last_wins (now1 now2 : string) price1 price2 s :
  let s2 := (setGoldPrice now2 price2 (setGoldPrice now1 price1 s).2).2 in
  ∃ d,
    Firestore.coll "config" s2 !! "goldPrice" = Some d
    ∧ d !! "price" = Some (VNum (JS.parseFloat price2))
    ∧ d !! "updatedAt" = Some (VStr now2)
    ∧ (∀ k, k ≠ "price" → k ≠ "updatedAt" →
         d !! k = default ∅ (Firestore.coll "config" s !! "goldPrice") !! k)
    ∧ (∀ defaultPrice,
         getGoldPrice defaultPrice s2 = (Returns (Some (VNum (JS.parseFloat price2))), s2))
    ∧ (∀ (clock : Z) email defaultPrice,
         ∃ before dash,
           getDashboardData clock email defaultPrice s = (Returns before, s)
           ∧ getDashboardData clock email defaultPrice s2 = (Returns dash, s2)
           ∧ currentPrice dash = Some (VNum (JS.parseFloat price2))
           ∧ orders dash = orders before
           ∧ totalGrams dash = totalGrams before
           ∧ redeemableGrams dash = redeemableGrams before
           ∧ progress dash = progress before)
    ∧ (∀ c, c ≠ "config" → Firestore.coll c s2 = Firestore.coll c s).
Proof.
  intros s2. set (s1 := (setGoldPrice now1 price1 s).2).
  assert (s1 = Firestore.put "config" "goldPrice" (priced now1 price1 s) s) as Hs1 by done.
  assert (s2 = Firestore.put "config" "goldPrice" (priced now2 price2 s1) s1) as Hs2 by done.
  assert (priced now2 price2 s1 !! "price" = Some (VNum (JS.parseFloat price2))) as Hp
    by (by apply lookup_union_Some_l).
  assert (∀ c, c ≠ "config" → Firestore.coll c s2 = Firestore.coll c s) as Hc.
  { intros c Hne. rewrite Hs2, Hs1. by rewrite !coll_put_ne. }
  assert (∀ defaultPrice, price_of defaultPrice s2 = Some (VNum (JS.parseFloat price2))) as Hprice.
  { intros defaultPrice. unfold price_of. by rewrite Hs2, lookup_put, Hp. }
  exists (priced now2 price2 s1). split_and!.
  - rewrite Hs2. apply lookup_put.
  - exact Hp.
  - by apply lookup_union_Some_l.
  - intros k Hk Hu. unfold priced at 1. rewrite lookup_union_r
      by (by rewrite lookup_insert_ne, lookup_singleton_ne).
    rewrite Hs1, lookup_put. simpl. unfold priced. apply lookup_union_r.
    by rewrite lookup_insert_ne, lookup_singleton_ne.
  - intros defaultPrice. by rewrite getGoldPrice_price_of, Hprice.
  - intros clock email defaultPrice.
    exists (summary clock email defaultPrice s), (summary clock email defaultPrice s2).
    split_and!; [apply getDashboardData_summary..|apply Hprice| | | |]; simpl;
      unfold vestedGramsSum, outstandingGramsSum, outstanding, user_orders;
      by rewrite !Hc.
  - exact Hc.
Qed.

End Prices.

Lemma listRedemptions_covers_outstanding_witness :
  ∃ l,
    listRedemptions (Some "a@b.com") ledger_10_2_3 = (Returns l, ledger_10_2_3)
    ∧ (∀ r, r ∈ l ↔ ∃ id data, Firestore.coll "redemptions" ledger_10_2_3 !! id = Some data
                                ∧ data !! "email" = Some (VStr "a@b.com")
                                ∧ r = with_id id data)
    ∧ (∀ d, d ∈ outstanding "a@b.com" ledger_10_2_3 → ∃ id, with_id id d ∈ l)
    ∧ (∀ all, listRedemptions None ledger_10_2_3 = (Returns all, ledger_10_2_3) →
              ∀ r, r ∈ l → r ∈ all).
Proof. apply (listRedemptions_covers_outstanding "a@b.com" ledger_10_2_3). done. Defined.

(** ** A price that is not a number *)

Section NotANumber.
Context `{Host}.
Implicit Types (s : database) (now : Z) (email : string) (defaultPrice price : option value).
Implicit Types (x y : float).

Lemma is_nan_spec x : is_nan x = true ↔ Prim2SF x = S754_nan.
Proof.
  unfold is_nan. rewrite FloatAxioms.eqb_spec. unfold SFeqb, SFcompare.
  destruct (Prim2SF x) as [sx|sx| |sx m e]; simpl; try (split; [discriminate|discriminate]).
  - by destruct sx.
  - done.
  - rewrite Z.compare_refl, Pos.compare_cont_refl. by destruct sx.
Qed.

Lemma is_nan_mul_r x y : is_nan y = true → is_nan (x * y) = true.
Proof.
  rewrite !is_nan_spec, FloatAxioms.mul_spec. intros ->.
  unfold SF64mul, SFmul. by destruct (Prim2SF x).
Qed.

Lemma is_nan_add_r x y : is_nan y = true → is_nan (x + y) = true.
Proof.
  rewrite !is_nan_spec, FloatAxioms.add_spec. intros ->.
  unfold SF64add, SFadd. by destruct (Prim2SF x).
Qed.

Lemma is_nan_add_l x y : is_nan x = true → is_nan (x + y) = true.
Proof. rewrite !is_nan_spec, FloatAxioms.add_spec. by intros ->. Qed.

Lemma worth_nan price (l : list doc) :
  is_nan (JS.ToNumber price) = true → l ≠ [] → is_nan (worth price l) = true.
Proof.
  intros Hp Hl. unfold worth.
  assert (∀ l' acc, is_nan acc = true →
            is_nan (fold_left (fun acc d => (acc + JS.ToNumber (reward d) * JS.ToNumber price)%float)
                      l' acc) = true) as Hrest.
  { induction l' as [|d l' IH]; intros acc Hacc; simpl; [done|].
    apply IH. by apply is_nan_add_l. }
  destruct l as [|d l]; [done|]. simpl. apply Hrest.
  by apply is_nan_add_r, is_nan_mul_r.
Qed.

Lemma toFixed_nan x (f : nat) : is_nan x = true → JS.toFixed x f = "NaN".
Proof. intros Hx. unfold JS.toFixed. by rewrite Hx. Qed.

(** X30: when the price in force is not a number, the [totalValue] of
    every user who has an order is NaN.  The price in force is [undefined]
    when there is no price document and no default, and when the price
    document has no [price]; it is NaN after a [setGoldPrice] whose input
    [parseFloat] does not read. *)
Theorem price_not_a_number now email defaultPrice s :
  ∃ d, getDashboardData now email defaultPrice s = (Returns d, s)
       ∧ (is_nan (JS.ToNumber (currentPrice d)) = true → orders d ≠ [] →
            is_nan (totalValue d) = true)
       ∧ (Firestore.coll "config" s !! "goldPrice" = None → defaultPrice = None →
            currentPrice d = None ∧ is_nan (JS.ToNumber (currentPrice d)) = true)
       ∧ (∀ data, Firestore.coll "config" s !! "goldPrice" = Some data →
            data !! "price" = None →
            currentPrice d = None ∧ is_nan (JS.ToNumber (currentPrice d)) = true)
       ∧ (∀ (stamp : string) price s0,
            s = (setGoldPrice stamp price s0).2 → is_nan (JS.parseFloat price) = true →
            is_nan (JS.ToNumber (currentPrice d)) = true).
Proof.
  exists (summary now email defaultPrice s). split_and!.
  - apply getDashboardData_summary.
  - simpl. intros Hp Ho. rewrite toFixed_nan by (by apply worth_nan). reflexivity.
  - simpl. intros Hd ->. unfold price_of. by rewrite Hd.
  - simpl. intros data Hd Hp. unfold price_of. by rewrite Hd, Hp.
  - intros stamp price s0 -> Hp.
    change (is_nan (JS.ToNumber (price_of defaultPrice (setGoldPrice stamp price s0).2)) = true).
    rewrite setGoldPrice_returns. unfold price_of. cbn [snd]. rewrite lookup_put. unfold priced.
    erewrite lookup_union_Some_l by apply lookup_insert_eq. done.
Qed.

End NotANumber.

(** The ledger of the example, with no price set and no default. *)
Example price_not_a_number_ledger :
  (is_nan ∘ totalValue) <$>
    returned (getDashboardData (H := Ecma.host) 1706745600000 "a@b.com" None ledger_10_2_3)
  = Some true.
Proof. vm_compute. reflexivity. Qed.
